(** * Verification of the event-driven task backend

    Shallow embedding of the pieces of the backend that the specification
    talks about:
    - [events/publisher.py]: the per-task sequence allocator and
      [publish_event];
    - [events/schemas.py]: [CloudEvent.create_task_event];
    - [services/audit/logger.py]: [write_audit_log];
    - [services/recurring-task/task_creator.py]: [calculate_next_due_date]
      and [create_next_task_occurrence];
    - [services/recurring-task/consumer.py] and [main.py]: the
      [task.completed] handler and its HTTP endpoint;
    - [routers/tasks.py]: the events emitted by [create_task];
    - [services/sync/websocket.py]: the [ConnectionManager] registry.

    Definitions come first (one module per source file), the theorems
    follow. *)

From Stdlib Require Import ZArith Lia.
From stdpp Require Import base gmap list strings.

Open Scope Z_scope.
Set Warnings "-register-all".

(* ------------------------------------------------------------------ *)
(** ** Python exceptions and results *)

Module Py.

(** The exception classes the modelled code raises or catches. All of them
    are subclasses of [Exception], so a bare [except Exception] catches any
    of them. *)
Inductive exc : Type :=
| ConnectError          (* httpx.ConnectError *)
| TimeoutException      (* httpx.TimeoutException *)
| HTTPStatusError       (* httpx.HTTPStatusError *)
| IntegrityError        (* sqlalchemy.exc.IntegrityError *)
| OperationalError      (* sqlalchemy.exc.OperationalError *)
| AttributeError
| OverflowError
| ValueError
| TypeError
| KeyError
| OtherError.

(** The result of a Python call: it returns a value or raises. *)
Inductive outcome (A : Type) : Type :=
| Ret (a : A)
| Raise (e : exc).
Arguments Ret {A} a.
Arguments Raise {A} e.

Definition bind {A B} (m : outcome A) (k : A -> outcome B) : outcome B :=
  match m with Ret a => k a | Raise e => Raise e end.

End Py.

Notation "x <- m ;; k" := (Py.bind m (fun x => k))
  (at level 100, m at next level, right associativity).

(* ------------------------------------------------------------------ *)
(** ** events/publisher.py : the sequence allocator *)

Module Publisher.

(** [_sequence_counters: dict[str, int]], a module-level mutable dict. *)
Definition _get_next_sequence (task_id : string) (sc : gmap string Z)
  : Z * gmap string Z :=
  let current := default 0 (sc !! task_id) in
  let next_seq := current + 1 in
  (next_seq, <[task_id := next_seq]> sc).

(** A sequence of calls threading the shared counter dict; returns the
    value of each call in order. *)
Fixpoint run_allocator (calls : list string) (sc : gmap string Z)
  : list Z * gmap string Z :=
  match calls with
  | [] => ([], sc)
  | k :: rest =>
      let '(n, sc1) := _get_next_sequence k sc in
      let '(ns, sc2) := run_allocator rest sc1 in
      (n :: ns, sc2)
  end.

(** httpx's [Response.raise_for_status]: any status outside 2xx raises
    [HTTPStatusError]. *)
Definition raise_for_status (status_code : Z) : Py.outcome unit :=
  if (200 <=? status_code) && (status_code <? 300) then Py.Ret tt
  else Py.Raise Py.HTTPStatusError.

(** [publish_event(topic, event)]. [post] is what
    [client.post(url, json=event.model_dump(), ...)] does inside the
    [async with httpx.AsyncClient(...)] block: it raises (connection
    refused, timeout, serialisation, ...) or returns a response with a
    status code. The log lines are omitted. *)
Definition publish_event (post : Py.outcome Z) : Py.outcome bool :=
  let body :=
    response <- post ;;
    _ <- raise_for_status response ;;
    Py.Ret true in
  match body with
  | Py.Ret b => Py.Ret b
  | Py.Raise Py.ConnectError => Py.Ret false
  | Py.Raise Py.HTTPStatusError => Py.Ret false
  | Py.Raise _ => Py.Ret false
  end.

End Publisher.

(* ------------------------------------------------------------------ *)
(** ** events/schemas.py : CloudEvent envelopes *)

Module Schemas.

(** JSON values produced by pydantic's [model_dump]; a dict is an
    association list in insertion order (its keys are the model fields,
    hence distinct). *)
Inductive json : Type :=
| JNull
| JStr (s : string)
| JInt (z : Z)
| JList (l : list json)
| JObj (kv : list (string * json)).

Fixpoint dict_get (k : string) (d : list (string * json)) : option json :=
  match d with
  | [] => None
  | (k', v) :: d' => if String.eqb k k' then Some v else dict_get k d'
  end.

Inductive TaskEventType := CREATED | UPDATED | COMPLETED | DELETED.

Definition TaskEventType_value (t : TaskEventType) : string :=
  match t with
  | CREATED => "com.todo.task.created"
  | UPDATED => "com.todo.task.updated"
  | COMPLETED => "com.todo.task.completed"
  | DELETED => "com.todo.task.deleted"
  end.

Record TaskEventPayload := {
  title : string;
  description : option string;
  status : string;
  priority : string;
  tags : option (list string);
  due_date : option string;
  recurring_pattern : string;
  recurring_interval : Z;
  changed_fields : option (list string)
}.

Definition opt_str (o : option string) : json :=
  match o with Some s => JStr s | None => JNull end.

Definition opt_strs (o : option (list string)) : json :=
  match o with Some l => JList (map JStr l) | None => JNull end.

Definition payload_dump (p : TaskEventPayload) : json :=
  JObj [("title", JStr (title p));
        ("description", opt_str (description p));
        ("status", JStr (status p));
        ("priority", JStr (priority p));
        ("tags", opt_strs (tags p));
        ("due_date", opt_str (due_date p));
        ("recurring_pattern", JStr (recurring_pattern p));
        ("recurring_interval", JInt (recurring_interval p));
        ("changed_fields", opt_strs (changed_fields p))].

(** [TaskEventData(...).model_dump()]. *)
Definition task_event_data_dump (task_id user_id : string) (sequence : Z)
    (idempotency_key : string) (payload : TaskEventPayload)
  : list (string * json) :=
  [("task_id", JStr task_id);
   ("user_id", JStr user_id);
   ("sequence", JInt sequence);
   ("idempotency_key", JStr idempotency_key);
   ("payload", payload_dump payload)].

Record CloudEvent := {
  specversion : string;
  type : string;
  source : string;
  id : string;
  time : string;
  datacontenttype : string;
  data : list (string * json)
}.

(** [CloudEvent.create_task_event]. The fresh [uuid4()] draw and the
    default-factory timestamp are inputs of the embedding. UUIDs are
    represented by their [str(...)] form. *)
Definition create_task_event (uuid4 now : string) (event_type : TaskEventType)
    (task_id user_id : string) (sequence : Z) (payload : TaskEventPayload)
  : CloudEvent :=
  let event_id := uuid4 in
  let d := task_event_data_dump task_id user_id sequence event_id payload in
  {| specversion := "1.0";
     type := TaskEventType_value event_type;
     source := "backend-api";
     id := event_id;
     time := now;
     datacontenttype := "application/json";
     data := d |}.

Inductive ReminderEventType := SCHEDULE | CANCEL.

Definition ReminderEventType_value (t : ReminderEventType) : string :=
  match t with
  | SCHEDULE => "com.todo.reminder.schedule"
  | CANCEL => "com.todo.reminder.cancel"
  end.

(** [SyncEventType.SYNC.value]. *)
Definition SyncEventType_SYNC : string := "com.todo.task.sync".

(** [ReminderEventData(...).model_dump()]. *)
Definition reminder_event_data_dump (task_id user_id due_date reminder_time : string)
    (notification_channels : list string) (user_email : option string)
    (device_tokens : option (list string)) : list (string * json) :=
  [("task_id", JStr task_id);
   ("user_id", JStr user_id);
   ("due_date", JStr due_date);
   ("reminder_time", JStr reminder_time);
   ("notification_channels", JList (map JStr notification_channels));
   ("user_email", opt_str user_email);
   ("device_tokens", opt_strs device_tokens)].

(** [CloudEvent.create_reminder_event]. The aware datetimes are given as
    instants and [isoformat] is [datetime.isoformat]; [uuid4] and [now] are
    the default factories of [id] and [time]. The channels are
    [notification_channels or ["email", "push"]]: [None] and the empty list
    are falsy. *)
Definition create_reminder_event (uuid4 now : string) (isoformat : Z -> string)
    (event_type : ReminderEventType) (task_id user_id : string)
    (due_date reminder_time : Z) (notification_channels : option (list string))
    (user_email : option string) (device_tokens : option (list string))
  : CloudEvent :=
  let channels := match notification_channels with
                  | Some ((_ :: _) as l) => l
                  | _ => ["email"; "push"]
                  end in
  let d := reminder_event_data_dump task_id user_id (isoformat due_date)
             (isoformat reminder_time) channels user_email device_tokens in
  {| specversion := "1.0";
     type := ReminderEventType_value event_type;
     source := "backend-api";
     id := uuid4;
     time := now;
     datacontenttype := "application/json";
     data := d |}.

(** [TaskUpdateEventData(...).model_dump()]. *)
Definition task_update_event_data_dump (task_id user_id : string) (sequence : Z)
    (changed_fields : list (string * json)) : list (string * json) :=
  [("task_id", JStr task_id);
   ("user_id", JStr user_id);
   ("sequence", JInt sequence);
   ("changed_fields", JObj changed_fields)].

(** [CloudEvent.create_sync_event]. *)
Definition create_sync_event (uuid4 now : string) (task_id user_id : string)
    (sequence : Z) (changed_fields : list (string * json)) : CloudEvent :=
  {| specversion := "1.0";
     type := SyncEventType_SYNC;
     source := "backend-api";
     id := uuid4;
     time := now;
     datacontenttype := "application/json";
     data := task_update_event_data_dump task_id user_id sequence changed_fields |}.

End Schemas.

(* ------------------------------------------------------------------ *)
(** ** services/audit/logger.py : idempotent audit writes *)

Module AuditLogger.

(** The audit_log table, seen through its unique [event_id] column: one
    entry per persisted row. *)
Abbreviation table := (list string).

(** A database failure other than the unique-constraint violation: an
    [OperationalError] (connection lost, database down) or an unexpected
    exception. *)
Inductive db_fault := DbOperational | DbUnexpected.

Definition fault_exc (f : db_fault) : Py.exc :=
  match f with
  | DbOperational => Py.OperationalError
  | DbUnexpected => Py.OtherError
  end.

(** What the database does during one attempt of the retry loop:
    [select_err] is raised by the existence check,
    [racer] is a concurrent redelivery that inserts the same [event_id]
    between the check and the commit, [commit_err] is a failure of the
    commit (the unique-constraint violation is not a fault: it follows
    from the table's contents). *)
Record attempt_env := {
  select_err : option db_fault;
  racer : bool;
  commit_err : option db_fault
}.

Definition env_ok : attempt_env :=
  {| select_err := None; racer := false; commit_err := None |}.

Definition row_exists (event_id : string) (t : table) : bool :=
  bool_decide (event_id ∈ t).

(** [session.add(audit_log); await session.commit()]: the unique constraint
    on [event_id] makes the commit raise [IntegrityError] when the row is
    already there; a failed commit writes nothing. *)
Definition commit (env : attempt_env) (event_id : string) (t : table)
  : table * Py.outcome unit :=
  match commit_err env with
  | Some f => (t, Py.Raise (fault_exc f))
  | None =>
      if row_exists event_id t then (t, Py.Raise Py.IntegrityError)
      else (event_id :: t, Py.Ret tt)
  end.

(** The body of the [try] block of one attempt. *)
Definition attempt_body (env : attempt_env) (event_id : string) (t : table)
  : table * Py.outcome bool :=
  match select_err env with
  | Some f => (t, Py.Raise (fault_exc f))
  | None =>
      if row_exists event_id t then (t, Py.Ret true)
      else
        let t1 := if racer env then event_id :: t else t in
        let '(t2, r) := commit env event_id t1 in
        (t2, _ <- r ;; Py.Ret true)
  end.

Definition max_retries : nat := 3.

Inductive step_result := Return (b : bool) | Continue.

(** The [except] clauses of one attempt. *)
Definition handle (attempt : nat) (r : Py.outcome bool) : step_result :=
  match r with
  | Py.Ret b => Return b
  | Py.Raise Py.IntegrityError => Return true
  | Py.Raise Py.OperationalError =>
      if Nat.ltb attempt (max_retries - 1) then Continue else Return false
  | Py.Raise _ => Return false
  end.

Fixpoint attempts_loop (envs : nat -> attempt_env) (event_id : string)
    (attempts : list nat) (t : table) : table * bool :=
  match attempts with
  | [] => (t, false)
  | a :: rest =>
      let '(t1, r) := attempt_body (envs a) event_id t in
      match handle a r with
      | Return b => (t1, b)
      | Continue => attempts_loop envs event_id rest t1
      end
  end.

(** [write_audit_log(event_id, ...)]: [for attempt in range(max_retries)].
    The columns other than [event_id] do not influence the control flow. *)
Definition write_audit_log (envs : nat -> attempt_env) (event_id : string)
    (t : table) : table * bool :=
  attempts_loop envs event_id (seq 0 max_retries) t.


End AuditLogger.

(* ------------------------------------------------------------------ *)
(** ** Python's datetime and dateutil's relativedelta *)

Module DateTime.

(** A [datetime.datetime]; [tzinfo] is the UTC offset in minutes of an
    aware datetime, [None] for a naive one. *)
Record datetime := {
  year : Z; month : Z; day : Z;
  hour : Z; minute : Z; second : Z; microsecond : Z;
  tzinfo : option Z
}.

Definition MINYEAR : Z := 1.
Definition MAXYEAR : Z := 9999.

Definition _is_leap (y : Z) : bool :=
  (y mod 4 =? 0) && (negb (y mod 100 =? 0) || (y mod 400 =? 0)).

(** [_days_in_month]; also [calendar.monthrange(year, month)[1]]. *)
Definition _days_in_month (y m : Z) : Z :=
  if (m =? 2) && _is_leap y then 29
  else match m with
       | 1 => 31 | 2 => 28 | 3 => 31 | 4 => 30 | 5 => 31 | 6 => 30
       | 7 => 31 | 8 => 31 | 9 => 30 | 10 => 31 | 11 => 30 | _ => 31
       end.

Definition _days_before_year (y : Z) : Z :=
  let y := y - 1 in y * 365 + y / 4 - y / 100 + y / 400.

Definition _DAYS_BEFORE_MONTH (m : Z) : Z :=
  match m with
  | 1 => 0 | 2 => 31 | 3 => 59 | 4 => 90 | 5 => 120 | 6 => 151
  | 7 => 181 | 8 => 212 | 9 => 243 | 10 => 273 | 11 => 304 | 12 => 334
  | _ => -1
  end.

Definition _days_before_month (y m : Z) : Z :=
  _DAYS_BEFORE_MONTH m + (if (m >? 2) && _is_leap y then 1 else 0).

(** [_ymd2ord]: proleptic Gregorian ordinal, 0001-01-01 is day 1. *)
Definition toordinal (d : datetime) : Z :=
  _days_before_year (year d) + _days_before_month (year d) (month d) + day d.

(** The fields satisfy the range checks of the [datetime] constructor. *)
Definition valid (d : datetime) : Prop :=
  MINYEAR <= year d <= MAXYEAR /\ 1 <= month d <= 12 /\
  1 <= day d <= _days_in_month (year d) (month d) /\
  0 <= hour d < 24 /\ 0 <= minute d < 60 /\ 0 <= second d < 60 /\
  0 <= microsecond d < 1000000.

(** The calendar day after [d], time of day unchanged; stepping past
    9999-12-31 raises [OverflowError] ("date value out of range"). *)
Definition next_day (d : datetime) : Py.outcome datetime :=
  if day d <? _days_in_month (year d) (month d) then
    Py.Ret {| year := year d; month := month d; day := day d + 1;
              hour := hour d; minute := minute d; second := second d;
              microsecond := microsecond d; tzinfo := tzinfo d |}
  else if month d <? 12 then
    Py.Ret {| year := year d; month := month d + 1; day := 1;
              hour := hour d; minute := minute d; second := second d;
              microsecond := microsecond d; tzinfo := tzinfo d |}
  else if year d <? MAXYEAR then
    Py.Ret {| year := year d + 1; month := 1; day := 1;
              hour := hour d; minute := minute d; second := second d;
              microsecond := microsecond d; tzinfo := tzinfo d |}
  else Py.Raise Py.OverflowError.

(** [d + timedelta(days=n)] for [n >= 0]: the calendar day [n] days
    later, same time of day. *)
Fixpoint add_days (d : datetime) (n : nat) : Py.outcome datetime :=
  match n with
  | O => Py.Ret d
  | S n' => d' <- next_day d ;; add_days d' n'
  end.

(** [other.replace(year=..., month=..., day=...)]: the constructor's range
    check on the year raises [ValueError]. *)
Definition replace_ymd (d : datetime) (y m dd : Z) : Py.outcome datetime :=
  if (MINYEAR <=? y) && (y <=? MAXYEAR) then
    Py.Ret {| year := y; month := m; day := dd;
              hour := hour d; minute := minute d; second := second d;
              microsecond := microsecond d; tzinfo := tzinfo d |}
  else Py.Raise Py.ValueError.

(** [relativedelta(years=ys, months=ms).__add__(other)] for
    [0 <= ms <= 12] (the remaining fields of the delta are zero, so the
    trailing [+ timedelta(0)] is the identity):
    {[
      year = other.year + self.years
      month = other.month
      if self.months:
          month += self.months
          if month > 12: year += 1; month -= 12
      day = min(calendar.monthrange(year, month)[1], self.day or other.day)
      return other.replace(year=year, month=month, day=day)
    ]} *)
Definition add_relativedelta (d : datetime) (ys ms : Z) : Py.outcome datetime :=
  let y0 := year d + ys in
  let '(y, m) :=
    if ms =? 0 then (y0, month d)
    else let m := month d + ms in
         if m >? 12 then (y0 + 1, m - 12) else (y0, m) in
  let dd := Z.min (_days_in_month y m) (day d) in
  replace_ymd d y m dd.

(** Same time of day and time zone. *)
Definition same_time (a b : datetime) : Prop :=
  hour a = hour b /\ minute a = minute b /\ second a = second b /\
  microsecond a = microsecond b /\ tzinfo a = tzinfo b.

(** 9999-12-31 is day 3652059, the last one [datetime] represents. *)
Definition MAXORDINAL : Z := 3652059.

(** A naive [datetime(y, m, d, hh, mi)]. *)
Definition dt_of (y m d hh mi : Z) : datetime :=
  {| year := y; month := m; day := d; hour := hh; minute := mi;
     second := 0; microsecond := 0; tzinfo := None |}.

End DateTime.

(* ------------------------------------------------------------------ *)
(** ** services/recurring-task/task_creator.py *)

Module TaskCreator.
Import DateTime.

(** [str.lower()] on the ASCII strings of the model. *)
Definition lower_char (c : Ascii.ascii) : Ascii.ascii :=
  let n := Ascii.nat_of_ascii c in
  if (Nat.leb 65 n && Nat.leb n 90)%bool then Ascii.ascii_of_nat (n + 32) else c.

Fixpoint lower (s : string) : string :=
  match s with
  | EmptyString => EmptyString
  | String c s' => String (lower_char c) (lower s')
  end.

(** [s.replace("Z", "+00:00")]. *)
Fixpoint replace_Z (s : string) : string :=
  match s with
  | EmptyString => EmptyString
  | String c s' =>
      (* the character "Z" *)
      if Ascii.eqb c (Ascii.ascii_of_nat 90)
      then String.append "+00:00" (replace_Z s')
      else String c (replace_Z s')
  end.

(** Truthiness of an [Optional[str]]: [None] and [""] are falsy. *)
Definition truthy (o : option string) : bool :=
  match o with None => false | Some s => negb (String.eqb s "") end.

Definition MAX_RETRIES : nat := 3.

Section WithParser.

(** [datetime.fromisoformat]: [None] when it raises [ValueError]. *)
Variable fromisoformat : string -> option datetime.

(** [calculate_next_due_date(current_due_date, pattern)]. A [pattern] of
    [None] is Python's [None] (what [payload.get("recurring_pattern")]
    yields when the key is absent or null) or any other value that is not
    a string: its [.lower()] raises [AttributeError], outside of any
    [try]. *)
Definition calculate_next_due_date (current_due_date : option string)
    (pattern : option string) : Py.outcome (option datetime) :=
  if negb (truthy current_due_date) then Py.Ret None
  else
    match fromisoformat (replace_Z (default "" current_due_date)) with
    | None => Py.Ret None
    | Some current =>
        match pattern with
        | None => Py.Raise Py.AttributeError
        | Some p =>
            let pattern_lower := lower p in
            if String.eqb pattern_lower "daily" then
              n <- add_days current 1 ;; Py.Ret (Some n)
            else if String.eqb pattern_lower "weekly" then
              n <- add_days current 7 ;; Py.Ret (Some n)
            else if String.eqb pattern_lower "monthly" then
              n <- add_relativedelta current 0 1 ;; Py.Ret (Some n)
            else if String.eqb pattern_lower "yearly" then
              n <- add_relativedelta current 1 0 ;; Py.Ret (Some n)
            else Py.Ret None
        end
    end.

(** The [recurring_pattern] entry of the payload: the key is absent, or
    it holds a string, or another value ([null], a number, ...). *)
Inductive pattern_value := PatAbsent | PatStr (s : string) | PatOther.

#[global] Instance pattern_value_eq_dec : EqDecision pattern_value.
Proof. solve_decision. Defined.

(** [payload.get("recurring_pattern")], as [calculate_next_due_date]
    uses it: a string, or a value without [.lower()]. *)
Definition get_pattern (v : pattern_value) : option string :=
  match v with PatStr s => Some s | _ => None end.

(** The fields of [event_data] that decide the control flow of
    [create_next_task_occurrence]. *)
Record event_data := {
  ed_user_id : option string;
  ed_title : option string;
  ed_recurring_pattern : pattern_value;
  ed_due_date : option string
}.

(** The outcome of [client.post(CREATE_TASK_ENDPOINT, ...)] at each
    attempt: a response (status code, and what [response.json()] makes
    of the body, [None] for a body that is not JSON) or a raised
    exception. *)
Definition post_env : Type := nat -> Py.outcome (Z * option Schemas.json).

Inductive attempt_step := Done (b : bool) | Retry.

(** One iteration of the retry loop (the inner [try] and its handlers).
    On a 201, [response.json()] raises for a body that is not JSON and
    [created_task.get('id')] raises [AttributeError] for a JSON value
    that is not an object; [except Exception] catches both and the loop
    goes on. *)
Definition post_attempt (r : Py.outcome (Z * option Schemas.json)) : attempt_step :=
  match r with
  | Py.Ret (status_code, body) =>
      if status_code =? 201 then
        match body with
        | Some (Schemas.JObj _) => Done true
        | _ => Retry
        end
      else if (status_code =? 400) || (status_code =? 422) then Done false
      else Retry                    (* "Server error, retry with backoff" *)
  | Py.Raise Py.ConnectError => Retry
  | Py.Raise Py.TimeoutException => Retry
  | Py.Raise _ => Retry
  end.

(** [for attempt in range(MAX_RETRIES)]; returns the result and the
    number of POST requests sent. *)
Fixpoint retry_loop (posts : post_env) (attempts : list nat) : bool * nat :=
  match attempts with
  | [] => (false, 0%nat)
  | a :: rest =>
      match post_attempt (posts a) with
      | Done b => (b, 1%nat)
      | Retry => let '(b, n) := retry_loop posts rest in (b, S n)
      end
  end.

(** The part of [create_next_task_occurrence] before the HTTP calls:
    [Ret None] is one of its early [return False]s, [Ret (Some d)] the
    next due date. *)
Definition prepare (ed : event_data) : Py.outcome (option datetime) :=
  if negb (truthy (ed_user_id ed)) then Py.Ret None
  else if negb (truthy (ed_title ed)) then Py.Ret None
  else
    next_due_date <- calculate_next_due_date (ed_due_date ed)
                                             (get_pattern (ed_recurring_pattern ed)) ;;
    Py.Ret next_due_date.

(** [create_next_task_occurrence(event_data)]: the result and the number
    of POST requests sent. The outer [except Exception] turns an exception
    of [prepare] into [False]. *)
Definition create_next_task_occurrence (ed : event_data) (posts : post_env)
  : bool * nat :=
  match prepare ed with
  | Py.Raise _ => (false, 0%nat)
  | Py.Ret None => (false, 0%nat)
  | Py.Ret (Some _) => retry_loop posts (seq 0 MAX_RETRIES)
  end.

End WithParser.

(** The patterns [calculate_next_due_date] knows, compared in lower case. *)
Definition known_pattern (p : string) : bool :=
  String.eqb (lower p) "daily" || String.eqb (lower p) "weekly" ||
  String.eqb (lower p) "monthly" || String.eqb (lower p) "yearly".

(** A [fromisoformat] reading the two timestamps of the spec's examples
    (and nothing else: any other string is a [ValueError]). *)
Definition example_fromisoformat (s : string) : option datetime :=
  if String.eqb s "2024-01-31T10:00" then Some (dt_of 2024 1 31 10 0)
  else if String.eqb s "2024-02-29T10:00" then Some (dt_of 2024 2 29 10 0)
  else None.

(** A completed daily task of the spec's examples, as it reaches the
    task creator. *)
Definition daily_event : event_data :=
  {| ed_user_id := Some "user-1";
     ed_title := Some "Water the plants";
     ed_recurring_pattern := PatStr "daily";
     ed_due_date := Some "2024-01-31T10:00" |}.

End TaskCreator.

(* ------------------------------------------------------------------ *)
(** ** routers/tasks.py : events published by [create_task] *)

Module TasksRouter.

(** Aware datetimes are compared as instants: microseconds since the
    epoch. [timedelta(minutes=15)] in microseconds: *)
Definition FIFTEEN_MINUTES : Z := 15 * 60 * 1000000.

(** The events handed to the publisher, in order. *)
Inductive published :=
| PubTaskCreated                                  (* publish_task_event(CREATED) *)
| PubSync                                         (* publish_sync_event(...) *)
| PubReminderSchedule (due_date reminder_time : Z). (* publish_reminder_event(SCHEDULE) *)

(** A call to one of the [publish_*] helpers: it records the event and
    runs [publish_event] on the transport outcome [post]. *)
Definition publish (post : Py.outcome Z) (ev : published) (log : list published)
  : list published * Py.outcome bool :=
  (log ++ [ev], Publisher.publish_event post).

(** The fire-and-forget block of [create_task] after the commit:
    [posts] are the transport outcomes of the three possible publish
    calls, [now] is [datetime.now(timezone.utc)] and [due_date] the
    stored (timezone-aware) due date. An exception inside the block is
    caught by [except Exception] and only logged. Returns the published
    events. *)
Definition create_task_events (posts : nat -> Py.outcome Z)
    (due_date : option Z) (now : Z) : list published :=
  let '(log1, r1) := publish (posts 0%nat) PubTaskCreated [] in
  match r1 with
  | Py.Raise _ => log1
  | Py.Ret _ =>
      let '(log2, r2) := publish (posts 1%nat) PubSync log1 in
      match r2 with
      | Py.Raise _ => log2
      | Py.Ret _ =>
          match due_date with
          | None => log2
          | Some d =>
              let reminder_time := d - FIFTEEN_MINUTES in
              if reminder_time >? now then
                fst (publish (posts 2%nat) (PubReminderSchedule d reminder_time) log2)
              else log2
          end
      end
  end.

Definition is_reminder (ev : published) : bool :=
  match ev with PubReminderSchedule _ _ => true | _ => false end.

End TasksRouter.

(* ------------------------------------------------------------------ *)
(** ** services/recurring-task/consumer.py and main.py *)

Module RecurringConsumer.
Import TaskCreator.

(** The fields of the CloudEvent read by [handle_task_event]. *)
Record event := {
  ev_id : option string;
  ev_type : option string;
  ev_task_id : option string;
  ev_data : event_data                (* data, as read by the task creator *)
}.

Section WithEnv.

Variable fromisoformat : string -> option DateTime.datetime.
Variable posts : nat -> Py.outcome (Z * option Schemas.json).

(** [payload.get("recurring_pattern", "none")]. *)
Definition recurring_pattern (ed : event_data) : pattern_value :=
  match ed_recurring_pattern ed with
  | PatAbsent => PatStr "none"
  | v => v
  end.

(** [handle_task_event(event)] on the in-memory [_processed_events] set. *)
Definition handle_task_event (processed : list string) (ev : event)
  : list string * bool :=
  match ev_id ev with
  | None => (processed, false)
  | Some event_id =>
      if String.eqb event_id "" then (processed, false)
      else if bool_decide (event_id ∈ processed) then (processed, true)
      else if negb (bool_decide (ev_type ev = Some "com.todo.task.completed"))
      then (event_id :: processed, true)
      else
        if bool_decide (recurring_pattern (ev_data ev) = PatStr "none")
        then (event_id :: processed, true)
        else
          let success :=
            fst (create_next_task_occurrence fromisoformat (ev_data ev) posts) in
          if success then (event_id :: processed, true)
          else (processed, false)
  end.

(** The HTTP answer of [receive_task_event]: status code and the
    [status] field of the JSON body. *)
Record response := { status_code : Z; body_status : string }.

(** [receive_task_event(request)]: [body] is [await request.json()]
    ([None] when parsing raises, or when the body is not a JSON object so
    that [event.get] raises: both end in [HTTPException(500)]).
    [handle_task_event] catches every exception of its own. *)
Definition receive_task_event (processed : list string) (body : option event)
  : list string * response :=
  match body with
  | None =>
      (processed, {| status_code := 500; body_status := "Event processing error" |})
  | Some ev =>
      let '(processed', success) := handle_task_event processed ev in
      if success then (processed', {| status_code := 200; body_status := "processed" |})
      else (processed', {| status_code := 200; body_status := "failed" |})
  end.

End WithEnv.

(** The endpoint's own convention (main.py): a 200 acknowledges the
    delivery and prevents redelivery, a 500 triggers the transport's
    retry. *)
Definition acknowledged (r : response) : bool := status_code r =? 200.

(** A [task.completed] CloudEvent for the daily task of the examples. *)
Definition completed_daily_event : event :=
  {| ev_id := Some "evt-1";
     ev_type := Some "com.todo.task.completed";
     ev_task_id := Some "task-1";
     ev_data := daily_event |}.

End RecurringConsumer.

(* ------------------------------------------------------------------ *)
(** ** services/sync/websocket.py : the connection registry *)

Module SyncWebsocket.

(** [active_connections: Dict[str, Set[WebSocket]]]; a WebSocket is
    identified by a number. *)
Abbreviation registry := (gmap string (gset Z)).

(** [connect(user_id, websocket)]: [accept_ok] is whether
    [await websocket.accept()] returns (it raises otherwise, before the
    registry is touched). *)
Definition connect (accept_ok : bool) (user_id : string) (ws : Z) (m : registry)
  : Py.outcome registry :=
  if negb accept_ok then Py.Raise Py.OtherError
  else
    let m1 := match m !! user_id with
              | None => <[user_id := ∅]> m
              | Some _ => m
              end in
    let s := default ∅ (m1 !! user_id) in
    Py.Ret (<[user_id := s ∪ {[ws]}]> m1).

(** [disconnect(user_id, websocket)]. *)
Definition disconnect (user_id : string) (ws : Z) (m : registry) : registry :=
  match m !! user_id with
  | None => m
  | Some s =>
      let s' := s ∖ {[ws]} in
      let m1 := <[user_id := s']> m in
      if bool_decide (s' = ∅) then delete user_id m1 else m1
  end.

(** [broadcast_to_user(user_id, message)]: [send_fails] are the sockets
    whose [send_json] raises; they are disconnected after the loop, in
    the order of the snapshot [list(self.active_connections[user_id])]. *)
Definition broadcast_to_user (send_fails : Z -> bool) (user_id : string)
    (m : registry) : registry :=
  match m !! user_id with
  | None => m
  | Some s =>
      let connections := elements s in
      let disconnected := filter (fun ws => send_fails ws = true) connections in
      foldl (fun m' ws => disconnect user_id ws m') m disconnected
  end.

(** [get_connection_count()]: the sum of the sizes of the sets. *)
Definition get_connection_count (m : registry) : nat :=
  map_fold (fun _ s acc => (size s + acc)%nat) 0%nat m.

(** The calls a client of the manager can make. *)
Inductive op :=
| Connect (accept_ok : bool) (user_id : string) (ws : Z)
| Disconnect (user_id : string) (ws : Z)
| Broadcast (send_fails : Z -> bool) (user_id : string).

(** A call; a raising [connect] leaves the registry as it was. *)
Definition step (o : op) (m : registry) : registry :=
  match o with
  | Connect ok u ws =>
      match connect ok u ws m with Py.Ret m' => m' | Py.Raise _ => m end
  | Disconnect u ws => disconnect u ws m
  | Broadcast f u => broadcast_to_user f u m
  end.

Definition run (ops : list op) (m : registry) : registry :=
  foldl (fun m' o => step o m') m ops.

(** The registered (user, connection) pairs. *)
Definition pairs (m : registry) : gset (string * Z) :=
  map_fold (fun u s acc => set_map (fun ws => (u, ws)) s ∪ acc) ∅ m.

(** No user key maps to an empty set. *)
Definition no_empty (m : registry) : Prop :=
  forall u s, m !! u = Some s -> s <> ∅.

End SyncWebsocket.

(* ------------------------------------------------------------------ *)
(** ** events/publisher.py helpers and the event blocks of routers/tasks.py *)

Module TaskEvents.

Inductive TaskStatus := PENDING | COMPLETED.

Definition TaskStatus_value (s : TaskStatus) : string :=
  match s with PENDING => "pending" | COMPLETED => "completed" end.

(** A stored task as the routes read it after [db.refresh]; the due date
    is an aware datetime, given as an instant. *)
Record task := {
  t_id : string;
  t_user_id : string;
  t_title : string;
  t_description : option string;
  t_status : TaskStatus;
  t_priority : string;
  t_tags : option (list string);
  t_due_date : option Z;
  t_recurrence : string
}.

(** The values put in the [changed_fields: dict[str, Any]] of sync events. *)
Inductive any := ANone | AStr (s : string) | AStrList (l : list string) | ADatetime (d : Z).

(** [json.dumps], which httpx runs on [json=event.model_dump()] before
    sending: [model_dump()] keeps a [datetime] as it is, and [json.dumps]
    raises [TypeError] on it. *)
Definition any_to_json (v : any) : option Schemas.json :=
  match v with
  | ANone => Some Schemas.JNull
  | AStr s => Some (Schemas.JStr s)
  | AStrList l => Some (Schemas.JList (map Schemas.JStr l))
  | ADatetime _ => None
  end.

Fixpoint fields_to_json (kv : list (string * any))
  : option (list (string * Schemas.json)) :=
  match kv with
  | [] => Some []
  | (k, v) :: rest =>
      match any_to_json v, fields_to_json rest with
      | Some j, Some js => Some ((k, j) :: js)
      | _, _ => None
      end
  end.

(** The publisher's module state and what it sent: [_sequence_counters]
    and the (topic, event) pairs POSTed to the sidecar, in order. *)
Record pub_state := {
  counters : gmap string Z;
  outbox : list (string * Schemas.CloudEvent)
}.

(** The code between [db.commit()] and the response: state passing with
    Python exceptions. *)
Definition M (A : Type) : Type := pub_state -> pub_state * Py.outcome A.

Definition mret {A} (a : A) : M A := fun st => (st, Py.Ret a).

Definition mbind {A B} (m : M A) (k : A -> M B) : M B :=
  fun st =>
    let '(st1, r) := m st in
    match r with
    | Py.Ret a => k a st1
    | Py.Raise e => (st1, Py.Raise e)
    end.

Section WithTransport.

(** [uuid4 k] and [clock k] are the [str(uuid4())] and
    [datetime.now(timezone.utc).isoformat()] drawn when the event is built
    after [k] POSTs; [post k] is the transport outcome of the POST made after
    [k] earlier ones; [isoformat] is [datetime.isoformat]. *)
Variable uuid4 : nat -> string.
Variable clock : nat -> string.
Variable isoformat : Z -> string.
Variable post : nat -> Py.outcome Z.

(** [publish_task_event(event_type, task_id, user_id, payload)]. *)
Definition publish_task_event (event_type : Schemas.TaskEventType)
    (task_id user_id : string) (payload : Schemas.TaskEventPayload) : M bool :=
  fun st =>
    let k := length (outbox st) in
    let '(sequence, sc) := Publisher._get_next_sequence task_id (counters st) in
    let event := Schemas.create_task_event (uuid4 k) (clock k) event_type
                   task_id user_id sequence payload in
    ({| counters := sc; outbox := outbox st ++ [("task-events", event)] |},
     Publisher.publish_event (post k)).

(** [publish_sync_event(task_id, user_id, changed_fields)]. When the body
    cannot be encoded, [client.post] raises [TypeError] before any request
    is made, inside the [try] of [publish_event]. *)
Definition publish_sync_event (task_id user_id : string)
    (changed_fields : list (string * any)) : M bool :=
  fun st =>
    let k := length (outbox st) in
    let '(sequence, sc) := Publisher._get_next_sequence task_id (counters st) in
    match fields_to_json changed_fields with
    | Some cf =>
        let event := Schemas.create_sync_event (uuid4 k) (clock k) task_id user_id
                       sequence cf in
        ({| counters := sc; outbox := outbox st ++ [("task-updates", event)] |},
         Publisher.publish_event (post k))
    | None =>
        ({| counters := sc; outbox := outbox st |},
         Publisher.publish_event (Py.Raise Py.TypeError))
    end.

(** [publish_reminder_event(event_type, task_id, user_id, due_date,
    reminder_time)], the optional arguments left to [None]. *)
Definition publish_reminder_event (event_type : Schemas.ReminderEventType)
    (task_id user_id : string) (due_date reminder_time : Z) : M bool :=
  fun st =>
    let k := length (outbox st) in
    let event := Schemas.create_reminder_event (uuid4 k) (clock k) isoformat
                   event_type task_id user_id due_date reminder_time None None None in
    ({| counters := counters st; outbox := outbox st ++ [("reminders", event)] |},
     Publisher.publish_event (post k)).

(** [TaskEventPayload(...)] as the routes fill it from a task. *)
Definition event_payload (t : task) (changed : option (list string))
  : Schemas.TaskEventPayload :=
  {| Schemas.title := t_title t;
     Schemas.description := t_description t;
     Schemas.status := TaskStatus_value (t_status t);
     Schemas.priority := t_priority t;
     Schemas.tags := t_tags t;
     Schemas.due_date := option_map isoformat (t_due_date t);
     Schemas.recurring_pattern := t_recurrence t;
     Schemas.recurring_interval := 1;
     Schemas.changed_fields := changed |}.

(** [try: <block> except Exception as e: logger.warning(...)]: what was
    published stays published. *)
Definition fire_and_forget (m : M unit) (st : pub_state) : pub_state := fst (m st).

(** [if reminder_time > datetime.now(timezone.utc): publish_reminder_event(
    SCHEDULE, ...)] with [reminder_time = due_date - timedelta(minutes=15)]. *)
Definition schedule_reminder (t : task) (d now : Z) : M unit :=
  let reminder_time := d - TasksRouter.FIFTEEN_MINUTES in
  if reminder_time >? now then
    mbind (publish_reminder_event Schemas.SCHEDULE (t_id t) (t_user_id t) d reminder_time)
          (fun _ => mret tt)
  else mret tt.

(** The publishing block of [create_task]. *)
Definition create_task (t : task) (now : Z) (st : pub_state) : pub_state :=
  fire_and_forget
    (mbind (publish_task_event Schemas.CREATED (t_id t) (t_user_id t) (event_payload t None))
       (fun _ =>
     mbind (publish_sync_event (t_id t) (t_user_id t)
              [("action", AStr "created"); ("title", AStr (t_title t));
               ("status", AStr (TaskStatus_value (t_status t)))])
       (fun _ =>
     match t_due_date t with
     | Some d => schedule_reminder t d now
     | None => mret tt
     end))) st.

Definition toggle_status (s : TaskStatus) : TaskStatus :=
  match s with PENDING => COMPLETED | COMPLETED => PENDING end.

(** [toggle_task_completion] from the found task: the status flip and the
    publishing block. *)
Definition toggle_task_completion (t : task) (st : pub_state) : task * pub_state :=
  let t' := {| t_id := t_id t; t_user_id := t_user_id t; t_title := t_title t;
               t_description := t_description t;
               t_status := toggle_status (t_status t);
               t_priority := t_priority t; t_tags := t_tags t;
               t_due_date := t_due_date t; t_recurrence := t_recurrence t |} in
  let event_type := match t_status t' with
                    | COMPLETED => Schemas.COMPLETED
                    | PENDING => Schemas.UPDATED
                    end in
  (t', fire_and_forget
         (mbind (publish_task_event event_type (t_id t') (t_user_id t')
                   (event_payload t' (Some ["status"])))
            (fun _ =>
          mbind (publish_sync_event (t_id t') (t_user_id t')
                   [("status", AStr (TaskStatus_value (t_status t')))])
            (fun _ =>
          match t_status t', t_due_date t' with
          | COMPLETED, Some d =>
              mbind (publish_reminder_event Schemas.CANCEL (t_id t') (t_user_id t') d d)
                    (fun _ => mret tt)
          | _, _ => mret tt
          end))) st).

(** A validated [TaskUpdate]. *)
Record task_update := {
  u_title : option string;
  u_description : option string;
  u_due_date : option Z;
  u_priority : option string;
  u_tags : option (list string);
  u_recurrence : option string
}.

(** The field assignments of [update_task]. [task.tags = task_data.tags if
    task_data.tags else None]. *)
Definition apply_update (t : task) (u : task_update) : task :=
  {| t_id := t_id t;
     t_user_id := t_user_id t;
     t_title := match u_title u with Some x => x | None => t_title t end;
     t_description := match u_description u with Some x => Some x | None => t_description t end;
     t_status := t_status t;
     t_priority := match u_priority u with Some x => x | None => t_priority t end;
     t_tags := match u_tags u with
               | Some [] => None
               | Some l => Some l
               | None => t_tags t
               end;
     t_due_date := match u_due_date u with Some x => Some x | None => t_due_date t end;
     t_recurrence := match u_recurrence u with Some x => x | None => t_recurrence t end |}.

Definition opt_field {A} (name : string) (o : option A) : list string :=
  match o with Some _ => [name] | None => [] end.

(** The [changed] list of [update_task]. *)
Definition changed (u : task_update) : list string :=
  opt_field "title" (u_title u) ++ opt_field "description" (u_description u) ++
  opt_field "priority" (u_priority u) ++ opt_field "due_date" (u_due_date u) ++
  opt_field "tags" (u_tags u) ++ opt_field "recurrence" (u_recurrence u).

Definition opt_any {A} (f : A -> any) (o : option A) : any :=
  match o with Some x => f x | None => ANone end.

(** [getattr(task_data, field)]. *)
Definition getattr_update (u : task_update) (field : string) : any :=
  if String.eqb field "title" then opt_any AStr (u_title u)
  else if String.eqb field "description" then opt_any AStr (u_description u)
  else if String.eqb field "priority" then opt_any AStr (u_priority u)
  else if String.eqb field "due_date" then opt_any ADatetime (u_due_date u)
  else if String.eqb field "tags" then opt_any AStrList (u_tags u)
  else opt_any AStr (u_recurrence u).

(** [{field: getattr(task_data, field) for field in changed if hasattr(...)}]. *)
Definition sync_changes (u : task_update) : list (string * any) :=
  map (fun f => (f, getattr_update u f)) (changed u).

(** [update_task] from the found task: the assignments and the publishing
    block. *)
Definition update_task (t : task) (u : task_update) (now : Z) (st : pub_state)
  : task * pub_state :=
  let t' := apply_update t u in
  let ch := changed u in
  (t', fire_and_forget
         (mbind (publish_task_event Schemas.UPDATED (t_id t') (t_user_id t')
                   (event_payload t' (Some ch)))
            (fun _ =>
          mbind (publish_sync_event (t_id t') (t_user_id t') (sync_changes u))
            (fun _ =>
          if bool_decide ("due_date" ∈ ch) then
            match t_due_date t' with
            | Some d => schedule_reminder t' d now
            | None => mret tt
            end
          else mret tt))) st).

(** The publishing block of [delete_task], from the captured fields. *)
Definition delete_task (t : task) (st : pub_state) : pub_state :=
  fire_and_forget
    (mbind (publish_task_event Schemas.DELETED (t_id t) (t_user_id t) (event_payload t None))
       (fun _ =>
     mbind (publish_sync_event (t_id t) (t_user_id t) [("action", AStr "deleted")])
       (fun _ =>
     match t_due_date t with
     | Some d =>
         mbind (publish_reminder_event Schemas.CANCEL (t_id t) (t_user_id t) d d)
               (fun _ => mret tt)
     | None => mret tt
     end))) st.

(** Successful calls of the four routes that publish. *)
Inductive call :=
| CallCreate (t : task) (now : Z)
| CallToggle (t : task)
| CallUpdate (t : task) (u : task_update) (now : Z)
| CallDelete (t : task).

Definition run_call (c : call) (st : pub_state) : pub_state :=
  match c with
  | CallCreate t now => create_task t now st
  | CallToggle t => snd (toggle_task_completion t st)
  | CallUpdate t u now => snd (update_task t u now st)
  | CallDelete t => delete_task t st
  end.

Definition run_calls (cs : list call) (st : pub_state) : pub_state :=
  foldl (fun st c => run_call c st) st cs.

End WithTransport.

Definition init_state : pub_state := {| counters := ∅; outbox := [] |}.

(** The sequence number carried by a sent event of task [task_id]. *)
Definition event_sequence (task_id : string) (te : string * Schemas.CloudEvent)
  : list Z :=
  match Schemas.dict_get "task_id" (Schemas.data te.2),
        Schemas.dict_get "sequence" (Schemas.data te.2) with
  | Some (Schemas.JStr t), Some (Schemas.JInt n) =>
      if String.eqb t task_id then [n] else []
  | _, _ => []
  end.

Definition sequences (task_id : string) (ob : list (string * Schemas.CloudEvent))
  : list Z :=
  concat (map (event_sequence task_id) ob).

(** [1, 2, ..., n]. *)
Definition upto (n : Z) : list Z := map (fun i => Z.of_nat i + 1) (seq 0 (Z.to_nat n)).

(** Topic and CloudEvent type of each sent event. *)
Definition kinds (ob : list (string * Schemas.CloudEvent)) : list (string * string) :=
  map (fun te => (te.1, Schemas.type te.2)) ob.

(** The task a call publishes for. *)
Definition call_task_id (c : call) : string :=
  match c with
  | CallCreate t _ | CallToggle t | CallUpdate t _ _ | CallDelete t => t_id t
  end.

Definition sets_due_date (c : call) : bool :=
  match c with CallUpdate _ u _ => bool_decide (is_Some (u_due_date u)) | _ => false end.

End TaskEvents.

(* ------------------------------------------------------------------ *)
(** ** services/audit/consumer.py and main.py *)

Module AuditConsumer.

(** Truthiness of a JSON value. *)
Definition json_truthy (j : Schemas.json) : bool :=
  match j with
  | Schemas.JNull => false
  | Schemas.JStr s => negb (String.eqb s "")
  | Schemas.JInt z => negb (z =? 0)
  | Schemas.JList l => match l with [] => false | _ => true end
  | Schemas.JObj kv => match kv with [] => false | _ => true end
  end.

Definition opt_truthy (o : option Schemas.json) : bool :=
  match o with Some j => json_truthy j | None => false end.

(** The [DaprCloudEvent] body the endpoint accepts, as [model_dump()]
    passes it on: every field a string, [data] a dict. *)
Record audit_event := {
  ae_id : string;
  ae_source : string;
  ae_type : string;
  ae_datacontenttype : string;
  ae_time : string;
  ae_data : list (string * Schemas.json)
}.

Section WithEnv.

(** [UUID(s)]: the canonical [str] of the parsed UUID, [None] when it
    raises [ValueError]. *)
Variable uuid_parse : string -> option string.
Variable fromisoformat : string -> option DateTime.datetime.
Variable envs : nat -> AuditLogger.attempt_env.

(** [UUID(x)] on a value of the data dict; on a non-string it raises
    [AttributeError] ([.replace]), which the outer [except Exception] turns
    into [False] as well. *)
Definition parse_uuid_json (o : option Schemas.json) : option string :=
  match o with Some (Schemas.JStr s) => uuid_parse s | _ => None end.

(** [handle_task_event(event)] on the audit table. *)
Definition handle_task_event (ev : audit_event) (t : AuditLogger.table)
  : AuditLogger.table * bool :=
  if String.eqb (ae_id ev) "" then (t, false)
  else if String.eqb (ae_type ev) "" then (t, false)
  else if String.eqb (ae_time ev) "" then (t, false)
  else
    let data := ae_data ev in
    let task_id_str := Schemas.dict_get "task_id" data in
    let user_id_str := Schemas.dict_get "user_id" data in
    if negb (opt_truthy user_id_str) then (t, false)
    else
      match uuid_parse (ae_id ev), parse_uuid_json user_id_str,
            (if opt_truthy task_id_str
             then option_map Some (parse_uuid_json task_id_str)
             else Some None) with
      | Some event_id, Some _, Some _ =>
          match fromisoformat (TaskCreator.replace_Z (ae_time ev)) with
          | None => (t, false)
          | Some _ => AuditLogger.write_audit_log envs event_id t
          end
      | _, _, _ => (t, false)
      end.

(** [receive_task_event(event)]: [None] is a body that fails the request
    model (FastAPI answers 422 before the handler runs). Every other body
    gets a 200. *)
Definition receive_task_event (body : option audit_event) (t : AuditLogger.table)
  : AuditLogger.table * Z :=
  match body with
  | None => (t, 422)
  | Some ev => ((handle_task_event ev t).1, 200)
  end.

End WithEnv.

End AuditConsumer.

(* ------------------------------------------------------------------ *)
(** ** services/sync : consumer.py and the endpoints of main.py *)

Module SyncService.
Import SyncWebsocket.

(** [handle_task_update(event, manager)]. A non-dict [event] makes
    [event.get] raise, a non-string [user_id] is no key of the registry (or
    unhashable): in every such case nothing changes, the exception being
    caught and logged. *)
Definition handle_task_update (send_fails : Z -> bool) (event : Schemas.json)
    (m : registry) : registry :=
  match event with
  | Schemas.JObj kv =>
      match Schemas.dict_get "user_id" kv with
      | Some (Schemas.JStr u) =>
          if String.eqb u "" then m else broadcast_to_user send_fails u m
      | _ => m
      end
  | _ => m
  end.

(** [handle_event(event)], the [/events/task-updates] endpoint: the
    [status] of its answer. *)
Definition handle_event (send_fails : Z -> bool) (event : list (string * Schemas.json))
    (m : registry) : registry * string :=
  let data := match Schemas.dict_get "data" event with
              | Some d => d
              | None => Schemas.JObj event
              end in
  (handle_task_update send_fails data m, "success").

(** What [jwt.decode(token, secret_key, algorithms=["HS256"])] does: the
    [sub] claim of the payload, or a [JWTError]. *)
Inductive decode_result := Decoded (sub : option string) | DecodeJWTError.

(** [verify_ws_token(token)]; [secret_key] is
    [os.getenv("BETTER_AUTH_SECRET")]. *)
Definition verify_ws_token (secret_key : option string) (decoded : decode_result)
  : Py.outcome string :=
  if negb (TaskCreator.truthy secret_key) then Py.Raise Py.ValueError
  else
    match decoded with
    | DecodeJWTError => Py.Raise Py.ValueError
    | Decoded sub =>
        if TaskCreator.truthy sub then Py.Ret (default "" sub)
        else Py.Raise Py.ValueError
    end.

(** [websocket_endpoint(websocket, token)] on the registry, run alone: the
    first component tells whether the socket was closed with code 1008.
    The receive loop does not touch the registry and always ends in an
    exception ([WebSocketDisconnect] or another one), both caught; the
    [finally] disconnects. *)
Definition websocket_endpoint (secret_key : option string) (decoded : decode_result)
    (accept_ok : bool) (ws : Z) (m : registry) : Py.outcome (bool * registry) :=
  match verify_ws_token secret_key decoded with
  | Py.Raise Py.ValueError => Py.Ret (true, m)
  | Py.Raise e => Py.Raise e
  | Py.Ret user_id =>
      m1 <- connect accept_ok user_id ws m ;;
      Py.Ret (false, if TaskCreator.truthy (Some user_id)
                     then disconnect user_id ws m1 else m1)
  end.

End SyncService.

(* ------------------------------------------------------------------ *)
(** ** schemas.py : field validators of TaskCreate and TaskUpdate *)

Module RequestSchemas.
Import TaskCreator.

Definition VALID_PRIORITIES : list string := ["high"; "medium"; "low"].
Definition VALID_RECURRENCES : list string := ["none"; "daily"; "weekly"; "monthly"; "yearly"].

(** [TaskCreate.validate_priority]. *)
Definition TaskCreate_validate_priority (v : option string) : Py.outcome string :=
  match v with
  | Some s =>
      if negb (bool_decide (lower s ∈ VALID_PRIORITIES)) then Py.Raise Py.ValueError
      else Py.Ret (if String.eqb s "" then "medium" else lower s)
  | None => Py.Ret "medium"
  end.

(** [TaskCreate.validate_recurrence]. *)
Definition TaskCreate_validate_recurrence (v : option string) : Py.outcome string :=
  match v with
  | Some s =>
      if negb (bool_decide (lower s ∈ VALID_RECURRENCES)) then Py.Raise Py.ValueError
      else Py.Ret (if String.eqb s "" then "none" else lower s)
  | None => Py.Ret "none"
  end.

(** [TaskUpdate.validate_priority]: [v.lower() if v else v]. *)
Definition TaskUpdate_validate_priority (v : option string) : Py.outcome (option string) :=
  match v with
  | Some s =>
      if negb (bool_decide (lower s ∈ VALID_PRIORITIES)) then Py.Raise Py.ValueError
      else Py.Ret (if String.eqb s "" then Some s else Some (lower s))
  | None => Py.Ret None
  end.

(** [TaskUpdate.validate_recurrence]. *)
Definition TaskUpdate_validate_recurrence (v : option string) : Py.outcome (option string) :=
  match v with
  | Some s =>
      if negb (bool_decide (lower s ∈ VALID_RECURRENCES)) then Py.Raise Py.ValueError
      else Py.Ret (if String.eqb s "" then Some s else Some (lower s))
  | None => Py.Ret None
  end.

(** [str.isspace()] on the ASCII characters: [\t \n \v \f \r], the
    separators [\x1c] to [\x1f], and the space. *)
Definition is_space (c : Ascii.ascii) : bool :=
  let n := Ascii.nat_of_ascii c in
  ((Nat.leb 9 n && Nat.leb n 13) || (Nat.leb 28 n && Nat.leb n 32))%bool.

Fixpoint lstrip (s : string) : string :=
  match s with
  | EmptyString => EmptyString
  | String c s' => if is_space c then lstrip s' else s
  end.

Fixpoint rstrip (s : string) : string :=
  match s with
  | EmptyString => EmptyString
  | String c s' =>
      let r := rstrip s' in
      if (is_space c && String.eqb r "")%bool then EmptyString else String c r
  end.

(** [str.strip()]. *)
Definition strip (s : string) : string := rstrip (lstrip s).

(** [list(dict.fromkeys(l))]: duplicates dropped, first occurrences kept in
    order. *)
Definition fromkeys (l : list string) : list string :=
  fold_left (fun acc x => if bool_decide (x ∈ acc) then acc else acc ++ [x]) l [].

(** The [for tag in v] loop of [validate_tags]. *)
Fixpoint normalize_tags (v : list string) : Py.outcome (list string) :=
  match v with
  | [] => Py.Ret []
  | tag :: rest =>
      let tag' := lower (strip tag) in
      if (Nat.ltb (String.length tag') 1 || Nat.ltb 50 (String.length tag'))%bool
      then Py.Raise Py.ValueError
      else rest' <- normalize_tags rest ;; Py.Ret (tag' :: rest')
  end.

(** [validate_tags] (the same in [TaskCreate] and [TaskUpdate]). *)
Definition validate_tags (v : option (list string)) : Py.outcome (option (list string)) :=
  match v with
  | None => Py.Ret None
  | Some l =>
      if Nat.ltb 10 (length l) then Py.Raise Py.ValueError
      else normalized <- normalize_tags l ;; Py.Ret (Some (fromkeys normalized))
  end.

End RequestSchemas.

(* ================================================================== *)
(** * Theorems *)

(* ------------------------------------------------------------------ *)
(** ** The sequence allocator *)

Lemma run_allocator_cons (k : string) (rest : list string) (sc : gmap string Z) :
  (Publisher.run_allocator (k :: rest) sc).1 =
    (Publisher._get_next_sequence k sc).1
      :: (Publisher.run_allocator rest (Publisher._get_next_sequence k sc).2).1.
Proof.
  simpl. destruct (Publisher.run_allocator _ _). reflexivity.
Qed.

Lemma run_allocator_after (pre rest : list string) (k : string) (sc : gmap string Z) :
  (Publisher.run_allocator (pre ++ k :: rest) sc).1 !! length pre =
    Some (default 0 (sc !! k) + Z.of_nat (count_occ String.string_dec pre k) + 1).
Proof.
  revert sc. induction pre as [|a pre IH]; intros sc.
  - rewrite app_nil_l, run_allocator_cons. simpl. f_equal. lia.
  - rewrite <- app_comm_cons, run_allocator_cons. simpl length.
    rewrite lookup_cons, IH. unfold Publisher._get_next_sequence. simpl.
    destruct (String.string_dec a k) as [-> | Hne].
    + rewrite lookup_insert_eq. simpl. f_equal. lia.
    + rewrite lookup_insert_ne by congruence. reflexivity.
Qed.

(** C1: whatever other task ids were allocated before, the call for
    [task_id] that follows [n - 1] earlier calls for the same [task_id]
    (and any number of calls for other ids) returns exactly [n]: the
    counter starts at 1, grows by exactly 1 per call for that id, and
    calls for other ids do not affect it. *)
Theorem sequence_allocator_nth_call (pre rest : list string) (task_id : string) :
  (Publisher.run_allocator (pre ++ task_id :: rest) ∅).1 !! length pre =
    Some (Z.of_nat (count_occ String.string_dec pre task_id) + 1).
Proof.
  rewrite run_allocator_after. rewrite lookup_empty. simpl. reflexivity.
Qed.

(* ------------------------------------------------------------------ *)
(** ** The task event envelope *)

(** C2: for every task lifecycle event built by [create_task_event], the
    [idempotency_key] of its [data] dict is the envelope's [id]. *)
Theorem create_task_event_idempotency_key (uuid4 now : string)
    (event_type : Schemas.TaskEventType) (task_id user_id : string)
    (sequence : Z) (payload : Schemas.TaskEventPayload) :
  let ev := Schemas.create_task_event uuid4 now event_type task_id user_id
              sequence payload in
  Schemas.dict_get "idempotency_key" (Schemas.data ev) =
    Some (Schemas.JStr (Schemas.id ev)).
Proof. reflexivity. Qed.

(* ------------------------------------------------------------------ *)
(** ** publish_event *)

Lemma publish_event_ret (post : Py.outcome Z) :
  Publisher.publish_event post =
    Py.Ret (match post with
            | Py.Ret status_code => (200 <=? status_code) && (status_code <? 300)
            | Py.Raise _ => false
            end).
Proof.
  destruct post as [st | e]; unfold Publisher.publish_event; simpl.
  - unfold Publisher.raise_for_status.
    destruct ((200 <=? st) && (st <? 300)); reflexivity.
  - destruct e; reflexivity.
Qed.

(** C5: [publish_event] always returns (it never raises): [True] exactly
    when the transport answers with a 2xx status, [False] on a non-2xx
    status ([HTTPStatusError]), on [ConnectError] and on any other
    exception. *)
Theorem publish_event_total (post : Py.outcome Z) :
  Publisher.publish_event post =
    Py.Ret (match post with
            | Py.Ret status_code => (200 <=? status_code) && (status_code <? 300)
            | Py.Raise _ => false
            end).
Proof. exact (publish_event_ret post). Qed.

(* ------------------------------------------------------------------ *)
(** ** write_audit_log *)

Section AuditProofs.
Import AuditLogger.

Lemma row_exists_spec (eid : string) (t : table) :
  row_exists eid t = true <-> eid ∈ t.
Proof. unfold row_exists. apply bool_decide_eq_true. Qed.



(** An attempt on a table that already holds the row writes nothing, and
    reports success as soon as the existence check runs. *)
Lemma attempt_body_present (env : attempt_env) (eid : string) (t : table) :
  eid ∈ t ->
  (attempt_body env eid t).1 = t /\
  (select_err env = None -> (attempt_body env eid t).2 = Py.Ret true).
Proof.
  intros Hin. unfold attempt_body.
  assert (Hr : row_exists eid t = true) by (by apply row_exists_spec).
  destruct (select_err env); [split; [reflexivity | discriminate]|].
  rewrite Hr. split; reflexivity.
Qed.

(** An attempt adds at most the one row, and only when it was absent. *)
Lemma attempt_body_shape (env : attempt_env) (eid : string) (t : table) :
  (attempt_body env eid t).1 = t \/
  ((eid ∉ t) /\ (attempt_body env eid t).1 = eid :: t).
Proof.
  unfold attempt_body.
  destruct (select_err env); [left; reflexivity|].
  destruct (row_exists eid t) eqn:Hr; [left; reflexivity|].
  assert (Hn : eid ∉ t) by (intros Hin; apply row_exists_spec in Hin; congruence).
  unfold commit.
  destruct (racer env), (commit_err env); simpl.
  - right. split; [done | reflexivity].
  - assert (Hr' : row_exists eid (eid :: t) = true)
      by (apply row_exists_spec; left).
    rewrite Hr'. simpl. right. split; [done | reflexivity].
  - left. reflexivity.
  - rewrite Hr. simpl. right. split; [done | reflexivity].
Qed.


Lemma attempts_loop_present (envs : nat -> attempt_env) (eid : string)
    (attempts : list nat) (t : table) :
  eid ∈ t -> (attempts_loop envs eid attempts t).1 = t.
Proof.
  revert t. induction attempts as [|a rest IH]; intros t Hin; simpl; [reflexivity|].
  destruct (attempt_body_present (envs a) eid t Hin) as [H1 _].
  destruct (attempt_body (envs a) eid t) as [t1 r]. simpl in H1. subst t1.
  destruct (handle a r); [reflexivity | by apply IH].
Qed.

Lemma attempts_loop_shape (envs : nat -> attempt_env) (eid : string)
    (attempts : list nat) (t : table) :
  (attempts_loop envs eid attempts t).1 = t \/
  ((eid ∉ t) /\ (attempts_loop envs eid attempts t).1 = eid :: t).
Proof.
  revert t. induction attempts as [|a rest IH]; intros t; simpl; [left; reflexivity|].
  pose proof (attempt_body_shape (envs a) eid t) as Hs.
  destruct (attempt_body (envs a) eid t) as [t1 r]. simpl in Hs.
  destruct (handle a r).
  - simpl. exact Hs.
  - destruct Hs as [-> | [Hn ->]]; [apply IH|].
    right. split; [done|]. apply attempts_loop_present. left.
Qed.



End AuditProofs.



(* ------------------------------------------------------------------ *)
(** ** Calendar arithmetic *)

Section Calendar.
Import DateTime.

Lemma div_pred_step (y k : Z) :
  0 < k -> y / k - (y - 1) / k = if y mod k =? 0 then 1 else 0.
Proof.
  intros Hk. pose proof (Z.div_mod y k ltac:(lia)) as Hdm.
  pose proof (Z.mod_pos_bound y k Hk) as Hb.
  destruct (Z.eqb_spec (y mod k) 0) as [H0 | H0].
  - assert (Hq : y / k - 1 = (y - 1) / k).
    { apply Z.div_unique with (r := k - 1); lia. }
    lia.
  - assert (Hq : y / k = (y - 1) / k).
    { apply Z.div_unique with (r := y mod k - 1); lia. }
    lia.
Qed.

Lemma mod_zero_weaken (y a b : Z) :
  0 < a -> 0 < b -> (a | b) -> y mod b = 0 -> y mod a = 0.
Proof.
  intros Ha Hb Hab H. apply Z.mod_divide; [lia|].
  apply Z.divide_trans with b; [exact Hab|]. apply Z.mod_divide; lia.
Qed.

Lemma days_before_year_succ (y : Z) :
  _days_before_year (y + 1) =
    _days_before_year y + 365 + (if _is_leap y then 1 else 0).
Proof.
  unfold _days_before_year, _is_leap.
  replace (y + 1 - 1) with y by lia.
  pose proof (div_pred_step y 4 ltac:(lia)) as H4.
  pose proof (div_pred_step y 100 ltac:(lia)) as H100.
  pose proof (div_pred_step y 400 ltac:(lia)) as H400.
  pose proof (mod_zero_weaken y 100 400 ltac:(lia) ltac:(lia) ltac:(exists 4; lia)) as W1.
  pose proof (mod_zero_weaken y 4 100 ltac:(lia) ltac:(lia) ltac:(exists 25; lia)) as W2.
  destruct (Z.eqb_spec (y mod 4) 0), (Z.eqb_spec (y mod 100) 0),
           (Z.eqb_spec (y mod 400) 0); simpl in *; lia.
Qed.

Lemma days_before_month_succ (y m : Z) :
  1 <= m < 12 ->
  _days_before_month y (m + 1) = _days_before_month y m + _days_in_month y m.
Proof.
  intros Hm. unfold _days_before_month, _days_in_month.
  assert (m = 1 \/ m = 2 \/ m = 3 \/ m = 4 \/ m = 5 \/ m = 6 \/ m = 7 \/
          m = 8 \/ m = 9 \/ m = 10 \/ m = 11) as Hc by lia.
  destruct (_is_leap y);
  repeat (destruct Hc as [-> | Hc]; [reflexivity|]); subst; reflexivity.
Qed.

Lemma days_in_month_bounds (y m : Z) : 28 <= _days_in_month y m <= 31.
Proof.
  unfold _days_in_month. repeat case_match; lia.
Qed.

Lemma days_in_december (y : Z) : _days_in_month y 12 = 31.
Proof. unfold _days_in_month. simpl. reflexivity. Qed.

Lemma same_time_refl (a : datetime) : same_time a a.
Proof. repeat split. Qed.

Lemma same_time_trans (a b c : datetime) :
  same_time a b -> same_time b c -> same_time a c.
Proof. unfold same_time. intuition congruence. Qed.

Lemma next_day_spec (d : datetime) :
  valid d -> toordinal d < MAXORDINAL ->
  exists d', next_day d = Py.Ret d' /\ valid d' /\
             toordinal d' = toordinal d + 1 /\ same_time d d'.
Proof.
  intros (Hy & Hm & Hd & Hh & Hmi & Hs & Hus) Hmax.
  unfold next_day.
  destruct (Z.ltb_spec (day d) (_days_in_month (year d) (month d))) as [Hlt | Hge].
  - eexists; split; [reflexivity|]. unfold valid, toordinal, same_time; cbn [year month day hour minute second microsecond tzinfo].
    repeat split; lia.
  - destruct (Z.ltb_spec (month d) 12) as [Hm12 | Hm12].
    + eexists; split; [reflexivity|]. unfold valid, toordinal, same_time; cbn [year month day hour minute second microsecond tzinfo].
      pose proof (days_in_month_bounds (year d) (month d + 1)).
      rewrite days_before_month_succ by lia.
      repeat split; lia.
    + assert (Hdec : month d = 12) by lia.
      rewrite Hdec, days_in_december in Hd, Hge.
      destruct (Z.ltb_spec (year d) MAXYEAR) as [Hyl | Hyl].
      * eexists; split; [reflexivity|]. unfold valid, toordinal, same_time; cbn [year month day hour minute second microsecond tzinfo].
        pose proof (days_in_month_bounds (year d + 1) 1).
        rewrite days_before_year_succ. unfold toordinal in *.
        rewrite Hdec. unfold _days_before_month. simpl.
        unfold MINYEAR, MAXYEAR in *.
        destruct (_is_leap (year d)); repeat split; lia.
      * exfalso. assert (Hyy : year d = 9999) by (unfold MAXYEAR in *; lia).
        unfold toordinal in Hmax. rewrite Hyy, Hdec in Hmax.
        assert (Hc : _days_before_year 9999 + _days_before_month 9999 12 = 3652028)
          by reflexivity.
        unfold MAXORDINAL in Hmax. lia.
Qed.

Lemma add_days_spec (d : datetime) (n : nat) :
  valid d -> toordinal d + Z.of_nat n <= MAXORDINAL ->
  exists d', add_days d n = Py.Ret d' /\ valid d' /\
             toordinal d' = toordinal d + Z.of_nat n /\ same_time d d'.
Proof.
  revert d. induction n as [|n IH]; intros d Hv Hb.
  - exists d. simpl. split; [reflexivity|]. split; [exact Hv|].
    split; [lia | apply same_time_refl].
  - destruct (next_day_spec d Hv ltac:(lia)) as (d1 & E1 & Hv1 & Ho1 & Ht1).
    destruct (IH d1 Hv1 ltac:(lia)) as (d2 & E2 & Hv2 & Ho2 & Ht2).
    exists d2. simpl. rewrite E1. simpl. split; [exact E2|].
    split; [exact Hv2|]. split; [lia|]. eapply same_time_trans; eassumption.
Qed.

Lemma days_before_year_mono (a : Z) (k : nat) :
  _days_before_year a <= _days_before_year (a + Z.of_nat k).
Proof.
  induction k as [|k IH].
  - rewrite Z.add_0_r. lia.
  - replace (a + Z.of_nat (S k)) with (a + Z.of_nat k + 1) by lia.
    rewrite days_before_year_succ. destruct (_is_leap _); lia.
Qed.

Lemma day_of_year_bound (d : datetime) :
  valid d ->
  _days_before_month (year d) (month d) + day d
    <= 365 + (if _is_leap (year d) then 1 else 0).
Proof.
  intros (_ & Hm & Hd & _).
  unfold _days_before_month, _days_in_month in *.
  assert (month d = 1 \/ month d = 2 \/ month d = 3 \/ month d = 4 \/
          month d = 5 \/ month d = 6 \/ month d = 7 \/ month d = 8 \/
          month d = 9 \/ month d = 10 \/ month d = 11 \/ month d = 12) as Hc by lia.
  destruct (_is_leap (year d));
  repeat (destruct Hc as [Hc' | Hc]; [rewrite Hc' in *; simpl in *; lia|]);
  rewrite Hc in *; simpl in *; lia.
Qed.

(** A valid datetime before year 9999 is at least a year away from the
    end of the representable range. *)
Lemma toordinal_before_last_year (d : datetime) :
  valid d -> year d < MAXYEAR -> toordinal d + 365 <= MAXORDINAL.
Proof.
  intros Hv Hy. pose proof (day_of_year_bound d Hv) as Hb.
  unfold toordinal.
  pose proof (days_before_year_succ (year d)) as Hs.
  pose proof (days_before_year_mono (year d + 1) (Z.to_nat (MAXYEAR - (year d + 1)))) as Hmono.
  replace (year d + 1 + Z.of_nat (Z.to_nat (MAXYEAR - (year d + 1)))) with MAXYEAR
    in Hmono by lia.
  assert (Hmaxy : _days_before_year MAXYEAR = 3651694) by reflexivity.
  unfold MAXORDINAL. destruct (_is_leap (year d)); lia.
Qed.

End Calendar.

Section Relativedelta.
Import DateTime.

(** [dt + relativedelta(months=1)] before year 9999: the next month (rolling
    December over to January), the day clamped to that month's length,
    same time of day. *)
Lemma add_relativedelta_month (d : datetime) :
  valid d -> year d < MAXYEAR ->
  let y' := if month d =? 12 then year d + 1 else year d in
  let m' := if month d =? 12 then 1 else month d + 1 in
  add_relativedelta d 0 1 =
    Py.Ret {| year := y'; month := m';
              day := Z.min (_days_in_month y' m') (day d);
              hour := hour d; minute := minute d; second := second d;
              microsecond := microsecond d; tzinfo := tzinfo d |}.
Proof.
  intros (Hy & Hm & _) Hmax y' m'. unfold add_relativedelta, replace_ymd.
  cbn zeta. rewrite Z.add_0_r. simpl (1 =? 0).
  unfold y', m'. unfold MINYEAR, MAXYEAR in *.
  destruct (Z.eqb_spec (month d) 12) as [E | E].
  - destruct (Z.gtb_spec (month d + 1) 12) as [G | G]; [|lia].
    replace (month d + 1 - 12) with 1 by lia.
    destruct ((1 <=? year d + 1) && (year d + 1 <=? 9999)) eqn:B; [reflexivity|].
    apply andb_false_iff in B. destruct B as [B | B]; apply Z.leb_gt in B; lia.
  - destruct (Z.gtb_spec (month d + 1) 12) as [G | G]; [lia|].
    destruct ((1 <=? year d) && (year d <=? 9999)) eqn:B; [reflexivity|].
    apply andb_false_iff in B. destruct B as [B | B]; apply Z.leb_gt in B; lia.
Qed.

(** [dt + relativedelta(years=1)] before year 9999: same month of the next
    year, the day clamped to that month's length (Feb 29 becomes Feb 28
    in a common year), same time of day. *)
Lemma add_relativedelta_year (d : datetime) :
  valid d -> year d < MAXYEAR ->
  add_relativedelta d 1 0 =
    Py.Ret {| year := year d + 1; month := month d;
              day := Z.min (_days_in_month (year d + 1) (month d)) (day d);
              hour := hour d; minute := minute d; second := second d;
              microsecond := microsecond d; tzinfo := tzinfo d |}.
Proof.
  intros (Hy & _) Hmax. unfold add_relativedelta, replace_ymd. simpl (0 =? 0).
  cbn zeta. unfold MINYEAR, MAXYEAR in *.
  destruct ((1 <=? year d + 1) && (year d + 1 <=? 9999)) eqn:B; [reflexivity|].
  apply andb_false_iff in B. destruct B as [B | B]; apply Z.leb_gt in B; lia.
Qed.

(** The clamped date is a valid one. *)
Lemma clamped_valid (d : datetime) (y m : Z) :
  valid d -> MINYEAR <= y <= MAXYEAR -> 1 <= m <= 12 ->
  valid {| year := y; month := m; day := Z.min (_days_in_month y m) (day d);
           hour := hour d; minute := minute d; second := second d;
           microsecond := microsecond d; tzinfo := tzinfo d |}.
Proof.
  intros (_ & _ & Hd & Hh & Hmi & Hs & Hus) Hy Hm.
  pose proof (days_in_month_bounds y m).
  unfold valid; cbn [year month day hour minute second microsecond tzinfo].
  repeat split; lia.
Qed.

End Relativedelta.

(* ------------------------------------------------------------------ *)
(** ** calculate_next_due_date *)

(** C4: for a non-empty due-date string that [datetime.fromisoformat]
    reads as a valid [current] before year 9999 (whatever the parser),
    [daily] gives the calendar day one day later and [weekly] the one seven
    days later (one and seven more in the proleptic ordinal, same time of
    day); [monthly] gives the next month of the calendar (December rolls
    over to January of the next year) and [yearly] the same month of the
    next year, the day of the month clamped to the target month's length,
    same time of day. A missing due date gives [None] for every pattern.
    The spec's examples: 2024-01-31T10:00 monthly is 2024-02-29T10:00, and
    2024-02-29T10:00 yearly is 2025-02-28T10:00. *)
Theorem calculate_next_due_date_spec
    (fromisoformat : string -> option DateTime.datetime) (s p : string)
    (current : DateTime.datetime) :
  s <> "" ->
  fromisoformat (TaskCreator.replace_Z s) = Some current ->
  DateTime.valid current -> DateTime.year current < DateTime.MAXYEAR ->
  let r := TaskCreator.calculate_next_due_date fromisoformat (Some s) (Some p) in
  (TaskCreator.lower p = "daily" ->
     exists n, r = Py.Ret (Some n) /\ DateTime.valid n /\
       DateTime.toordinal n = DateTime.toordinal current + 1 /\
       DateTime.same_time current n) /\
  (TaskCreator.lower p = "weekly" ->
     exists n, r = Py.Ret (Some n) /\ DateTime.valid n /\
       DateTime.toordinal n = DateTime.toordinal current + 7 /\
       DateTime.same_time current n) /\
  (TaskCreator.lower p = "monthly" ->
     let y' := if DateTime.month current =? 12 then DateTime.year current + 1
               else DateTime.year current in
     let m' := if DateTime.month current =? 12 then 1
               else DateTime.month current + 1 in
     r = Py.Ret (Some {| DateTime.year := y'; DateTime.month := m';
                         DateTime.day := Z.min (DateTime._days_in_month y' m')
                                               (DateTime.day current);
                         DateTime.hour := DateTime.hour current;
                         DateTime.minute := DateTime.minute current;
                         DateTime.second := DateTime.second current;
                         DateTime.microsecond := DateTime.microsecond current;
                         DateTime.tzinfo := DateTime.tzinfo current |})) /\
  (TaskCreator.lower p = "yearly" ->
     let y' := DateTime.year current + 1 in
     r = Py.Ret (Some {| DateTime.year := y';
                         DateTime.month := DateTime.month current;
                         DateTime.day := Z.min
                           (DateTime._days_in_month y' (DateTime.month current))
                           (DateTime.day current);
                         DateTime.hour := DateTime.hour current;
                         DateTime.minute := DateTime.minute current;
                         DateTime.second := DateTime.second current;
                         DateTime.microsecond := DateTime.microsecond current;
                         DateTime.tzinfo := DateTime.tzinfo current |})) /\
  (forall pattern : option string,
     TaskCreator.calculate_next_due_date fromisoformat None pattern = Py.Ret None) /\
  (fromisoformat "2024-01-31T10:00" = Some (DateTime.dt_of 2024 1 31 10 0) ->
     TaskCreator.calculate_next_due_date fromisoformat
       (Some "2024-01-31T10:00") (Some "monthly")
     = Py.Ret (Some (DateTime.dt_of 2024 2 29 10 0))) /\
  (fromisoformat "2024-02-29T10:00" = Some (DateTime.dt_of 2024 2 29 10 0) ->
     TaskCreator.calculate_next_due_date fromisoformat
       (Some "2024-02-29T10:00") (Some "yearly")
     = Py.Ret (Some (DateTime.dt_of 2025 2 28 10 0))).
Proof.
  intros Hs Hparse Hv Hy r.
  assert (Hr : r = (let pattern_lower := TaskCreator.lower p in
       if String.eqb pattern_lower "daily" then
         n <- DateTime.add_days current 1 ;; Py.Ret (Some n)
       else if String.eqb pattern_lower "weekly" then
         n <- DateTime.add_days current 7 ;; Py.Ret (Some n)
       else if String.eqb pattern_lower "monthly" then
         n <- DateTime.add_relativedelta current 0 1 ;; Py.Ret (Some n)
       else if String.eqb pattern_lower "yearly" then
         n <- DateTime.add_relativedelta current 1 0 ;; Py.Ret (Some n)
       else Py.Ret None)).
  { unfold r, TaskCreator.calculate_next_due_date, TaskCreator.truthy.
    apply String.eqb_neq in Hs. rewrite Hs. simpl. rewrite Hparse. reflexivity. }
  pose proof (toordinal_before_last_year current Hv Hy) as Hb.
  split; [|split; [|split; [|split; [|split; [|split]]]]].
  - intros Hl. rewrite Hr. cbn zeta. rewrite Hl. simpl String.eqb. cbv iota.
    destruct (add_days_spec current 1 Hv ltac:(lia)) as (n & E & Hn & Ho & Ht).
    rewrite E. exists n. simpl. auto.
  - intros Hl. rewrite Hr. cbn zeta. rewrite Hl. simpl String.eqb. cbv iota.
    destruct (add_days_spec current 7 Hv ltac:(lia)) as (n & E & Hn & Ho & Ht).
    rewrite E. exists n. simpl. auto.
  - intros Hl. rewrite Hr. cbn zeta. rewrite Hl. simpl String.eqb. cbv iota.
    rewrite (add_relativedelta_month current Hv Hy). reflexivity.
  - intros Hl. rewrite Hr. cbn zeta. rewrite Hl. simpl String.eqb. cbv iota.
    rewrite (add_relativedelta_year current Hv Hy). reflexivity.
  - intros pattern. reflexivity.
  - intros H. unfold TaskCreator.calculate_next_due_date. simpl.
    rewrite H. reflexivity.
  - intros H. unfold TaskCreator.calculate_next_due_date. simpl.
    rewrite H. reflexivity.
Qed.

Lemma calculate_next_due_date_spec_witness :
  "2024-01-31T10:00" <> "" /\
  TaskCreator.example_fromisoformat (TaskCreator.replace_Z "2024-01-31T10:00")
    = Some (DateTime.dt_of 2024 1 31 10 0) /\
  DateTime.valid (DateTime.dt_of 2024 1 31 10 0) /\
  DateTime.year (DateTime.dt_of 2024 1 31 10 0) < DateTime.MAXYEAR /\
  let r := TaskCreator.calculate_next_due_date TaskCreator.example_fromisoformat (Some "2024-01-31T10:00") (Some "monthly") in
  (TaskCreator.lower "monthly" = "daily" ->
     exists n, r = Py.Ret (Some n) /\ DateTime.valid n /\
       DateTime.toordinal n = DateTime.toordinal (DateTime.dt_of 2024 1 31 10 0) + 1 /\
       DateTime.same_time (DateTime.dt_of 2024 1 31 10 0) n) /\
  (TaskCreator.lower "monthly" = "weekly" ->
     exists n, r = Py.Ret (Some n) /\ DateTime.valid n /\
       DateTime.toordinal n = DateTime.toordinal (DateTime.dt_of 2024 1 31 10 0) + 7 /\
       DateTime.same_time (DateTime.dt_of 2024 1 31 10 0) n) /\
  (TaskCreator.lower "monthly" = "monthly" ->
     let y' := if DateTime.month (DateTime.dt_of 2024 1 31 10 0) =? 12 then DateTime.year (DateTime.dt_of 2024 1 31 10 0) + 1
               else DateTime.year (DateTime.dt_of 2024 1 31 10 0) in
     let m' := if DateTime.month (DateTime.dt_of 2024 1 31 10 0) =? 12 then 1
               else DateTime.month (DateTime.dt_of 2024 1 31 10 0) + 1 in
     r = Py.Ret (Some {| DateTime.year := y'; DateTime.month := m';
                         DateTime.day := Z.min (DateTime._days_in_month y' m')
                                               (DateTime.day (DateTime.dt_of 2024 1 31 10 0));
                         DateTime.hour := DateTime.hour (DateTime.dt_of 2024 1 31 10 0);
                         DateTime.minute := DateTime.minute (DateTime.dt_of 2024 1 31 10 0);
                         DateTime.second := DateTime.second (DateTime.dt_of 2024 1 31 10 0);
                         DateTime.microsecond := DateTime.microsecond (DateTime.dt_of 2024 1 31 10 0);
                         DateTime.tzinfo := DateTime.tzinfo (DateTime.dt_of 2024 1 31 10 0) |})) /\
  (TaskCreator.lower "monthly" = "yearly" ->
     let y' := DateTime.year (DateTime.dt_of 2024 1 31 10 0) + 1 in
     r = Py.Ret (Some {| DateTime.year := y';
                         DateTime.month := DateTime.month (DateTime.dt_of 2024 1 31 10 0);
                         DateTime.day := Z.min
                           (DateTime._days_in_month y' (DateTime.month (DateTime.dt_of 2024 1 31 10 0)))
                           (DateTime.day (DateTime.dt_of 2024 1 31 10 0));
                         DateTime.hour := DateTime.hour (DateTime.dt_of 2024 1 31 10 0);
                         DateTime.minute := DateTime.minute (DateTime.dt_of 2024 1 31 10 0);
                         DateTime.second := DateTime.second (DateTime.dt_of 2024 1 31 10 0);
                         DateTime.microsecond := DateTime.microsecond (DateTime.dt_of 2024 1 31 10 0);
                         DateTime.tzinfo := DateTime.tzinfo (DateTime.dt_of 2024 1 31 10 0) |})) /\
  (forall pattern : option string,
     TaskCreator.calculate_next_due_date TaskCreator.example_fromisoformat None pattern = Py.Ret None) /\
  (TaskCreator.example_fromisoformat "2024-01-31T10:00" = Some (DateTime.dt_of 2024 1 31 10 0) ->
     TaskCreator.calculate_next_due_date TaskCreator.example_fromisoformat
       (Some "2024-01-31T10:00") (Some "monthly")
     = Py.Ret (Some (DateTime.dt_of 2024 2 29 10 0))) /\
  (TaskCreator.example_fromisoformat "2024-02-29T10:00" = Some (DateTime.dt_of 2024 2 29 10 0) ->
     TaskCreator.calculate_next_due_date TaskCreator.example_fromisoformat
       (Some "2024-02-29T10:00") (Some "yearly")
     = Py.Ret (Some (DateTime.dt_of 2025 2 28 10 0))).
Proof.
  assert (Hv : DateTime.valid (DateTime.dt_of 2024 1 31 10 0))
    by (unfold DateTime.valid; vm_compute; repeat split; discriminate).
  split; [discriminate|]. split; [reflexivity|]. split; [exact Hv|].
  split; [reflexivity|].
  apply (calculate_next_due_date_spec TaskCreator.example_fromisoformat
           "2024-01-31T10:00" "monthly" (DateTime.dt_of 2024 1 31 10 0)).
  - discriminate.
  - reflexivity.
  - exact Hv.
  - reflexivity.
Defined.

(* ------------------------------------------------------------------ *)
(** ** Reminder scheduling on task creation *)

Lemma create_task_reminders (posts : nat -> Py.outcome Z) (due_date : option Z)
    (now : Z) :
  filter (fun ev => TasksRouter.is_reminder ev = true)
    (TasksRouter.create_task_events posts due_date now) =
  match due_date with
  | Some d =>
      if d - TasksRouter.FIFTEEN_MINUTES >? now
      then [TasksRouter.PubReminderSchedule d (d - TasksRouter.FIFTEEN_MINUTES)]
      else []
  | None => []
  end.
Proof.
  unfold TasksRouter.create_task_events, TasksRouter.publish.
  rewrite !publish_event_ret. cbn iota zeta beta.
  destruct due_date as [d|]; [|reflexivity].
  destruct (d - TasksRouter.FIFTEEN_MINUTES >? now); reflexivity.
Qed.

(** C6: among the events [create_task] publishes, a [reminder.schedule]
    with [reminder_time = due_date - 15min] is there exactly when the task
    has a due date whose reminder time is still in the future, and then it
    is there exactly once, whatever the transport does with the earlier
    publishes. A task due in one hour gets exactly that one reminder; a task
    due in ten minutes gets none. *)
Theorem create_task_reminder_iff (posts : nat -> Py.outcome Z)
    (due_date : option Z) (now : Z) :
  filter (fun ev => TasksRouter.is_reminder ev = true)
    (TasksRouter.create_task_events posts due_date now) =
  (match due_date with
  | Some d =>
      if d - TasksRouter.FIFTEEN_MINUTES >? now
      then [TasksRouter.PubReminderSchedule d (d - TasksRouter.FIFTEEN_MINUTES)]
      else []
  | None => []
  end) /\
  filter (fun ev => TasksRouter.is_reminder ev = true)
    (TasksRouter.create_task_events posts (Some (now + 3600000000)) now) =
    [TasksRouter.PubReminderSchedule (now + 3600000000)
       (now + 3600000000 - TasksRouter.FIFTEEN_MINUTES)] /\
  filter (fun ev => TasksRouter.is_reminder ev = true)
    (TasksRouter.create_task_events posts (Some (now + 600000000)) now) = [].
Proof.
  split; [|split]; rewrite create_task_reminders; [reflexivity| |].
  - unfold TasksRouter.FIFTEEN_MINUTES.
    destruct (Z.gtb_spec (now + 3600000000 - 15 * 60 * 1000000) now); [reflexivity | lia].
  - unfold TasksRouter.FIFTEEN_MINUTES.
    destruct (Z.gtb_spec (now + 600000000 - 15 * 60 * 1000000) now); [lia | reflexivity].
Qed.

(* ------------------------------------------------------------------ *)
(** ** The retry loop of create_next_task_occurrence *)

(** C7: [create_next_task_occurrence] gives up after the first answer
    only for 400 and 422; any other 4xx answer (here 404 Not Found on every
    attempt) is retried as a server error: three POST requests are sent
    before it returns [False]. A 400 stops after one request, and
    connection errors and timeouts are retried up to the third attempt
    (here the third gets a 201 with the created task as a JSON object). *)
Theorem create_next_task_occurrence_retries_404 :
  TaskCreator.create_next_task_occurrence TaskCreator.example_fromisoformat
    TaskCreator.daily_event (fun _ => Py.Ret (404, None)) = (false, 3%nat) /\
  TaskCreator.create_next_task_occurrence TaskCreator.example_fromisoformat
    TaskCreator.daily_event (fun _ => Py.Ret (400, None)) = (false, 1%nat) /\
  TaskCreator.create_next_task_occurrence TaskCreator.example_fromisoformat
    TaskCreator.daily_event (fun _ => Py.Raise Py.ConnectError) = (false, 3%nat) /\
  TaskCreator.create_next_task_occurrence TaskCreator.example_fromisoformat
    TaskCreator.daily_event
    (fun a => if Nat.eqb a 2
              then Py.Ret (201, Some (Schemas.JObj [("id", Schemas.JStr "task-2")]))
              else Py.Raise Py.TimeoutException) = (true, 3%nat).
Proof. repeat split; vm_compute; reflexivity. Qed.

(* ------------------------------------------------------------------ *)
(** ** Unknown recurrence patterns *)

Lemma calculate_unknown_string (fromisoformat : string -> option DateTime.datetime)
    (p : string) (current_due_date : option string) :
  TaskCreator.known_pattern p = false ->
  TaskCreator.calculate_next_due_date fromisoformat current_due_date (Some p)
    = Py.Ret None.
Proof.
  intros Hk. unfold TaskCreator.known_pattern in Hk.
  apply orb_false_iff in Hk as [Hk Hy]. apply orb_false_iff in Hk as [Hk Hm].
  apply orb_false_iff in Hk as [Hd Hw].
  unfold TaskCreator.calculate_next_due_date.
  destruct (negb (TaskCreator.truthy current_due_date)); [reflexivity|].
  destruct (fromisoformat _); [|reflexivity]. cbn zeta.
  rewrite Hd, Hw, Hm, Hy. reflexivity.
Qed.

Lemma calculate_missing_pattern (fromisoformat : string -> option DateTime.datetime)
    (current_due_date : option string) :
  (TaskCreator.calculate_next_due_date fromisoformat current_due_date None = Py.Ret None <->
   TaskCreator.truthy current_due_date = false \/
   fromisoformat (TaskCreator.replace_Z (default "" current_due_date)) = None) /\
  (TaskCreator.calculate_next_due_date fromisoformat current_due_date None
     = Py.Raise Py.AttributeError <->
   TaskCreator.truthy current_due_date = true /\
   fromisoformat (TaskCreator.replace_Z (default "" current_due_date)) <> None).
Proof.
  unfold TaskCreator.calculate_next_due_date.
  destruct (TaskCreator.truthy current_due_date); cbn [negb];
    [destruct (fromisoformat _)|]; intuition congruence.
Qed.

(** C10, as stated, fails for a missing pattern: with a parsable due date,
    [calculate_next_due_date] does not return [None], it raises
    [AttributeError] ([None.lower()]). *)
Lemma calculate_missing_pattern_raises :
  TaskCreator.calculate_next_due_date TaskCreator.example_fromisoformat
    (Some "2024-01-31T10:00") None = Py.Raise Py.AttributeError /\
  TaskCreator.calculate_next_due_date TaskCreator.example_fromisoformat
    (Some "2024-01-31T10:00") None <> Py.Ret None.
Proof. split; [reflexivity | discriminate]. Qed.

(** C10 (amended): for a pattern string whose lower-case form is none of
    daily, weekly, monthly, yearly, [calculate_next_due_date] returns
    [None] whatever the due date. For a missing ([None]) pattern it
    returns [None] exactly when the due date is missing (falsy) or
    unparsable, and raises [AttributeError] otherwise. In every one of
    these cases [create_next_task_occurrence] returns [False] without
    sending any POST request. *)
Theorem unknown_pattern_no_creation
    (fromisoformat : string -> option DateTime.datetime) (p : string) :
  TaskCreator.known_pattern p = false ->
  (forall current_due_date : option string,
     TaskCreator.calculate_next_due_date fromisoformat current_due_date (Some p)
       = Py.Ret None) /\
  (forall current_due_date : option string,
     (TaskCreator.calculate_next_due_date fromisoformat current_due_date None
        = Py.Ret None <->
      TaskCreator.truthy current_due_date = false \/
      fromisoformat (TaskCreator.replace_Z (default "" current_due_date)) = None) /\
     (TaskCreator.calculate_next_due_date fromisoformat current_due_date None
        = Py.Raise Py.AttributeError <->
      TaskCreator.truthy current_due_date = true /\
      fromisoformat (TaskCreator.replace_Z (default "" current_due_date)) <> None)) /\
  (forall (ed : TaskCreator.event_data) (posts : TaskCreator.post_env),
     TaskCreator.get_pattern (TaskCreator.ed_recurring_pattern ed) = Some p \/
     TaskCreator.get_pattern (TaskCreator.ed_recurring_pattern ed) = None ->
     TaskCreator.create_next_task_occurrence fromisoformat ed posts = (false, 0%nat)).
Proof.
  intros Hk. split; [|split].
  - intros due. by apply calculate_unknown_string.
  - intros due. apply calculate_missing_pattern.
  - intros ed posts Hp. unfold TaskCreator.create_next_task_occurrence,
      TaskCreator.prepare.
    destruct (negb (TaskCreator.truthy (TaskCreator.ed_user_id ed))); [reflexivity|].
    destruct (negb (TaskCreator.truthy (TaskCreator.ed_title ed))); [reflexivity|].
    destruct Hp as [-> | ->].
    + rewrite calculate_unknown_string by exact Hk. reflexivity.
    + destruct (TaskCreator.calculate_next_due_date fromisoformat
                  (TaskCreator.ed_due_date ed) None) as [[d|]|e] eqn:Hc;
        try reflexivity.
      exfalso. unfold TaskCreator.calculate_next_due_date in Hc.
      destruct (negb _); [discriminate|]. destruct (fromisoformat _); discriminate.
Qed.

Lemma unknown_pattern_no_creation_witness :
  TaskCreator.known_pattern "none" = false /\
  TaskCreator.calculate_next_due_date TaskCreator.example_fromisoformat
    (Some "2024-01-31T10:00") (Some "none") = Py.Ret None /\
  TaskCreator.create_next_task_occurrence TaskCreator.example_fromisoformat
    {| TaskCreator.ed_user_id := Some "user-1";
       TaskCreator.ed_title := Some "Water the plants";
       TaskCreator.ed_recurring_pattern := TaskCreator.PatStr "none";
       TaskCreator.ed_due_date := Some "2024-01-31T10:00" |}
    (fun _ => Py.Ret (201, Some (Schemas.JObj []))) = (false, 0%nat).
Proof.
  assert (Hk : TaskCreator.known_pattern "none" = false) by reflexivity.
  destruct (unknown_pattern_no_creation TaskCreator.example_fromisoformat "none" Hk)
    as (H1 & _ & H3).
  split; [exact Hk|]. split; [apply H1|]. apply H3. left. reflexivity.
Defined.

(* ------------------------------------------------------------------ *)
(** ** The recurring-task consumer on exhausted retries *)

(** C8, as stated, fails: when every create attempt gets a 503, the event
    id stays out of the processed set, but the endpoint answers HTTP 200
    (body status "failed"), which acknowledges the delivery. *)
Lemma recurring_exhausted_acknowledged :
  RecurringConsumer.receive_task_event TaskCreator.example_fromisoformat
    (fun _ => Py.Ret (503, None)) [] (Some RecurringConsumer.completed_daily_event)
  = ([], {| RecurringConsumer.status_code := 200;
            RecurringConsumer.body_status := "failed" |}) /\
  RecurringConsumer.acknowledged
    (RecurringConsumer.receive_task_event TaskCreator.example_fromisoformat
       (fun _ => Py.Ret (503, None)) [] (Some RecurringConsumer.completed_daily_event)).2
  = true.
Proof. split; vm_compute; reflexivity. Qed.

(** C8 (amended): for a new [task.completed] event of a recurring task
    (its [recurring_pattern], default "none", is not "none"), the event
    id is added to the processed set exactly when
    [create_next_task_occurrence] succeeds. When it fails (retries
    exhausted), the set is left as it was, so a redelivered copy is
    processed again, but the endpoint still answers HTTP 200 with body
    status "failed": the delivery is acknowledged. For every delivery,
    the endpoint answers without acknowledging (HTTP 500, asking for
    redelivery) exactly when an exception escapes to it: the request body
    is not a JSON object. *)
Theorem recurring_failure_unmarked_but_acknowledged
    (fromisoformat : string -> option DateTime.datetime)
    (posts : TaskCreator.post_env) (processed : list string)
    (ev : RecurringConsumer.event) (eid : string) :
  RecurringConsumer.ev_id ev = Some eid -> eid <> "" -> eid ∉ processed ->
  RecurringConsumer.ev_type ev = Some "com.todo.task.completed" ->
  RecurringConsumer.recurring_pattern (RecurringConsumer.ev_data ev)
    <> TaskCreator.PatStr "none" ->
  let success := fst (TaskCreator.create_next_task_occurrence fromisoformat
                        (RecurringConsumer.ev_data ev) posts) in
  let res := RecurringConsumer.receive_task_event fromisoformat posts processed
               (Some ev) in
  (eid ∈ res.1 <-> success = true) /\
  (success = false ->
     res.1 = processed /\
     res.2 = {| RecurringConsumer.status_code := 200;
                RecurringConsumer.body_status := "failed" |} /\
     RecurringConsumer.acknowledged res.2 = true) /\
  (forall (processed' : list string) (body : option RecurringConsumer.event),
     RecurringConsumer.acknowledged
       (RecurringConsumer.receive_task_event fromisoformat posts processed' body).2
       = false <->
     body = None).
Proof.
  intros Hid Hne Hnp Hty Hpat success res.
  assert (Hh : RecurringConsumer.handle_task_event fromisoformat posts processed ev
               = if success then (eid :: processed, true) else (processed, false)).
  { unfold RecurringConsumer.handle_task_event. rewrite Hid.
    apply String.eqb_neq in Hne. rewrite Hne.
    rewrite bool_decide_eq_false_2 by exact Hnp.
    rewrite Hty. simpl negb. cbv iota zeta.
    rewrite bool_decide_eq_false_2 by exact Hpat. reflexivity. }
  assert (Hres : res = if success
                       then (eid :: processed,
                             {| RecurringConsumer.status_code := 200;
                                RecurringConsumer.body_status := "processed" |})
                       else (processed,
                             {| RecurringConsumer.status_code := 200;
                                RecurringConsumer.body_status := "failed" |})).
  { unfold res, RecurringConsumer.receive_task_event. rewrite Hh.
    destruct success; reflexivity. }
  split; [|split].
  - rewrite Hres. destruct success; simpl.
    + split; [intros _; reflexivity | intros _; left].
    + split; [intros Hin; contradiction | discriminate].
  - rewrite Hres. intros ->. split; [reflexivity | split; reflexivity].
  - intros processed' [ev'|]; unfold RecurringConsumer.receive_task_event.
    + destruct (RecurringConsumer.handle_task_event fromisoformat posts processed' ev')
        as [ps b]. split; [|discriminate].
      destruct b; cbn; discriminate.
    + split; [reflexivity | reflexivity].
Qed.

Lemma recurring_failure_unmarked_but_acknowledged_witness :
  let success := fst (TaskCreator.create_next_task_occurrence
                        TaskCreator.example_fromisoformat TaskCreator.daily_event
                        (fun _ => Py.Ret (503, None))) in
  let res := RecurringConsumer.receive_task_event TaskCreator.example_fromisoformat
               (fun _ => Py.Ret (503, None)) []
               (Some RecurringConsumer.completed_daily_event) in
  ("evt-1" ∈ res.1 <-> success = true) /\
  (success = false ->
     res.1 = [] /\
     res.2 = {| RecurringConsumer.status_code := 200;
                RecurringConsumer.body_status := "failed" |} /\
     RecurringConsumer.acknowledged res.2 = true) /\
  (forall (processed' : list string) (body : option RecurringConsumer.event),
     RecurringConsumer.acknowledged
       (RecurringConsumer.receive_task_event TaskCreator.example_fromisoformat
          (fun _ => Py.Ret (503, None)) processed' body).2 = false <->
     body = None).
Proof.
  apply (recurring_failure_unmarked_but_acknowledged TaskCreator.example_fromisoformat
           (fun _ => Py.Ret (503, None)) [] RecurringConsumer.completed_daily_event "evt-1").
  - reflexivity.
  - discriminate.
  - apply not_elem_of_nil.
  - reflexivity.
  - discriminate.
Defined.

(* ------------------------------------------------------------------ *)
(** ** The WebSocket connection registry *)

Section RegistryProofs.
Import SyncWebsocket.

Lemma size_set_map_pair (u : string) (s : gset Z) :
  size (set_map (D := gset (string * Z)) (fun ws => (u, ws)) s) = size s.
Proof.
  induction s as [|c s Hc IH] using set_ind_L.
  - rewrite set_map_empty. rewrite !size_empty. reflexivity.
  - rewrite set_map_union_L, set_map_singleton_L.
    rewrite !size_union by set_solver. rewrite !size_singleton, IH. reflexivity.
Qed.

Lemma pairs_empty : pairs ∅ = ∅.
Proof. unfold pairs. by rewrite map_fold_empty. Qed.

Lemma pairs_insert (m : registry) (u : string) (s : gset Z) :
  m !! u = None ->
  pairs (<[u := s]> m) = set_map (fun ws => (u, ws)) s ∪ pairs m.
Proof.
  intros Hu. unfold pairs. rewrite map_fold_insert_L; [reflexivity| |exact Hu].
  intros. set_solver.
Qed.

Lemma get_connection_count_empty : get_connection_count ∅ = 0%nat.
Proof. unfold get_connection_count. by rewrite map_fold_empty. Qed.

Lemma get_connection_count_insert (m : registry) (u : string) (s : gset Z) :
  m !! u = None ->
  get_connection_count (<[u := s]> m) = (size s + get_connection_count m)%nat.
Proof.
  intros Hu. unfold get_connection_count.
  rewrite map_fold_insert_L; [reflexivity| |exact Hu].
  intros. lia.
Qed.

Lemma elem_of_pairs (m : registry) (u : string) (c : Z) :
  (u, c) ∈ pairs m <-> exists s, m !! u = Some s /\ c ∈ s.
Proof.
  induction m as [|v s m Hv IH] using map_ind.
  - rewrite pairs_empty. split; [set_solver|]. intros (s & Hs & _).
    by rewrite lookup_empty in Hs.
  - rewrite pairs_insert by exact Hv. rewrite elem_of_union, elem_of_map, IH.
    destruct (String.string_dec u v) as [-> | Hne].
    + rewrite lookup_insert_eq. split.
      * intros [(c' & [= <-] & Hc) | (s' & Hs' & _)]; [by exists s|].
        congruence.
      * intros (s' & [= <-] & Hc). left. by exists c.
    + rewrite lookup_insert_ne by congruence. split.
      * intros [(c' & [= -> _] & _) | H]; [congruence | exact H].
      * intros H. by right.
Qed.

(** [get_connection_count] is the number of registered pairs, for every
    registry. *)
Lemma count_eq_size_pairs (m : registry) :
  get_connection_count m = size (pairs m).
Proof.
  induction m as [|u s m Hu IH] using map_ind.
  - by rewrite get_connection_count_empty, pairs_empty, size_empty.
  - rewrite get_connection_count_insert, pairs_insert by exact Hu.
    rewrite size_union, size_set_map_pair, IH; [reflexivity|].
    intros [u' c] H1 H2. apply elem_of_map in H1 as (c' & [= -> ->] & _).
    apply elem_of_pairs in H2 as (s' & Hs' & _). congruence.
Qed.

Lemma no_empty_connect (ok : bool) (u : string) (ws : Z) (m m' : registry) :
  no_empty m -> connect ok u ws m = Py.Ret m' -> no_empty m'.
Proof.
  intros Hm Hc. unfold connect in Hc. destruct ok; [|discriminate].
  simpl in Hc. injection Hc as <-. intros v s Hs.
  destruct (String.string_dec v u) as [-> | Hne].
  - rewrite lookup_insert_eq in Hs. injection Hs as <-. set_solver.
  - rewrite lookup_insert_ne in Hs by congruence.
    destruct (m !! u) eqn:Hu.
    + by apply (Hm v).
    + rewrite lookup_insert_ne in Hs by congruence. by apply (Hm v).
Qed.

Lemma no_empty_disconnect (u : string) (ws : Z) (m : registry) :
  no_empty m -> no_empty (disconnect u ws m).
Proof.
  intros Hm v s Hs. unfold disconnect in Hs.
  destruct (m !! u) as [s0|] eqn:Hu; [|by apply (Hm v)].
  case_bool_decide as He.
  - destruct (String.string_dec v u) as [-> | Hne].
    + by rewrite lookup_delete_eq in Hs.
    + rewrite lookup_delete_ne, lookup_insert_ne in Hs by congruence.
      by apply (Hm v).
  - destruct (String.string_dec v u) as [-> | Hne].
    + rewrite lookup_insert_eq in Hs. congruence.
    + rewrite lookup_insert_ne in Hs by congruence. by apply (Hm v).
Qed.

Lemma no_empty_broadcast (f : Z -> bool) (u : string) (m : registry) :
  no_empty m -> no_empty (broadcast_to_user f u m).
Proof.
  intros Hm. unfold broadcast_to_user. destruct (m !! u); [|exact Hm].
  generalize m Hm. induction (filter _ _) as [|ws l IH]; intros m' Hm'; simpl.
  - exact Hm'.
  - apply IH. by apply no_empty_disconnect.
Qed.

Lemma no_empty_step (o : op) (m : registry) :
  no_empty m -> no_empty (step o m).
Proof.
  intros Hm. destruct o as [ok u ws | u ws | f u]; simpl.
  - destruct (connect ok u ws m) as [m'|] eqn:Hc; [|exact Hm].
    by apply (no_empty_connect ok u ws m).
  - by apply no_empty_disconnect.
  - by apply no_empty_broadcast.
Qed.

Lemma no_empty_run (ops : list op) (m : registry) :
  no_empty m -> no_empty (run ops m).
Proof.
  unfold run. revert m. induction ops as [|o ops IH]; intros m Hm; simpl; [exact Hm|].
  apply IH. by apply no_empty_step.
Qed.

Lemma no_empty_init : no_empty ∅.
Proof. intros u s Hs. by rewrite lookup_empty in Hs. Qed.

Lemma connect_connect_disconnect (m : registry) (u : string) (c1 c2 : Z) :
  m !! u = None -> c1 <> c2 ->
  run [Connect true u c1; Connect true u c2; Disconnect u c1] m !! u = Some {[c2]}.
Proof.
  intros Hu Hne. unfold run. simpl. unfold connect, disconnect. simpl.
  rewrite Hu. repeat (rewrite lookup_insert_eq; simpl).
  case_bool_decide as He.
  - exfalso. assert (c2 ∈ ((∅ ∪ {[c1]}) ∪ {[c2]}) ∖ ({[c1]} : gset Z)) by set_solver.
    rewrite He in H. set_solver.
  - rewrite lookup_insert_eq. f_equal. set_solver.
Qed.

Lemma broadcast_absent (f : Z -> bool) (u : string) (m : registry) :
  m !! u = None -> broadcast_to_user f u m = m.
Proof. intros Hu. unfold broadcast_to_user. by rewrite Hu. Qed.

End RegistryProofs.

(** C9: after any sequence of [connect]/[disconnect]/[broadcast_to_user]
    calls on a fresh manager, no user key maps to an empty set and
    [get_connection_count] is the number of registered (user, connection)
    pairs. From such a state, for a user without connections,
    [connect(u, c1); connect(u, c2); disconnect(u, c1)] leaves exactly
    [{c2}] registered for [u], and [broadcast_to_user] leaves the registry
    unchanged (no entry is created). *)
Theorem connection_registry_invariant (ops : list SyncWebsocket.op) (u : string)
    (c1 c2 : Z) (send_fails : Z -> bool) :
  let m := SyncWebsocket.run ops ∅ in
  SyncWebsocket.no_empty m /\
  SyncWebsocket.get_connection_count m = size (SyncWebsocket.pairs m) /\
  (forall (v : string) (c : Z),
     (v, c) ∈ SyncWebsocket.pairs m <-> exists s, m !! v = Some s /\ c ∈ s) /\
  (m !! u = None -> c1 <> c2 ->
     SyncWebsocket.run [SyncWebsocket.Connect true u c1;
                        SyncWebsocket.Connect true u c2;
                        SyncWebsocket.Disconnect u c1] m !! u = Some {[c2]}) /\
  (m !! u = None -> SyncWebsocket.broadcast_to_user send_fails u m = m).
Proof.
  intros m. split; [|split; [|split; [|split]]].
  - apply no_empty_run, no_empty_init.
  - apply count_eq_size_pairs.
  - intros v c. apply elem_of_pairs.
  - intros Hu Hne. by apply connect_connect_disconnect.
  - intros Hu. by apply broadcast_absent.
Qed.

Lemma connection_registry_invariant_witness :
  let m := SyncWebsocket.run [SyncWebsocket.Connect true "alice" 1;
                              SyncWebsocket.Connect true "alice" 2;
                              SyncWebsocket.Broadcast (fun ws => Z.eqb ws 1) "alice"] ∅ in
  m !! "bob" = None /\ (10 <> 11)%Z /\
  SyncWebsocket.no_empty m /\
  SyncWebsocket.get_connection_count m = size (SyncWebsocket.pairs m) /\
  (forall (v : string) (c : Z),
     (v, c) ∈ SyncWebsocket.pairs m <-> exists s, m !! v = Some s /\ c ∈ s) /\
  (m !! "bob" = None -> (10 <> 11)%Z ->
     SyncWebsocket.run [SyncWebsocket.Connect true "bob" 10;
                        SyncWebsocket.Connect true "bob" 11;
                        SyncWebsocket.Disconnect "bob" 10] m !! "bob" = Some {[11]}) /\
  (m !! "bob" = None ->
     SyncWebsocket.broadcast_to_user (fun _ => false) "bob" m = m).
Proof.
  intros m.
  assert (Hb : m !! "bob" = None) by (unfold m; vm_compute; reflexivity).
  split; [exact Hb|]. split; [lia|].
  apply (connection_registry_invariant
           [SyncWebsocket.Connect true "alice" 1;
            SyncWebsocket.Connect true "alice" 2;
            SyncWebsocket.Broadcast (fun ws => Z.eqb ws 1) "alice"]
           "bob" 10 11 (fun _ => false)).
Defined.

(* ------------------------------------------------------------------ *)
(** ** Sample evaluations of the date arithmetic *)

Example add_days_year_end :
  DateTime.add_days (DateTime.dt_of 2024 12 31 23 59) 1
  = Py.Ret (DateTime.dt_of 2025 1 1 23 59).
Proof. reflexivity. Qed.

Example add_days_week_over_leap_day :
  DateTime.add_days (DateTime.dt_of 2024 2 26 8 0) 7
  = Py.Ret (DateTime.dt_of 2024 3 4 8 0).
Proof. reflexivity. Qed.

Example add_month_clamps_common_year :
  DateTime.add_relativedelta (DateTime.dt_of 2023 1 31 10 0) 0 1
  = Py.Ret (DateTime.dt_of 2023 2 28 10 0).
Proof. reflexivity. Qed.

Example add_month_december :
  DateTime.add_relativedelta (DateTime.dt_of 2024 12 15 9 30) 0 1
  = Py.Ret (DateTime.dt_of 2025 1 15 9 30).
Proof. reflexivity. Qed.

Example add_days_past_range :
  DateTime.add_days (DateTime.dt_of 9999 12 31 0 0) 1 = Py.Raise Py.OverflowError.
Proof. reflexivity. Qed.

Section TaskEventsProofs.
Import TaskEvents.
Variable uuid4 : nat -> string.
Variable clock : nat -> string.
Variable isoformat : Z -> string.
Variable post : nat -> Py.outcome Z.

Lemma mbind_ret {A B} (m : M A) (k : A -> M B) (st st1 : pub_state) (a : A) :
  m st = (st1, Py.Ret a) -> mbind m k st = k a st1.
Proof. intros H. unfold mbind. rewrite H. reflexivity. Qed.

Lemma publish_task_event_run (ety : Schemas.TaskEventType) (tid uid : string)
    (payload : Schemas.TaskEventPayload) (st : pub_state) :
  publish_task_event uuid4 clock post ety tid uid payload st =
  ({| counters := <[tid := default 0 (counters st !! tid) + 1]> (counters st);
      outbox := outbox st ++
        [("task-events",
          Schemas.create_task_event (uuid4 (length (outbox st)))
            (clock (length (outbox st))) ety tid uid
            (default 0 (counters st !! tid) + 1) payload)] |},
   Py.Ret (match post (length (outbox st)) with
           | Py.Ret sc => (200 <=? sc) && (sc <? 300)
           | Py.Raise _ => false
           end)).
Proof.
  unfold publish_task_event, Publisher._get_next_sequence. cbn zeta.
  rewrite publish_event_ret. reflexivity.
Qed.

Lemma publish_sync_event_run (tid uid : string) (cf : list (string * any))
    (js : list (string * Schemas.json)) (st : pub_state) :
  fields_to_json cf = Some js ->
  publish_sync_event uuid4 clock post tid uid cf st =
  ({| counters := <[tid := default 0 (counters st !! tid) + 1]> (counters st);
      outbox := outbox st ++
        [("task-updates",
          Schemas.create_sync_event (uuid4 (length (outbox st)))
            (clock (length (outbox st))) tid uid
            (default 0 (counters st !! tid) + 1) js)] |},
   Py.Ret (match post (length (outbox st)) with
           | Py.Ret sc => (200 <=? sc) && (sc <? 300)
           | Py.Raise _ => false
           end)).
Proof.
  intros Hj. unfold publish_sync_event, Publisher._get_next_sequence. cbn zeta.
  rewrite Hj. rewrite publish_event_ret. reflexivity.
Qed.

Lemma publish_sync_event_unencodable (tid uid : string) (cf : list (string * any))
    (st : pub_state) :
  fields_to_json cf = None ->
  publish_sync_event uuid4 clock post tid uid cf st =
  ({| counters := <[tid := default 0 (counters st !! tid) + 1]> (counters st);
      outbox := outbox st |}, Py.Ret false).
Proof.
  intros Hj. unfold publish_sync_event, Publisher._get_next_sequence. cbn zeta.
  rewrite Hj. reflexivity.
Qed.

Lemma publish_reminder_event_run (ety : Schemas.ReminderEventType) (tid uid : string)
    (d r : Z) (st : pub_state) :
  publish_reminder_event uuid4 clock isoformat post ety tid uid d r st =
  ({| counters := counters st;
      outbox := outbox st ++
        [("reminders",
          Schemas.create_reminder_event (uuid4 (length (outbox st)))
            (clock (length (outbox st))) isoformat ety tid uid d r None None None)] |},
   Py.Ret (match post (length (outbox st)) with
           | Py.Ret sc => (200 <=? sc) && (sc <? 300)
           | Py.Raise _ => false
           end)).
Proof.
  unfold publish_reminder_event. rewrite publish_event_ret. reflexivity.
Qed.

Ltac pub_run :=
  repeat first
    [ erewrite mbind_ret; [| apply publish_task_event_run]
    | erewrite mbind_ret; [| apply publish_sync_event_run; reflexivity]
    | erewrite mbind_ret; [| apply publish_reminder_event_run]
    | progress cbn [counters outbox t_id t_user_id t_status t_due_date t_title
                    schedule_reminder fst snd mret] ].

Ltac pub_tidy :=
  rewrite ?lookup_insert_eq, ?insert_insert_eq; cbn [default id];
  rewrite ?length_app; cbn [length]; rewrite <- ?app_assoc; cbn [app].

Lemma toggle_shape (t : task) (st : pub_state) :
  let s' := toggle_status (t_status t) in
  let c := default 0 (counters st !! t_id t) in
  let k := length (outbox st) in
  (toggle_task_completion uuid4 clock isoformat post t st).2 =
  {| counters := <[t_id t := c + 1 + 1]> (counters st);
     outbox := outbox st ++
       [("task-events",
         Schemas.create_task_event (uuid4 k) (clock k)
           (match s' with
            | COMPLETED => Schemas.COMPLETED
            | PENDING => Schemas.UPDATED
            end)
           (t_id t) (t_user_id t) (c + 1)
           (event_payload isoformat (toggle_task_completion uuid4 clock isoformat post t st).1
              (Some ["status"])));
        ("task-updates",
         Schemas.create_sync_event (uuid4 (k + 1)) (clock (k + 1)) (t_id t) (t_user_id t)
           (c + 1 + 1) [("status", Schemas.JStr (TaskStatus_value s'))])] ++
       match s', t_due_date t with
       | COMPLETED, Some d =>
           [("reminders",
             Schemas.create_reminder_event (uuid4 (k + 1 + 1)) (clock (k + 1 + 1)) isoformat
               Schemas.CANCEL (t_id t) (t_user_id t) d d None None None)]
       | _, _ => []
       end |}.
Proof.
  intros s' c k. unfold toggle_task_completion, fire_and_forget. cbn zeta.
  pub_run. subst s'.
  destruct (toggle_status (t_status t)), (t_due_date t); pub_run; pub_tidy;
    reflexivity.
Qed.

Lemma changed_due_date (u : task_update) :
  bool_decide ("due_date" ∈ changed u) =
  match u_due_date u with Some _ => true | None => false end.
Proof.
  destruct u as [[] [] [] [] [] []]; reflexivity.
Qed.

Lemma sync_changes_unencodable (u : task_update) :
  fields_to_json (sync_changes u) = None <-> is_Some (u_due_date u).
Proof.
  destruct u as [[] [] [] [] [] []]; cbn; split; intros H;
    try discriminate; try (destruct H; discriminate); try reflexivity; eauto.
Qed.

Lemma create_shape (t : task) (now : Z) (st : pub_state) :
  let c := default 0 (counters st !! t_id t) in
  let k := length (outbox st) in
  create_task uuid4 clock isoformat post t now st =
  {| counters := <[t_id t := c + 1 + 1]> (counters st);
     outbox := outbox st ++
       [("task-events",
         Schemas.create_task_event (uuid4 k) (clock k) Schemas.CREATED
           (t_id t) (t_user_id t) (c + 1) (event_payload isoformat t None));
        ("task-updates",
         Schemas.create_sync_event (uuid4 (k + 1)) (clock (k + 1)) (t_id t) (t_user_id t)
           (c + 1 + 1)
           [("action", Schemas.JStr "created"); ("title", Schemas.JStr (t_title t));
            ("status", Schemas.JStr (TaskStatus_value (t_status t)))])] ++
       match t_due_date t with
       | Some d =>
           if d - TasksRouter.FIFTEEN_MINUTES >? now then
             [("reminders",
               Schemas.create_reminder_event (uuid4 (k + 1 + 1)) (clock (k + 1 + 1))
                 isoformat Schemas.SCHEDULE (t_id t) (t_user_id t) d
                 (d - TasksRouter.FIFTEEN_MINUTES) None None None)]
           else []
       | None => []
       end |}.
Proof.
  intros c k. unfold create_task, fire_and_forget. pub_run.
  destruct (t_due_date t) as [d|]; pub_run;
    [unfold schedule_reminder; destruct (d - TasksRouter.FIFTEEN_MINUTES >? now); pub_run|];
    pub_tidy; reflexivity.
Qed.

Lemma update_shape (t : task) (u : task_update) (now : Z) (st : pub_state) :
  let c := default 0 (counters st !! t_id t) in
  let k := length (outbox st) in
  (update_task uuid4 clock isoformat post t u now st).2 =
  {| counters := <[t_id t := c + 1 + 1]> (counters st);
     outbox := outbox st ++
       [("task-events",
         Schemas.create_task_event (uuid4 k) (clock k) Schemas.UPDATED
           (t_id t) (t_user_id t) (c + 1)
           (event_payload isoformat (apply_update t u) (Some (changed u))))] ++
       match fields_to_json (sync_changes u) with
       | Some js =>
           [("task-updates",
             Schemas.create_sync_event (uuid4 (k + 1)) (clock (k + 1)) (t_id t)
               (t_user_id t) (c + 1 + 1) js)]
       | None => []
       end ++
       match u_due_date u with
       | Some d =>
           if d - TasksRouter.FIFTEEN_MINUTES >? now then
             [("reminders",
               Schemas.create_reminder_event (uuid4 (k + 1)) (clock (k + 1))
                 isoformat Schemas.SCHEDULE (t_id t) (t_user_id t) d
                 (d - TasksRouter.FIFTEEN_MINUTES) None None None)]
           else []
       | None => []
       end |}.
Proof.
  intros c k. unfold update_task, fire_and_forget. cbn zeta.
  erewrite mbind_ret; [| apply publish_task_event_run].
  rewrite changed_due_date. cbn [t_id t_user_id t_due_date apply_update counters outbox].
  destruct (u_due_date u) as [d|] eqn:Hd.
  - assert (Hj : fields_to_json (sync_changes u) = None)
      by (apply sync_changes_unencodable; rewrite Hd; eauto).
    erewrite mbind_ret; [| apply publish_sync_event_unencodable; exact Hj].
    rewrite Hj. unfold schedule_reminder. cbn [counters outbox].
    destruct (d - TasksRouter.FIFTEEN_MINUTES >? now); pub_run; pub_tidy; reflexivity.
  - destruct (fields_to_json (sync_changes u)) as [js|] eqn:Hj.
    + erewrite mbind_ret; [| apply publish_sync_event_run; exact Hj].
      pub_run. pub_tidy. reflexivity.
    + apply sync_changes_unencodable in Hj. rewrite Hd in Hj. destruct Hj; discriminate.
Qed.

Lemma delete_shape (t : task) (st : pub_state) :
  let c := default 0 (counters st !! t_id t) in
  let k := length (outbox st) in
  delete_task uuid4 clock isoformat post t st =
  {| counters := <[t_id t := c + 1 + 1]> (counters st);
     outbox := outbox st ++
       [("task-events",
         Schemas.create_task_event (uuid4 k) (clock k) Schemas.DELETED
           (t_id t) (t_user_id t) (c + 1) (event_payload isoformat t None));
        ("task-updates",
         Schemas.create_sync_event (uuid4 (k + 1)) (clock (k + 1)) (t_id t) (t_user_id t)
           (c + 1 + 1) [("action", Schemas.JStr "deleted")])] ++
       match t_due_date t with
       | Some d =>
           [("reminders",
             Schemas.create_reminder_event (uuid4 (k + 1 + 1)) (clock (k + 1 + 1)) isoformat
               Schemas.CANCEL (t_id t) (t_user_id t) d d None None None)]
       | None => []
       end |}.
Proof.
  intros c k. unfold delete_task, fire_and_forget. pub_run.
  destruct (t_due_date t); pub_run; pub_tidy; reflexivity.
Qed.

Lemma sequences_app (x : string) (a b : list (string * Schemas.CloudEvent)) :
  sequences x (a ++ b) = sequences x a ++ sequences x b.
Proof. unfold sequences. rewrite map_app, concat_app. reflexivity. Qed.

Lemma sequences_cons (x : string) te (l : list (string * Schemas.CloudEvent)) :
  sequences x (te :: l) = event_sequence x te ++ sequences x l.
Proof. reflexivity. Qed.

Lemma event_sequence_task x tp a b e tid uid n p :
  event_sequence x (tp, Schemas.create_task_event a b e tid uid n p) =
  if String.eqb tid x then [n] else [].
Proof. reflexivity. Qed.

Lemma event_sequence_sync x tp a b tid uid n js :
  event_sequence x (tp, Schemas.create_sync_event a b tid uid n js) =
  if String.eqb tid x then [n] else [].
Proof. reflexivity. Qed.

Lemma event_sequence_reminder x tp a b iso e tid uid d r ch em dv :
  event_sequence x (tp, Schemas.create_reminder_event a b iso e tid uid d r ch em dv) = [].
Proof. reflexivity. Qed.

Ltac seq_tidy :=
  rewrite ?sequences_app, ?sequences_cons, ?event_sequence_task,
    ?event_sequence_sync, ?event_sequence_reminder; cbn [sequences map concat app].

Lemma upto_succ (n : Z) : 0 <= n -> upto (n + 1) = upto n ++ [n + 1].
Proof.
  intros Hn. unfold upto. rewrite Z2Nat.inj_add by lia. rewrite seq_app, map_app.
  change (Z.to_nat 1) with 1%nat. cbn [seq map].
  rewrite Nat.add_0_l, Z2Nat.id by lia. reflexivity.
Qed.

Lemma call_shape (c : call) (st : pub_state) :
  let tid := call_task_id c in
  let c0 := default 0 (counters st !! tid) in
  counters (run_call uuid4 clock isoformat post c st) = <[tid := c0 + 1 + 1]> (counters st) /\
  exists new,
    outbox (run_call uuid4 clock isoformat post c st) = outbox st ++ new /\
    sequences tid new = [c0 + 1] ++ (if sets_due_date c then [] else [c0 + 1 + 1]) /\
    forall x, tid <> x -> sequences x new = [].
Proof.
  intros tid c0. subst tid c0.
  destruct c as [t now | t | t u now | t]; cbn [run_call call_task_id sets_due_date].
  - rewrite create_shape. split; [reflexivity|]. eexists; split; [reflexivity|].
    destruct (t_due_date t) as [d|]; [destruct (d - TasksRouter.FIFTEEN_MINUTES >? now)|];
      seq_tidy; rewrite ?String.eqb_refl; split; try reflexivity;
      intros x Hx; apply String.eqb_neq in Hx; seq_tidy; rewrite Hx; reflexivity.
  - rewrite toggle_shape. split; [reflexivity|]. eexists; split; [reflexivity|].
    destruct (toggle_status (t_status t)), (t_due_date t);
      seq_tidy; rewrite ?String.eqb_refl; split; try reflexivity;
      intros x Hx; apply String.eqb_neq in Hx; seq_tidy; rewrite Hx; reflexivity.
  - rewrite update_shape. split; [reflexivity|]. eexists; split; [reflexivity|].
    destruct (u_due_date u) as [d|] eqn:Hd.
    + assert (Hj : fields_to_json (sync_changes u) = None)
        by (apply sync_changes_unencodable; rewrite Hd; eauto).
      rewrite Hj. rewrite bool_decide_eq_true_2 by eauto.
      destruct (d - TasksRouter.FIFTEEN_MINUTES >? now);
        seq_tidy; rewrite ?String.eqb_refl; split; try reflexivity;
        intros x Hx; apply String.eqb_neq in Hx; seq_tidy; rewrite Hx; reflexivity.
    + destruct (fields_to_json (sync_changes u)) as [js|] eqn:Hj.
      * rewrite bool_decide_eq_false_2 by (intros [? ?]; discriminate).
        seq_tidy; rewrite ?String.eqb_refl; split; try reflexivity;
          intros x Hx; apply String.eqb_neq in Hx; seq_tidy; rewrite Hx; reflexivity.
      * apply sync_changes_unencodable in Hj. rewrite Hd in Hj. destruct Hj; discriminate.
  - rewrite delete_shape. split; [reflexivity|]. eexists; split; [reflexivity|].
    destruct (t_due_date t);
      seq_tidy; rewrite ?String.eqb_refl; split; try reflexivity;
      intros x Hx; apply String.eqb_neq in Hx; seq_tidy; rewrite Hx; reflexivity.
Qed.

Lemma run_calls_cons (c : call) (cs : list call) (st : pub_state) :
  run_calls uuid4 clock isoformat post (c :: cs) st =
  run_calls uuid4 clock isoformat post cs (run_call uuid4 clock isoformat post c st).
Proof. reflexivity. Qed.

Lemma run_calls_counter (cs : list call) (st : pub_state) (x : string) :
  default 0 (counters (run_calls uuid4 clock isoformat post cs st) !! x) =
  default 0 (counters st !! x) +
  2 * Z.of_nat (length (List.filter (fun c => String.eqb (call_task_id c) x) cs)).
Proof.
  revert st. induction cs as [|c cs IH]; intros st.
  - cbn. lia.
  - rewrite run_calls_cons, IH. destruct (call_shape c st) as [Hc _].
    rewrite Hc. cbn [List.filter].
    destruct (String.eqb (call_task_id c) x) eqn:Hx.
    + apply String.eqb_eq in Hx. subst x. rewrite lookup_insert_eq. cbn [length default id].
      lia.
    + apply String.eqb_neq in Hx. rewrite lookup_insert_ne by exact Hx. reflexivity.
Qed.

Lemma run_call_sublist (c : call) (st : pub_state) :
  map_Forall (fun _ v => 0 <= v) (counters st) ->
  (forall x, sequences x (outbox st) `sublist_of` upto (default 0 (counters st !! x))) ->
  let st' := run_call uuid4 clock isoformat post c st in
  map_Forall (fun _ v => 0 <= v) (counters st') /\
  (forall x, sequences x (outbox st') `sublist_of` upto (default 0 (counters st' !! x))).
Proof.
  intros Hpos Hsub st'. subst st'.
  destruct (call_shape c st) as [Hc [new [Ho [Hs Hn]]]].
  rewrite Hc, Ho.
  assert (H0 : 0 <= default 0 (counters st !! call_task_id c)).
  { destruct (counters st !! call_task_id c) eqn:E; cbn; [eapply Hpos; exact E | lia]. }
  split.
  - apply map_Forall_insert_2; [lia | exact Hpos].
  - intros x. rewrite sequences_app.
    destruct (decide (call_task_id c = x)) as [<-|Hx].
    + rewrite lookup_insert_eq. cbn [default id]. rewrite Hs.
      rewrite !upto_succ by lia. rewrite <- app_assoc.
      apply sublist_app; [apply Hsub|].
      destruct (sets_due_date c); cbn; repeat constructor.
    + rewrite lookup_insert_ne by exact Hx. rewrite (Hn x Hx), app_nil_r. apply Hsub.
Qed.

Lemma run_calls_sublist (cs : list call) (st : pub_state) :
  map_Forall (fun _ v => 0 <= v) (counters st) ->
  (forall x, sequences x (outbox st) `sublist_of` upto (default 0 (counters st !! x))) ->
  forall x, sequences x (outbox (run_calls uuid4 clock isoformat post cs st))
            `sublist_of` upto (default 0 (counters (run_calls uuid4 clock isoformat post cs st) !! x)).
Proof.
  revert st. induction cs as [|c cs IH]; intros st Hpos Hsub.
  - exact Hsub.
  - rewrite run_calls_cons. destruct (run_call_sublist c st Hpos Hsub) as [Hp' Hs'].
    apply IH; assumption.
Qed.

Lemma run_call_exact (c : call) (st : pub_state) :
  sets_due_date c = false ->
  map_Forall (fun _ v => 0 <= v) (counters st) ->
  (forall x, sequences x (outbox st) = upto (default 0 (counters st !! x))) ->
  let st' := run_call uuid4 clock isoformat post c st in
  map_Forall (fun _ v => 0 <= v) (counters st') /\
  (forall x, sequences x (outbox st') = upto (default 0 (counters st' !! x))).
Proof.
  intros Hd Hpos Hsub st'. subst st'.
  destruct (call_shape c st) as [Hc [new [Ho [Hs Hn]]]].
  rewrite Hc, Ho.
  assert (H0 : 0 <= default 0 (counters st !! call_task_id c)).
  { destruct (counters st !! call_task_id c) eqn:E; cbn; [eapply Hpos; exact E | lia]. }
  split.
  - apply map_Forall_insert_2; [lia | exact Hpos].
  - intros x. rewrite sequences_app.
    destruct (decide (call_task_id c = x)) as [<-|Hx].
    + rewrite lookup_insert_eq. cbn [default id]. rewrite Hs, Hd, Hsub.
      rewrite !upto_succ by lia. rewrite <- app_assoc. reflexivity.
    + rewrite lookup_insert_ne by exact Hx. rewrite (Hn x Hx), app_nil_r. apply Hsub.
Qed.

Lemma run_calls_exact (cs : list call) (st : pub_state) :
  forallb (fun c => negb (sets_due_date c)) cs = true ->
  map_Forall (fun _ v => 0 <= v) (counters st) ->
  (forall x, sequences x (outbox st) = upto (default 0 (counters st !! x))) ->
  forall x, sequences x (outbox (run_calls uuid4 clock isoformat post cs st))
            = upto (default 0 (counters (run_calls uuid4 clock isoformat post cs st) !! x)).
Proof.
  revert st. induction cs as [|c cs IH]; intros st Hall Hpos Hsub.
  - exact Hsub.
  - cbn [forallb] in Hall. apply andb_prop in Hall as [Hc Hall].
    apply negb_true_iff in Hc. rewrite run_calls_cons.
    destruct (run_call_exact c st Hc Hpos Hsub) as [Hp' Hs'].
    apply IH; assumption.
Qed.

Lemma init_state_inv :
  map_Forall (fun _ v => 0 <= v) (counters init_state) /\
  (forall x, sequences x (outbox init_state) = upto (default 0 (counters init_state !! x))).
Proof.
  split; [apply map_Forall_empty|]. intros x. reflexivity.
Qed.

(** X1: Over any sequence of successful create, toggle, update and delete
    calls from a fresh process, the counter of a task is twice the number of
    calls on that task, and the sequence numbers carried by the events sent
    for it are a sub-list of [1, 2, ..., counter]: increasing, without
    repetition. *)
Theorem task_event_sequence_numbers (cs : list call) (x : string) :
  let st := run_calls uuid4 clock isoformat post cs init_state in
  default 0 (counters st !! x) =
    2 * Z.of_nat (length (List.filter (fun c => String.eqb (call_task_id c) x) cs)) /\
  sequences x (outbox st) `sublist_of` upto (default 0 (counters st !! x)).
Proof.
  cbv zeta. split.
  - rewrite run_calls_counter. reflexivity.
  - destruct init_state_inv as [Hp Hs].
    apply run_calls_sublist; [exact Hp|]. intros y. rewrite (Hs y). reflexivity.
Qed.

(** X2: When no call is an update that sets a due date, the sequence
    numbers sent for each task are exactly [1, 2, ..., counter]: no number
    is lost. *)
Theorem task_event_sequence_gapless (cs : list call) (x : string) :
  forallb (fun c => negb (sets_due_date c)) cs = true ->
  sequences x (outbox (run_calls uuid4 clock isoformat post cs init_state)) =
  upto (default 0 (counters (run_calls uuid4 clock isoformat post cs init_state) !! x)).
Proof.
  intros Hall. destruct init_state_inv as [Hp Hs].
  apply run_calls_exact; assumption.
Qed.

(** X3: [toggle_task_completion] flips the status, uses two sequence
    numbers of the task, and sends a completed (or updated, when reopened)
    task event and a sync event, followed by a reminder cancel exactly when
    the task becomes completed and has a due date; that cancel carries the
    due date as its reminder time. *)
Theorem toggle_task_completion_events (t : task) (st : pub_state) :
  let r := toggle_task_completion uuid4 clock isoformat post t st in
  let c := default 0 (counters st !! t_id t) in
  t_status r.1 = toggle_status (t_status t) /\
  counters r.2 = <[t_id t := c + 2]> (counters st) /\
  exists new,
    outbox r.2 = outbox st ++ new /\
    kinds new =
      [("task-events", match toggle_status (t_status t) with
                       | COMPLETED => "com.todo.task.completed"
                       | PENDING => "com.todo.task.updated"
                       end);
       ("task-updates", "com.todo.task.sync")] ++
      match toggle_status (t_status t), t_due_date t with
      | COMPLETED, Some _ => [("reminders", "com.todo.reminder.cancel")]
      | _, _ => []
      end /\
    sequences (t_id t) new = [c + 1; c + 2] /\
    Forall (fun te => te.1 = "reminders" ->
              Schemas.dict_get "reminder_time" (Schemas.data te.2) =
              option_map (fun d => Schemas.JStr (isoformat d)) (t_due_date t)) new.
Proof.
  cbv zeta. rewrite toggle_shape. split; [reflexivity|].
  split; [cbn [counters]; rewrite <- Z.add_assoc; reflexivity|].
  eexists; split; [reflexivity|].
  destruct (toggle_status (t_status t)), (t_due_date t);
    (split; [reflexivity|]); (split; [seq_tidy; rewrite String.eqb_refl; cbn [app]; rewrite <- Z.add_assoc; reflexivity|]);
    repeat constructor; cbn; intros H; discriminate.
Qed.

(** X4: [update_task] uses two sequence numbers of the task and sends an
    updated task event. The sync event is sent only when the update leaves
    the due date alone: with a new due date [publish_sync_event] fails to
    encode the datetime, so no sync is sent while its sequence number is
    used up. A reminder schedule follows when the new due date minus 15
    minutes is after [now]; no cancel is ever sent. *)
Theorem update_task_events (t : task) (u : task_update) (now : Z) (st : pub_state) :
  let r := update_task uuid4 clock isoformat post t u now st in
  let c := default 0 (counters st !! t_id t) in
  counters r.2 = <[t_id t := c + 2]> (counters st) /\
  exists new,
    outbox r.2 = outbox st ++ new /\
    kinds new =
      ("task-events", "com.todo.task.updated") ::
      match u_due_date u with
      | None => [("task-updates", "com.todo.task.sync")]
      | Some d =>
          if d - TasksRouter.FIFTEEN_MINUTES >? now
          then [("reminders", "com.todo.reminder.schedule")] else []
      end /\
    sequences (t_id t) new =
      c + 1 :: match u_due_date u with None => [c + 2] | Some _ => [] end.
Proof.
  cbv zeta. rewrite update_shape. split; [cbn [counters]; rewrite <- Z.add_assoc; reflexivity|].
  eexists; split; [reflexivity|].
  destruct (u_due_date u) as [d|] eqn:Hd.
  - assert (Hj : fields_to_json (sync_changes u) = None)
      by (apply sync_changes_unencodable; rewrite Hd; eauto).
    rewrite Hj.
    destruct (d - TasksRouter.FIFTEEN_MINUTES >? now);
      (split; [reflexivity|]); seq_tidy; rewrite String.eqb_refl; reflexivity.
  - destruct (fields_to_json (sync_changes u)) as [js|] eqn:Hj.
    + split; [reflexivity|]. seq_tidy. rewrite String.eqb_refl. cbn [app]. rewrite <- Z.add_assoc. reflexivity.
    + apply sync_changes_unencodable in Hj. rewrite Hd in Hj. destruct Hj; discriminate.
Qed.

(** X5: [delete_task] uses two sequence numbers of the task and sends a
    deleted task event and a sync event with [action = "deleted"], followed
    by a reminder cancel exactly when the task had a due date. *)
Theorem delete_task_events (t : task) (st : pub_state) :
  let st' := delete_task uuid4 clock isoformat post t st in
  let c := default 0 (counters st !! t_id t) in
  counters st' = <[t_id t := c + 2]> (counters st) /\
  exists new,
    outbox st' = outbox st ++ new /\
    kinds new =
      [("task-events", "com.todo.task.deleted"); ("task-updates", "com.todo.task.sync")] ++
      match t_due_date t with
      | Some _ => [("reminders", "com.todo.reminder.cancel")]
      | None => []
      end /\
    sequences (t_id t) new = [c + 1; c + 2] /\
    Forall (fun te => te.1 = "task-updates" ->
              Schemas.dict_get "changed_fields" (Schemas.data te.2) =
              Some (Schemas.JObj [("action", Schemas.JStr "deleted")])) new.
Proof.
  cbv zeta. rewrite delete_shape. split; [cbn [counters]; rewrite <- Z.add_assoc; reflexivity|].
  eexists; split; [reflexivity|].
  destruct (t_due_date t);
    (split; [reflexivity|]); (split; [seq_tidy; rewrite String.eqb_refl; cbn [app]; rewrite <- Z.add_assoc; reflexivity|]);
    repeat constructor; cbn; intros H; try discriminate.
Qed.

End TaskEventsProofs.

Lemma task_event_sequence_gapless_witness :
  let t0 := {| TaskEvents.t_id := "t1"; TaskEvents.t_user_id := "alice";
               TaskEvents.t_title := "buy milk"; TaskEvents.t_description := None;
               TaskEvents.t_status := TaskEvents.PENDING; TaskEvents.t_priority := "medium";
               TaskEvents.t_tags := None; TaskEvents.t_due_date := Some 1000000;
               TaskEvents.t_recurrence := "none" |} in
  let cs := [TaskEvents.CallCreate t0 0; TaskEvents.CallToggle t0; TaskEvents.CallDelete t0] in
  let st := TaskEvents.run_calls (fun _ => "uuid") (fun _ => "now") (fun _ => "iso")
              (fun _ => Py.Ret 200) cs TaskEvents.init_state in
  forallb (fun c => negb (TaskEvents.sets_due_date c)) cs = true /\
  TaskEvents.sequences "t1" (TaskEvents.outbox st) =
  TaskEvents.upto (default 0 (TaskEvents.counters st !! "t1")).
Proof.
  intros t0 cs st. split; [reflexivity|].
  apply task_event_sequence_gapless. reflexivity.
Defined.

(* ------------------------------------------------------------------ *)
(** ** The audit service *)

Section AuditExtras.
Import AuditLogger.

Lemma attempt_body_select_err (env : attempt_env) (eid : string) (t : table)
    (f : db_fault) :
  select_err env = Some f -> attempt_body env eid t = (t, Py.Raise (fault_exc f)).
Proof. intros H. unfold attempt_body. rewrite H. reflexivity. Qed.

Lemma attempts_loop_cons (envs : nat -> attempt_env) (eid : string) (a : nat)
    (rest : list nat) (t : table) :
  attempts_loop envs eid (a :: rest) t =
  let '(t1, r) := attempt_body (envs a) eid t in
  match handle a r with
  | Return b => (t1, b)
  | Continue => attempts_loop envs eid rest t1
  end.
Proof. reflexivity. Qed.

(** X6: when the existence check fails in each of the three attempts,
    whatever the failure, [write_audit_log] gives up: it returns [False]
    and writes nothing. *)
Theorem write_audit_log_check_failures (envs : nat -> attempt_env) (eid : string)
    (t : table) :
  (forall a, (a < max_retries)%nat -> select_err (envs a) <> None) ->
  write_audit_log envs eid t = (t, false).
Proof.
  intros H. unfold write_audit_log. change (seq 0 max_retries) with [0; 1; 2]%nat.
  destruct (select_err (envs 0%nat)) as [f0|] eqn:E0;
    [| exfalso; apply (H 0%nat); [cbv; lia | exact E0]].
  rewrite attempts_loop_cons, (attempt_body_select_err _ _ _ _ E0).
  destruct f0; [cbn -[attempts_loop] | reflexivity].
  destruct (select_err (envs 1%nat)) as [f1|] eqn:E1;
    [| exfalso; apply (H 1%nat); [cbv; lia | exact E1]].
  rewrite attempts_loop_cons, (attempt_body_select_err _ _ _ _ E1).
  destruct f1; [cbn -[attempts_loop] | reflexivity].
  destruct (select_err (envs 2%nat)) as [f2|] eqn:E2;
    [| exfalso; apply (H 2%nat); [cbv; lia | exact E2]].
  rewrite attempts_loop_cons, (attempt_body_select_err _ _ _ _ E2).
  destruct f2; reflexivity.
Qed.

(** X7: an unexpected (non-operational) failure of the first existence
    check is not retried: [write_audit_log] returns [False] and writes
    nothing, whatever the later attempts would do. *)
Theorem write_audit_log_unexpected_not_retried (envs : nat -> attempt_env)
    (eid : string) (t : table) :
  select_err (envs 0%nat) = Some DbUnexpected ->
  write_audit_log envs eid t = (t, false).
Proof.
  intros H. unfold write_audit_log. change (seq 0 max_retries) with [0; 1; 2]%nat.
  rewrite attempts_loop_cons, (attempt_body_select_err _ _ _ _ H). reflexivity.
Qed.

(** X8: an [OperationalError] raised by the commit of the first attempt
    is retried: when the second attempt's check and commit succeed, the
    row is written once and [write_audit_log] returns [True], also when a
    racing redelivery inserted the row during the first attempt. *)
Theorem write_audit_log_commit_retry (envs : nat -> attempt_env) (eid : string)
    (t : table) :
  eid ∉ t ->
  select_err (envs 0%nat) = None -> commit_err (envs 0%nat) = Some DbOperational ->
  select_err (envs 1%nat) = None -> commit_err (envs 1%nat) = None ->
  write_audit_log envs eid t = (eid :: t, true).
Proof.
  intros Hn S0 C0 S1 C1.
  assert (Hr : row_exists eid t = false).
  { destruct (row_exists eid t) eqn:E; [|reflexivity].
    apply row_exists_spec in E. contradiction. }
  assert (Hr' : row_exists eid (eid :: t) = true) by (apply row_exists_spec; left).
  unfold write_audit_log. change (seq 0 max_retries) with [0; 1; 2]%nat.
  rewrite attempts_loop_cons. unfold attempt_body at 1. rewrite S0, Hr.
  unfold commit at 1. rewrite C0.
  destruct (racer (envs 0%nat)); cbn -[attempts_loop attempt_body];
    rewrite attempts_loop_cons; unfold attempt_body; rewrite S1.
  - rewrite Hr'. reflexivity.
  - rewrite Hr. unfold commit. rewrite C1.
    destruct (racer (envs 1%nat)); [rewrite Hr' | rewrite Hr]; reflexivity.
Qed.

End AuditExtras.

Section AuditConsumerExtras.
Import AuditConsumer.
Variable uuid_parse : string -> option string.
Variable fromisoformat : string -> option DateTime.datetime.

(** When [handle_task_event] gets as far as [write_audit_log], it is
    called with the parsed event id. *)
Lemma handle_task_event_cases (envs : nat -> AuditLogger.attempt_env)
    (ev : audit_event) (t : AuditLogger.table) :
  handle_task_event uuid_parse fromisoformat envs ev t = (t, false) \/
  exists eid, uuid_parse (ae_id ev) = Some eid /\
    handle_task_event uuid_parse fromisoformat envs ev t =
    AuditLogger.write_audit_log envs eid t.
Proof.
  unfold handle_task_event.
  destruct (String.eqb (ae_id ev) ""); [left; reflexivity|].
  destruct (String.eqb (ae_type ev) ""); [left; reflexivity|].
  destruct (String.eqb (ae_time ev) ""); [left; reflexivity|].
  cbn zeta.
  destruct (negb (opt_truthy (Schemas.dict_get "user_id" (ae_data ev)))); [left; reflexivity|].
  destruct (uuid_parse (ae_id ev)) as [eid|] eqn:E; [|left; reflexivity].
  destruct (parse_uuid_json uuid_parse (Schemas.dict_get "user_id" (ae_data ev)));
    [|left; reflexivity].
  destruct (if opt_truthy (Schemas.dict_get "task_id" (ae_data ev))
            then option_map Some (parse_uuid_json uuid_parse
                                    (Schemas.dict_get "task_id" (ae_data ev)))
            else Some None); [|left; reflexivity].
  destruct (fromisoformat (TaskCreator.replace_Z (ae_time ev))); [|left; reflexivity].
  right. exists eid. split; reflexivity.
Qed.

Lemma handle_task_event_nodup (envs : nat -> AuditLogger.attempt_env)
    (ev : audit_event) (t : AuditLogger.table) :
  NoDup t -> NoDup (handle_task_event uuid_parse fromisoformat envs ev t).1.
Proof.
  intros Hnd.
  destruct (handle_task_event_cases envs ev t) as [-> | [eid [_ ->]]]; [exact Hnd|].
  destruct (attempts_loop_shape envs eid (seq 0 AuditLogger.max_retries) t)
    as [H | [Hn H]]; unfold AuditLogger.write_audit_log; rewrite H; [exact Hnd|].
  constructor; assumption.
Qed.


(** X10: an event with an empty [id], [type] or [time], a falsy
    [data.user_id], an id or user id that is not a UUID, a present task id
    that is not a UUID, or a timestamp [fromisoformat] rejects, is refused:
    [False], and the table is left as it was. *)
Theorem audit_handle_task_event_rejects (envs : nat -> AuditLogger.attempt_env)
    (ev : audit_event) (t : AuditLogger.table) :
  let uid := Schemas.dict_get "user_id" (ae_data ev) in
  let tid := Schemas.dict_get "task_id" (ae_data ev) in
  ae_id ev = "" \/ ae_type ev = "" \/ ae_time ev = "" \/ opt_truthy uid = false \/
  uuid_parse (ae_id ev) = None \/ parse_uuid_json uuid_parse uid = None \/
  (opt_truthy tid = true /\ parse_uuid_json uuid_parse tid = None) \/
  fromisoformat (TaskCreator.replace_Z (ae_time ev)) = None ->
  handle_task_event uuid_parse fromisoformat envs ev t = (t, false).
Proof.
  cbv zeta. intros H. unfold handle_task_event.
  destruct (String.eqb (ae_id ev) "") eqn:E1; [reflexivity|].
  destruct (String.eqb (ae_type ev) "") eqn:E2; [reflexivity|].
  destruct (String.eqb (ae_time ev) "") eqn:E3; [reflexivity|].
  apply String.eqb_neq in E1, E2, E3. cbn zeta.
  destruct (opt_truthy (Schemas.dict_get "user_id" (ae_data ev))) eqn:E4;
    [|reflexivity]. cbn [negb].
  destruct (uuid_parse (ae_id ev)) as [eid|] eqn:E5; [|reflexivity].
  destruct (parse_uuid_json uuid_parse (Schemas.dict_get "user_id" (ae_data ev)))
    eqn:E6; [|reflexivity].
  destruct (opt_truthy (Schemas.dict_get "task_id" (ae_data ev))) eqn:E7;
    [destruct (parse_uuid_json uuid_parse (Schemas.dict_get "task_id" (ae_data ev)))
       eqn:E8; cbn [option_map]; [|reflexivity]|].
  - destruct (fromisoformat (TaskCreator.replace_Z (ae_time ev))) eqn:E9; [|reflexivity].
    exfalso. destruct H as [H|[H|[H|[H|[H|[H|[[_ H]|H]]]]]]]; congruence.
  - destruct (fromisoformat (TaskCreator.replace_Z (ae_time ev))) eqn:E9; [|reflexivity].
    exfalso. destruct H as [H|[H|[H|[H|[H|[H|[[H _]|H]]]]]]]; congruence.
Qed.

(** X11: over any sequence of deliveries to [POST /events/task-events],
    each with its own database behaviour, a table without duplicate event
    ids never gets one: redeliveries of an event never add a second row. *)
Theorem audit_deliveries_no_duplicate_rows
    (deliveries : list ((nat -> AuditLogger.attempt_env) * option audit_event))
    (t : AuditLogger.table) :
  NoDup t ->
  NoDup (fold_left (fun t d =>
           (receive_task_event uuid_parse fromisoformat d.1 d.2 t).1) deliveries t).
Proof.
  revert t. induction deliveries as [|[envs [ev|]] ds IH]; intros t Hnd; cbn [fold_left].
  - exact Hnd.
  - apply IH. cbn. by apply handle_task_event_nodup.
  - apply IH. exact Hnd.
Qed.

End AuditConsumerExtras.

Lemma write_audit_log_check_failures_witness :
  let envs := fun _ : nat =>
    {| AuditLogger.select_err := Some AuditLogger.DbOperational;
       AuditLogger.racer := false; AuditLogger.commit_err := None |} in
  (forall a, (a < AuditLogger.max_retries)%nat -> AuditLogger.select_err (envs a) <> None) /\
  AuditLogger.write_audit_log envs "evt-1" [] = ([], false).
Proof.
  intros envs. split; [intros a _; discriminate|].
  apply write_audit_log_check_failures. intros a _. discriminate.
Defined.

Lemma write_audit_log_unexpected_not_retried_witness :
  let envs := fun a : nat =>
    if Nat.eqb a 0 then
      {| AuditLogger.select_err := Some AuditLogger.DbUnexpected;
         AuditLogger.racer := false; AuditLogger.commit_err := None |}
    else AuditLogger.env_ok in
  AuditLogger.select_err (envs 0%nat) = Some AuditLogger.DbUnexpected /\
  AuditLogger.write_audit_log envs "evt-1" [] = ([], false).
Proof.
  intros envs. split; [reflexivity|].
  apply write_audit_log_unexpected_not_retried. reflexivity.
Defined.

Lemma write_audit_log_commit_retry_witness :
  let envs := fun a : nat =>
    if Nat.eqb a 0 then
      {| AuditLogger.select_err := None; AuditLogger.racer := true;
         AuditLogger.commit_err := Some AuditLogger.DbOperational |}
    else AuditLogger.env_ok in
  ("evt-1" ∉ ([] : list string)) /\
  AuditLogger.select_err (envs 0%nat) = None /\
  AuditLogger.commit_err (envs 0%nat) = Some AuditLogger.DbOperational /\
  AuditLogger.select_err (envs 1%nat) = None /\ AuditLogger.commit_err (envs 1%nat) = None /\
  AuditLogger.write_audit_log envs "evt-1" [] = (["evt-1"], true).
Proof.
  intros envs. split; [apply not_elem_of_nil|].
  split; [reflexivity|]. split; [reflexivity|]. split; [reflexivity|].
  split; [reflexivity|].
  apply write_audit_log_commit_retry; [apply not_elem_of_nil | reflexivity..].
Defined.

Lemma audit_handle_task_event_rejects_witness :
  let ev := {| AuditConsumer.ae_id := ""; AuditConsumer.ae_source := "backend-api";
               AuditConsumer.ae_type := "com.todo.task.created";
               AuditConsumer.ae_datacontenttype := "application/json";
               AuditConsumer.ae_time := "2024-01-15T10:30:00Z";
               AuditConsumer.ae_data := [("user_id", Schemas.JStr "u-1")] |} in
  AuditConsumer.ae_id ev = "" /\
  AuditConsumer.handle_task_event (fun s => Some s) (fun _ => None)
    (fun _ => AuditLogger.env_ok) ev ["evt-0"] = (["evt-0"], false).
Proof.
  intros ev. split; [reflexivity|].
  apply audit_handle_task_event_rejects. left. reflexivity.
Defined.

Lemma audit_deliveries_no_duplicate_rows_witness :
  let ev := {| AuditConsumer.ae_id := "evt-1"; AuditConsumer.ae_source := "backend-api";
               AuditConsumer.ae_type := "com.todo.task.created";
               AuditConsumer.ae_datacontenttype := "application/json";
               AuditConsumer.ae_time := "2024-01-15T10:30:00Z";
               AuditConsumer.ae_data := [("user_id", Schemas.JStr "u-1")] |} in
  let ds := [(fun _ : nat => AuditLogger.env_ok, Some ev);
             (fun _ : nat => AuditLogger.env_ok, Some ev)] in
  NoDup ([] : list string) /\
  NoDup (fold_left (fun t d =>
           (AuditConsumer.receive_task_event (fun s => Some s)
              (fun _ => Some (DateTime.dt_of 2024 1 15 10 30)) d.1 d.2 t).1) ds []).
Proof.
  intros ev ds. split; [constructor|].
  apply audit_deliveries_no_duplicate_rows. constructor.
Defined.

(* ------------------------------------------------------------------ *)
(** ** The recurring-task service *)

Section RecurringExtras.
Import TaskCreator.
Variable fromisoformat : string -> option DateTime.datetime.

(** X12: [handle_task_event] of the recurring-task consumer only ever adds
    the event's own id to the processed set, once and only when it was not
    there; it returns [True] only with that id in the set, and [False]
    only with the set unchanged. *)
Theorem recurring_handle_marks_only_own_id (posts : post_env)
    (processed : list string) (ev : RecurringConsumer.event) :
  let r := RecurringConsumer.handle_task_event fromisoformat posts processed ev in
  (r.1 = processed \/
   exists eid, RecurringConsumer.ev_id ev = Some eid /\ (eid ∉ processed) /\
               r.1 = eid :: processed) /\
  (r.2 = true -> exists eid, RecurringConsumer.ev_id ev = Some eid /\ eid ∈ r.1) /\
  (r.2 = false -> r.1 = processed).
Proof.
  cbv zeta. unfold RecurringConsumer.handle_task_event.
  destruct (RecurringConsumer.ev_id ev) as [eid|] eqn:Hid; [|split; [left|split]; easy].
  destruct (String.eqb eid ""); [split; [left|split]; easy|].
  destruct (bool_decide (eid ∈ processed)) eqn:Hin.
  - apply bool_decide_eq_true in Hin.
    split; [left; reflexivity|]. split; [|discriminate].
    intros _. exists eid. split; [reflexivity | exact Hin].
  - apply bool_decide_eq_false in Hin.
    assert (Hadd : (eid :: processed = processed \/
                    exists e, Some eid = Some e /\ (e ∉ processed) /\
                              eid :: processed = e :: processed) /\
                   (true = true -> exists e, Some eid = Some e /\ e ∈ eid :: processed) /\
                   (true = false -> eid :: processed = processed)).
    { split; [right; exists eid; auto|]. split; [|discriminate].
      intros _. exists eid. split; [reflexivity | left]. }
    destruct (negb (bool_decide (RecurringConsumer.ev_type ev =
                                 Some "com.todo.task.completed"))); [exact Hadd|].
    cbv zeta.
    destruct (bool_decide (RecurringConsumer.recurring_pattern (RecurringConsumer.ev_data ev)
                           = PatStr "none")); [exact Hadd|].
    destruct (fst (create_next_task_occurrence fromisoformat (RecurringConsumer.ev_data ev)
                     posts)); [exact Hadd|].
    split; [left; reflexivity|]. split; [discriminate | reflexivity].
Qed.

(** X13: a redelivered event, whose id is already in the processed set,
    is acknowledged as processed without any task creation: the result is
    [True] with the set unchanged, whatever its type and payload. *)
Theorem recurring_duplicate_skipped (posts : post_env)
    (processed : list string) (ev : RecurringConsumer.event) (eid : string) :
  RecurringConsumer.ev_id ev = Some eid -> eid <> "" -> eid ∈ processed ->
  RecurringConsumer.handle_task_event fromisoformat posts processed ev = (processed, true).
Proof.
  intros Hid Hne Hin. unfold RecurringConsumer.handle_task_event. rewrite Hid.
  apply String.eqb_neq in Hne. rewrite Hne.
  rewrite bool_decide_eq_true_2 by exact Hin. reflexivity.
Qed.

(** X14: a new event that is not a [task.completed], or whose payload has
    no recurrence (the [recurring_pattern] key absent, or the string
    ["none"]), is marked processed and acknowledged without calling the
    task creator. *)
Theorem recurring_skips_without_create (posts : post_env)
    (processed : list string) (ev : RecurringConsumer.event) (eid : string) :
  RecurringConsumer.ev_id ev = Some eid -> eid <> "" -> eid ∉ processed ->
  RecurringConsumer.ev_type ev <> Some "com.todo.task.completed" \/
  ed_recurring_pattern (RecurringConsumer.ev_data ev) = PatAbsent \/
  ed_recurring_pattern (RecurringConsumer.ev_data ev) = PatStr "none" ->
  RecurringConsumer.handle_task_event fromisoformat posts processed ev
    = (eid :: processed, true).
Proof.
  intros Hid Hne Hnp Hskip. unfold RecurringConsumer.handle_task_event. rewrite Hid.
  apply String.eqb_neq in Hne. rewrite Hne.
  rewrite bool_decide_eq_false_2 by exact Hnp.
  destruct (bool_decide (RecurringConsumer.ev_type ev = Some "com.todo.task.completed"))
    eqn:Ht; [|reflexivity].
  apply bool_decide_eq_true in Ht. cbn [negb]. cbv zeta.
  destruct Hskip as [Hs | Hs]; [contradiction|].
  rewrite bool_decide_eq_true_2; [reflexivity|].
  unfold RecurringConsumer.recurring_pattern. destruct Hs as [-> | ->]; reflexivity.
Qed.

(** X15: without a truthy [user_id] or [payload.title],
    [create_next_task_occurrence] returns [False] without sending any
    request. *)
Theorem create_next_task_occurrence_requires_user_and_title (ed : event_data)
    (posts : post_env) :
  truthy (ed_user_id ed) = false \/ truthy (ed_title ed) = false ->
  create_next_task_occurrence fromisoformat ed posts = (false, 0%nat).
Proof.
  intros H. unfold create_next_task_occurrence, prepare.
  destruct H as [H | H]; rewrite H; [reflexivity|].
  destruct (negb (truthy (ed_user_id ed))); reflexivity.
Qed.

Lemma post_attempt_done (r : Py.outcome (Z * option Schemas.json)) (b : bool) :
  post_attempt r = Done b ->
  (b = true <-> exists kv, r = Py.Ret (201, Some (Schemas.JObj kv))).
Proof.
  destruct r as [[sc body] | e]; cbn.
  - destruct (sc =? 201) eqn:E.
    + apply Z.eqb_eq in E. subst sc.
      destruct body as [[| | | |kv]|]; try discriminate.
      intros H. injection H as <-. split; [intros _; exists kv; reflexivity | auto].
    + destruct ((sc =? 400) || (sc =? 422)); [|discriminate].
      intros H. injection H as <-. apply Z.eqb_neq in E.
      split; [discriminate | intros (kv & H); injection H as -> _; contradiction].
  - destruct e; discriminate.
Qed.

Lemma retry_loop_spec (posts : post_env) (s k : nat) :
  let r := retry_loop posts (seq s k) in
  (r.2 <= k)%nat /\
  (forall a, (s <= a)%nat -> (a + 1 < s + r.2)%nat -> post_attempt (posts a) = Retry) /\
  (r.1 = true <-> (1 <= r.2)%nat /\
                  exists kv, posts (s + r.2 - 1)%nat = Py.Ret (201, Some (Schemas.JObj kv))).
Proof.
  cbv zeta. revert s. induction k as [|k IH]; intros s.
  - cbn. split; [lia|]. split; [intros; lia|]. split; [discriminate | intros [H _]; lia].
  - cbn [seq retry_loop].
    destruct (post_attempt (posts s)) as [b|] eqn:Hs.
    + cbn [fst snd]. split; [lia|]. split; [intros; lia|].
      replace (s + 1 - 1)%nat with s by lia.
      rewrite (post_attempt_done _ _ Hs). split; [intros H; split; [lia | exact H] | tauto].
    + destruct (IH (S s)) as (Hk & Hr & Hb).
      destruct (retry_loop posts (seq (S s) k)) as [b n] eqn:Hl. cbn [fst snd] in *.
      split; [lia|]. split.
      * intros a Ha Hlt. destruct (decide (a = s)) as [->|Hne]; [exact Hs|].
        apply Hr; lia.
      * destruct n as [|n].
        -- split; [intros Hb'; apply Hb in Hb'; lia|].
           intros [_ (kv & H)]. replace (s + 1 - 1)%nat with s in H by lia.
           rewrite H in Hs. discriminate.
        -- replace (s + S (S n) - 1)%nat with (S s + S n - 1)%nat by lia.
           rewrite Hb. split; intros [_ H]; split; auto; lia.
Qed.

(** X16: [create_next_task_occurrence] sends at most three requests; all
    but the last got a response or exception that is retried, and it
    returns [True] exactly when the last request got a 201 whose body is
    a JSON object (a 201 whose body is not JSON, or not an object, is
    retried like a server error). *)
Theorem create_next_task_occurrence_attempts (ed : event_data)
    (posts : post_env) :
  let r := create_next_task_occurrence fromisoformat ed posts in
  (r.2 <= MAX_RETRIES)%nat /\
  (forall a, (a + 1 < r.2)%nat -> post_attempt (posts a) = Retry) /\
  (r.1 = true <-> (1 <= r.2)%nat /\
                  exists kv, posts (r.2 - 1)%nat = Py.Ret (201, Some (Schemas.JObj kv))).
Proof.
  cbv zeta. unfold create_next_task_occurrence.
  destruct (prepare fromisoformat ed) as [[d|]|e].
  - destruct (retry_loop_spec posts 0 MAX_RETRIES) as (H1 & H2 & H3).
    split; [exact H1|]. split; [intros a Ha; apply H2; lia | exact H3].
  - cbn. split; [lia|]. split; [intros; lia|]. split; [discriminate | intros [H _]; lia].
  - cbn. split; [lia|]. split; [intros; lia|]. split; [discriminate | intros [H _]; lia].
Qed.

Lemma create_without_pattern (ed : event_data) (posts : post_env) :
  get_pattern (ed_recurring_pattern ed) = None ->
  create_next_task_occurrence fromisoformat ed posts = (false, 0%nat).
Proof.
  intros Hp. unfold create_next_task_occurrence, prepare.
  destruct (negb (truthy (ed_user_id ed))); [reflexivity|].
  destruct (negb (truthy (ed_title ed))); [reflexivity|].
  rewrite Hp. unfold calculate_next_due_date.
  destruct (negb (truthy (ed_due_date ed))); [reflexivity|].
  destruct (fromisoformat _); reflexivity.
Qed.

(** X29: a new [task.completed] event whose [recurring_pattern] is present
    but not a string (an explicit [null], say) passes the consumer's
    "none" check, so the task creator is called; it fails without
    sending any request, the event stays unprocessed, and the endpoint
    still answers HTTP 200 with body status "failed". *)
Theorem recurring_null_pattern_unmarked (posts : post_env)
    (processed : list string) (ev : RecurringConsumer.event) (eid : string) :
  RecurringConsumer.ev_id ev = Some eid -> eid <> "" -> eid ∉ processed ->
  RecurringConsumer.ev_type ev = Some "com.todo.task.completed" ->
  ed_recurring_pattern (RecurringConsumer.ev_data ev) = PatOther ->
  create_next_task_occurrence fromisoformat (RecurringConsumer.ev_data ev) posts
    = (false, 0%nat) /\
  RecurringConsumer.handle_task_event fromisoformat posts processed ev
    = (processed, false) /\
  RecurringConsumer.receive_task_event fromisoformat posts processed (Some ev)
    = (processed, {| RecurringConsumer.status_code := 200;
                     RecurringConsumer.body_status := "failed" |}).
Proof.
  intros Hid Hne Hnp Hty Hpat.
  assert (Hc : create_next_task_occurrence fromisoformat (RecurringConsumer.ev_data ev) posts
               = (false, 0%nat)) by (apply create_without_pattern; rewrite Hpat; reflexivity).
  assert (Hh : RecurringConsumer.handle_task_event fromisoformat posts processed ev
               = (processed, false)).
  { unfold RecurringConsumer.handle_task_event. rewrite Hid.
    apply String.eqb_neq in Hne. rewrite Hne.
    rewrite bool_decide_eq_false_2 by exact Hnp.
    rewrite Hty. cbn [negb]. rewrite bool_decide_eq_true_2 by reflexivity. cbn [negb].
    unfold RecurringConsumer.recurring_pattern. rewrite Hpat.
    rewrite bool_decide_eq_false_2 by discriminate. rewrite Hc. reflexivity. }
  split; [exact Hc|]. split; [exact Hh|].
  unfold RecurringConsumer.receive_task_event. rewrite Hh. reflexivity.
Qed.

Lemma lower_char_idem (c : Ascii.ascii) : lower_char (lower_char c) = lower_char c.
Proof. destruct c as [[] [] [] [] [] [] [] []]; reflexivity. Qed.

Lemma lower_idem (s : string) : lower (lower s) = lower s.
Proof. induction s as [|c s IH]; cbn; [reflexivity|]. rewrite lower_char_idem, IH. reflexivity. Qed.

(** X17: the recurrence pattern is read case-insensitively: a pattern
    gives the same next due date (or the same exception) as its lower-case
    form. *)
Theorem calculate_next_due_date_case_insensitive (current_due_date : option string)
    (p : string) :
  calculate_next_due_date fromisoformat current_due_date (Some p) =
  calculate_next_due_date fromisoformat current_due_date (Some (lower p)).
Proof. unfold calculate_next_due_date. rewrite lower_idem. reflexivity. Qed.

Lemma add_days_raise (d : DateTime.datetime) (n : nat) (e : Py.exc) :
  DateTime.add_days d n = Py.Raise e -> e = Py.OverflowError.
Proof.
  revert d. induction n as [|n IH]; intros d; cbn; [discriminate|].
  unfold DateTime.next_day.
  repeat match goal with |- context [if ?b then _ else _] => destruct b end;
    cbn [Py.bind]; try apply IH. intros H. injection H as <-. reflexivity.
Qed.

Lemma add_relativedelta_raise (d : DateTime.datetime) (ys ms : Z) (e : Py.exc) :
  DateTime.add_relativedelta d ys ms = Py.Raise e -> e = Py.ValueError.
Proof.
  unfold DateTime.add_relativedelta, DateTime.replace_ymd. cbv zeta.
  repeat match goal with |- context [if ?b then _ else _] => destruct b end;
    try discriminate; intros H; injection H as <-; reflexivity.
Qed.

(** X18: [calculate_next_due_date] raises only [AttributeError] for a
    missing pattern, [OverflowError] for a daily or weekly step past year
    9999, and [ValueError] for a monthly or yearly step past year 9999. *)
Theorem calculate_next_due_date_raises_only (current_due_date : option string)
    (pattern : option string) (e : Py.exc) :
  calculate_next_due_date fromisoformat current_due_date pattern = Py.Raise e ->
  (pattern = None /\ e = Py.AttributeError) \/
  (exists p, pattern = Some p /\ (lower p = "daily" \/ lower p = "weekly") /\
             e = Py.OverflowError) \/
  (exists p, pattern = Some p /\ (lower p = "monthly" \/ lower p = "yearly") /\
             e = Py.ValueError).
Proof.
  unfold calculate_next_due_date.
  destruct (negb (truthy current_due_date)); [discriminate|].
  destruct (fromisoformat _) as [cur|]; [|discriminate].
  destruct pattern as [p|]; [|intros H; injection H as <-; left; auto].
  cbv zeta.
  destruct (String.eqb (lower p) "daily") eqn:Ed.
  { apply String.eqb_eq in Ed. destruct (DateTime.add_days cur 1) eqn:Ea; cbn; [discriminate|].
    intros H; injection H as <-. right; left. exists p. split; [reflexivity|].
    split; [left; exact Ed | exact (add_days_raise _ _ _ Ea)]. }
  destruct (String.eqb (lower p) "weekly") eqn:Ew.
  { apply String.eqb_eq in Ew. destruct (DateTime.add_days cur 7) eqn:Ea; cbn; [discriminate|].
    intros H; injection H as <-. right; left. exists p. split; [reflexivity|].
    split; [right; exact Ew | exact (add_days_raise _ _ _ Ea)]. }
  destruct (String.eqb (lower p) "monthly") eqn:Em.
  { apply String.eqb_eq in Em.
    destruct (DateTime.add_relativedelta cur 0 1) eqn:Ea; cbn; [discriminate|].
    intros H; injection H as <-. right; right. exists p. split; [reflexivity|].
    split; [left; exact Em | exact (add_relativedelta_raise _ _ _ _ Ea)]. }
  destruct (String.eqb (lower p) "yearly") eqn:Ey.
  { apply String.eqb_eq in Ey.
    destruct (DateTime.add_relativedelta cur 1 0) eqn:Ea; cbn; [discriminate|].
    intros H; injection H as <-. right; right. exists p. split; [reflexivity|].
    split; [right; exact Ey | exact (add_relativedelta_raise _ _ _ _ Ea)]. }
  discriminate.
Qed.

End RecurringExtras.

Lemma recurring_duplicate_skipped_witness :
  let ev := RecurringConsumer.completed_daily_event in
  RecurringConsumer.ev_id ev = Some "evt-1" /\ "evt-1" <> "" /\ "evt-1" ∈ ["evt-1"] /\
  RecurringConsumer.handle_task_event TaskCreator.example_fromisoformat
    (fun _ => Py.Ret (201, Some (Schemas.JObj []))) ["evt-1"] ev = (["evt-1"], true).
Proof.
  intros ev. split; [reflexivity|]. split; [discriminate|]. split; [left|].
  apply (recurring_duplicate_skipped TaskCreator.example_fromisoformat _ _ _ "evt-1");
    [reflexivity | discriminate | left].
Defined.

Lemma recurring_skips_without_create_witness :
  let ev := {| RecurringConsumer.ev_id := Some "evt-2";
               RecurringConsumer.ev_type := Some "com.todo.task.completed";
               RecurringConsumer.ev_task_id := Some "task-1";
               RecurringConsumer.ev_data :=
                 {| TaskCreator.ed_user_id := Some "user-1";
                    TaskCreator.ed_title := Some "Water the plants";
                    TaskCreator.ed_recurring_pattern := TaskCreator.PatAbsent;
                    TaskCreator.ed_due_date := Some "2024-01-31T10:00" |} |} in
  RecurringConsumer.ev_id ev = Some "evt-2" /\ "evt-2" <> "" /\
  ("evt-2" ∉ ([] : list string)) /\
  (RecurringConsumer.ev_type ev <> Some "com.todo.task.completed" \/
   TaskCreator.ed_recurring_pattern (RecurringConsumer.ev_data ev) = TaskCreator.PatAbsent \/
   TaskCreator.ed_recurring_pattern (RecurringConsumer.ev_data ev)
     = TaskCreator.PatStr "none") /\
  RecurringConsumer.handle_task_event TaskCreator.example_fromisoformat
    (fun _ => Py.Ret (201, Some (Schemas.JObj []))) [] ev = (["evt-2"], true).
Proof.
  intros ev. split; [reflexivity|]. split; [discriminate|].
  split; [apply not_elem_of_nil|]. split; [right; left; reflexivity|].
  apply (recurring_skips_without_create TaskCreator.example_fromisoformat _ _ _ "evt-2");
    [reflexivity | discriminate | apply not_elem_of_nil | right; left; reflexivity].
Defined.

Lemma recurring_null_pattern_unmarked_witness :
  let ev := {| RecurringConsumer.ev_id := Some "evt-3";
               RecurringConsumer.ev_type := Some "com.todo.task.completed";
               RecurringConsumer.ev_task_id := Some "task-1";
               RecurringConsumer.ev_data :=
                 {| TaskCreator.ed_user_id := Some "user-1";
                    TaskCreator.ed_title := Some "Water the plants";
                    TaskCreator.ed_recurring_pattern := TaskCreator.PatOther;
                    TaskCreator.ed_due_date := Some "2024-01-31T10:00" |} |} in
  let posts := fun _ : nat => Py.Ret (201, Some (Schemas.JObj [])) in
  RecurringConsumer.ev_id ev = Some "evt-3" /\ "evt-3" <> "" /\
  ("evt-3" ∉ ([] : list string)) /\
  RecurringConsumer.ev_type ev = Some "com.todo.task.completed" /\
  TaskCreator.ed_recurring_pattern (RecurringConsumer.ev_data ev) = TaskCreator.PatOther /\
  (TaskCreator.create_next_task_occurrence TaskCreator.example_fromisoformat
     (RecurringConsumer.ev_data ev) posts = (false, 0%nat) /\
   RecurringConsumer.handle_task_event TaskCreator.example_fromisoformat posts [] ev
     = ([], false) /\
   RecurringConsumer.receive_task_event TaskCreator.example_fromisoformat posts [] (Some ev)
     = ([], {| RecurringConsumer.status_code := 200;
               RecurringConsumer.body_status := "failed" |})).
Proof.
  intros ev posts. split; [reflexivity|]. split; [discriminate|].
  split; [apply not_elem_of_nil|]. split; [reflexivity|]. split; [reflexivity|].
  apply (recurring_null_pattern_unmarked TaskCreator.example_fromisoformat posts [] ev "evt-3");
    [reflexivity | discriminate | apply not_elem_of_nil | reflexivity | reflexivity].
Defined.

Lemma create_next_task_occurrence_requires_user_and_title_witness :
  let ed := {| TaskCreator.ed_user_id := Some "";
               TaskCreator.ed_title := Some "Water the plants";
               TaskCreator.ed_recurring_pattern := TaskCreator.PatStr "daily";
               TaskCreator.ed_due_date := Some "2024-01-31T10:00" |} in
  (TaskCreator.truthy (TaskCreator.ed_user_id ed) = false \/
   TaskCreator.truthy (TaskCreator.ed_title ed) = false) /\
  TaskCreator.create_next_task_occurrence TaskCreator.example_fromisoformat ed
    (fun _ => Py.Ret (201, Some (Schemas.JObj []))) = (false, 0%nat).
Proof.
  intros ed. split; [left; reflexivity|].
  apply create_next_task_occurrence_requires_user_and_title. left. reflexivity.
Defined.

Lemma calculate_next_due_date_raises_only_witness :
  TaskCreator.calculate_next_due_date TaskCreator.example_fromisoformat
    (Some "2024-01-31T10:00") None = Py.Raise Py.AttributeError /\
  ((None : option string) = None /\ Py.AttributeError = Py.AttributeError \/
   (exists p, None = Some p /\
      (TaskCreator.lower p = "daily" \/ TaskCreator.lower p = "weekly") /\
      Py.AttributeError = Py.OverflowError) \/
   (exists p, None = Some p /\
      (TaskCreator.lower p = "monthly" \/ TaskCreator.lower p = "yearly") /\
      Py.AttributeError = Py.ValueError)).
Proof.
  split; [reflexivity|].
  apply (calculate_next_due_date_raises_only TaskCreator.example_fromisoformat
           (Some "2024-01-31T10:00") None Py.AttributeError).
  reflexivity.
Defined.

(* ------------------------------------------------------------------ *)
(** ** Request validators *)

Section ValidatorExtras.
Import TaskCreator RequestSchemas.

Lemma is_space_lower_char (c : Ascii.ascii) : is_space (lower_char c) = is_space c.
Proof. destruct c as [[] [] [] [] [] [] [] []]; reflexivity. Qed.

Lemma lower_empty_iff (s : string) : lower s = "" <-> s = "".
Proof. destruct s; cbn; split; intros H; (reflexivity || discriminate H). Qed.

Lemma lower_eqb_empty (s : string) : String.eqb (lower s) "" = String.eqb s "".
Proof.
  destruct (String.eqb s "") eqn:E.
  - apply String.eqb_eq in E. subst s. reflexivity.
  - apply String.eqb_neq. intros H. apply (proj1 (lower_empty_iff s)) in H. subst s.
    discriminate E.
Qed.

Lemma lstrip_lower (s : string) : lstrip (lower s) = lower (lstrip s).
Proof.
  induction s as [|c s IH]; cbn; [reflexivity|].
  rewrite is_space_lower_char. destruct (is_space c); [exact IH | reflexivity].
Qed.

Lemma rstrip_lower (s : string) : rstrip (lower s) = lower (rstrip s).
Proof.
  induction s as [|c s IH]; cbn; [reflexivity|].
  rewrite is_space_lower_char, IH, lower_eqb_empty.
  destruct (is_space c && String.eqb (rstrip s) "")%bool; reflexivity.
Qed.

Lemma strip_lower (s : string) : strip (lower s) = lower (strip s).
Proof. unfold strip. rewrite lstrip_lower, rstrip_lower. reflexivity. Qed.

Lemma lstrip_head (s : string) :
  lstrip s = "" \/ exists c s', lstrip s = String c s' /\ is_space c = false.
Proof.
  induction s as [|c s IH]; cbn; [left; reflexivity|].
  destruct (is_space c) eqn:E; [exact IH|]. right. eauto.
Qed.

Lemma rstrip_idem (s : string) : rstrip (rstrip s) = rstrip s.
Proof.
  induction s as [|c s IH]; cbn; [reflexivity|].
  destruct (is_space c && String.eqb (rstrip s) "")%bool eqn:E; [reflexivity|].
  cbn. rewrite IH, E. reflexivity.
Qed.

Lemma lstrip_rstrip_head (c : Ascii.ascii) (s : string) :
  is_space c = false -> lstrip (rstrip (String c s)) = rstrip (String c s).
Proof. intros Hc. cbn. rewrite Hc. cbn. rewrite Hc. reflexivity. Qed.

Lemma strip_idem (s : string) : strip (strip s) = strip s.
Proof.
  unfold strip. destruct (lstrip_head s) as [-> | (c & s' & -> & Hc)]; [reflexivity|].
  rewrite lstrip_rstrip_head by exact Hc. apply rstrip_idem.
Qed.

Lemma normalized_tag_fixed (tag : string) :
  let tag' := lower (strip tag) in lower (strip tag') = tag'.
Proof. cbv zeta. rewrite strip_lower, strip_idem, lower_idem. reflexivity. Qed.

Lemma normalize_tags_ret (v l : list string) :
  normalize_tags v = Py.Ret l ->
  l = map (fun tag => lower (strip tag)) v /\
  Forall (fun t => (1 <= String.length t <= 50)%nat) l.
Proof.
  revert l. induction v as [|tag v IH]; intros l; cbn [normalize_tags].
  - intros H. injection H as <-. auto.
  - destruct (Nat.ltb (String.length (lower (strip tag))) 1 ||
              Nat.ltb 50 (String.length (lower (strip tag))))%bool eqn:Hb; [discriminate|].
    destruct (normalize_tags v) as [l'|e]; cbn; [|discriminate].
    intros H. injection H as <-. destruct (IH l' eq_refl) as [-> Hf].
    split; [reflexivity|]. constructor; [|exact Hf].
    apply orb_false_iff in Hb as [H1 H2].
    apply Nat.ltb_ge in H1, H2. lia.
Qed.

Lemma normalize_tags_raise (v : list string) (e : Py.exc) :
  normalize_tags v = Py.Raise e ->
  e = Py.ValueError /\
  exists tag, In tag v /\
    (String.length (lower (strip tag)) < 1 \/ 50 < String.length (lower (strip tag)))%nat.
Proof.
  induction v as [|tag v IH]; cbn [normalize_tags]; [discriminate|].
  destruct (Nat.ltb (String.length (lower (strip tag))) 1 ||
            Nat.ltb 50 (String.length (lower (strip tag))))%bool eqn:Hb.
  - intros H. injection H as <-. split; [reflexivity|]. exists tag. split; [left; reflexivity|].
    apply orb_true_iff in Hb as [H|H]; [left | right]; apply Nat.ltb_lt in H; exact H.
  - destruct (normalize_tags v) as [l'|e']; cbn; [discriminate|].
    intros H. injection H as ->. destruct (IH eq_refl) as [He (t & Ht & Hl)].
    split; [exact He|]. exists t. split; [right; exact Ht | exact Hl].
Qed.

Lemma normalize_tags_ok (v : list string) :
  Forall (fun tag => (1 <= String.length (lower (strip tag)) <= 50)%nat) v ->
  normalize_tags v = Py.Ret (map (fun tag => lower (strip tag)) v).
Proof.
  induction v as [|tag v IH]; cbn [normalize_tags map]; [reflexivity|].
  intros Hf. inversion Hf as [|? ? Ht Hr]; subst.
  assert (Hb : (Nat.ltb (String.length (lower (strip tag))) 1 ||
                Nat.ltb 50 (String.length (lower (strip tag))))%bool = false).
  { apply orb_false_iff. split; apply Nat.ltb_ge; lia. }
  cbv zeta. rewrite Hb, (IH Hr). reflexivity.
Qed.

Lemma map_fixed {A} (f : A -> A) (l : list A) :
  Forall (fun x => f x = x) l -> map f l = l.
Proof. induction 1 as [|x l Hx _ IH]; cbn; [reflexivity|]. rewrite Hx, IH. reflexivity. Qed.

Lemma fromkeys_fold (l acc : list string) :
  let r := fold_left (fun acc x => if bool_decide (x ∈ acc) then acc else acc ++ [x]) l acc in
  (forall x, x ∈ r <-> x ∈ acc \/ x ∈ l) /\
  (NoDup acc -> NoDup r) /\
  (NoDup (acc ++ l) -> r = acc ++ l) /\
  (length r <= length acc + length l)%nat.
Proof.
  cbv zeta. revert acc. induction l as [|x l IH]; intros acc; cbn [fold_left].
  - rewrite app_nil_r. split; [intros y; set_solver|]. split; [auto|].
    split; [auto|]. cbn. lia.
  - destruct (bool_decide (x ∈ acc)) eqn:Hx.
    + apply bool_decide_eq_true in Hx.
      destruct (IH acc) as (H1 & H2 & H3 & H4). split; [|split; [exact H2|split]].
      * intros y. rewrite H1, elem_of_cons. split; [tauto|].
        intros [H|[->|H]]; auto.
      * intros Hnd. exfalso. apply NoDup_app in Hnd as (_ & Hd & _).
        apply (Hd x Hx). left.
      * cbn. lia.
    + apply bool_decide_eq_false in Hx.
      destruct (IH (acc ++ [x])) as (H1 & H2 & H3 & H4). split; [|split; [|split]].
      * intros y. rewrite H1. set_solver.
      * intros Hnd. apply H2. apply NoDup_app. split; [exact Hnd|].
        split; [|apply NoDup_singleton]. intros y Hy Hy'.
        apply list_elem_of_singleton in Hy'. subst y. contradiction.
      * intros Hnd. rewrite <- app_assoc in H3. apply H3. cbn. exact Hnd.
      * rewrite length_app in H4. cbn in *. lia.
Qed.

(** X19: tags accepted by [validate_tags] are at most ten distinct
    strings of 1 to 50 characters, each stripped and in lower case (on
    ASCII text), and validating them again returns them unchanged. *)
Theorem validate_tags_normal_form (v : option (list string)) (l : list string) :
  validate_tags v = Py.Ret (Some l) ->
  NoDup l /\ (length l <= 10)%nat /\
  Forall (fun t => (1 <= String.length t <= 50)%nat /\ lower t = t /\ strip t = t) l /\
  validate_tags (Some l) = Py.Ret (Some l).
Proof.
  destruct v as [v|]; cbn [validate_tags]; [|discriminate].
  destruct (Nat.ltb 10 (length v)) eqn:Hlen; [discriminate|].
  apply Nat.ltb_ge in Hlen.
  destruct (normalize_tags v) as [n|e] eqn:Hn; cbn [Py.bind]; [|discriminate].
  intros H. injection H as <-.
  destruct (normalize_tags_ret v n Hn) as [Hn' Hb].
  destruct (fromkeys_fold n []) as (Hm & Hd & _ & Hl).
  fold (fromkeys n) in Hm, Hd, Hl.
  assert (Hall : Forall (fun t => (1 <= String.length t <= 50)%nat /\ lower t = t /\
                                  strip t = t) (fromkeys n)).
  { apply Forall_forall. intros t Ht.
    apply (proj1 (Hm t)) in Ht as [Ht|Ht]; [inversion Ht|].
    split; [rewrite Forall_forall in Hb; apply Hb; exact Ht|].
    rewrite Hn' in Ht. apply (proj1 (list_elem_of_In _ _)), in_map_iff in Ht as (tag & <- & _).
    split; [apply lower_idem|]. rewrite strip_lower, strip_idem. reflexivity. }
  assert (Hnd : NoDup (fromkeys n)) by (apply Hd; constructor).
  assert (Hlen' : (length (fromkeys n) <= 10)%nat).
  { assert (length n = length v) by (rewrite Hn', length_map; reflexivity).
    cbn in Hl. lia. }
  split; [exact Hnd|]. split; [exact Hlen'|]. split; [exact Hall|].
  cbn [validate_tags].
  assert (Hlt : Nat.ltb 10 (length (fromkeys n)) = false) by (apply Nat.ltb_ge; lia).
  rewrite Hlt.
  assert (Hfix : Forall (fun t => lower (strip t) = t) (fromkeys n)).
  { eapply Forall_impl; [exact Hall|]. intros t (_ & Hlo & Hst). rewrite Hst. exact Hlo. }
  rewrite normalize_tags_ok.
  - cbn [Py.bind]. rewrite (map_fixed _ _ Hfix).
    destruct (fromkeys_fold (fromkeys n) []) as (_ & _ & H3 & _).
    fold (fromkeys (fromkeys n)) in H3. rewrite H3 by exact Hnd. reflexivity.
  - eapply Forall_impl; [exact Hall|]. intros t (Hb' & Hlo & Hst).
    rewrite Hst, Hlo. exact Hb'.
Qed.

(** X20: [validate_tags] fails only with [ValueError], and only for more
    than ten tags or a tag that is empty or longer than 50 characters once
    stripped and lowered. *)
Theorem validate_tags_errors (v : option (list string)) (e : Py.exc) :
  validate_tags v = Py.Raise e ->
  e = Py.ValueError /\
  exists l, v = Some l /\
    ((10 < length l)%nat \/
     exists tag, In tag l /\
       (String.length (lower (strip tag)) < 1 \/ 50 < String.length (lower (strip tag)))%nat).
Proof.
  destruct v as [l|]; cbn [validate_tags]; [|discriminate].
  destruct (Nat.ltb 10 (length l)) eqn:Hlen.
  - intros H. injection H as <-. split; [reflexivity|]. exists l. split; [reflexivity|].
    left. apply Nat.ltb_lt. exact Hlen.
  - destruct (normalize_tags l) as [n|e'] eqn:Hn; cbn [Py.bind]; [discriminate|].
    intros H. injection H as ->. destruct (normalize_tags_raise l e Hn) as [He Ht].
    split; [exact He|]. exists l. split; [reflexivity | right; exact Ht].
Qed.

Lemma elem_of_VALID_PRIORITIES (s : string) :
  s ∈ VALID_PRIORITIES -> s = "high" \/ s = "medium" \/ s = "low".
Proof. unfold VALID_PRIORITIES. intros H. repeat (apply elem_of_cons in H as [H|H]; auto). inversion H. Qed.

Lemma elem_of_VALID_RECURRENCES (s : string) :
  s ∈ VALID_RECURRENCES ->
  s = "none" \/ s = "daily" \/ s = "weekly" \/ s = "monthly" \/ s = "yearly".
Proof. unfold VALID_RECURRENCES. intros H. repeat (apply elem_of_cons in H as [H|H]; auto). inversion H. Qed.

(** X21: an accepted [TaskCreate] priority is one of high, medium, low and
    an accepted recurrence one of the valid patterns, in lower case; a
    recurrence other than "none" is one [calculate_next_due_date] knows;
    each validator returns an accepted value unchanged. *)
Theorem task_create_validators_accepted (v p r : option string) (p' r' : string) :
  (TaskCreate_validate_priority v = Py.Ret p' ->
     p' ∈ VALID_PRIORITIES /\ TaskCreate_validate_priority (Some p') = Py.Ret p') /\
  (TaskCreate_validate_recurrence r = Py.Ret r' ->
     r' ∈ VALID_RECURRENCES /\ (r' = "none" \/ known_pattern r' = true) /\
     TaskCreate_validate_recurrence (Some r') = Py.Ret r').
Proof.
  split.
  - unfold TaskCreate_validate_priority. destruct v as [s|].
    + destruct (bool_decide (lower s ∈ VALID_PRIORITIES)) eqn:Hin; cbn [negb]; [|discriminate].
      intros H. injection H as <-. apply bool_decide_eq_true in Hin.
      apply elem_of_VALID_PRIORITIES in Hin as Hc.
      assert (Hs : String.eqb s "" = false).
      { apply String.eqb_neq. intros ->. destruct Hc as [H|[H|H]]; discriminate H. }
      rewrite Hs. split; [exact Hin|].
      destruct Hc as [H|[H|H]]; rewrite H; reflexivity.
    + intros H. injection H as <-. split; [|reflexivity]. unfold VALID_PRIORITIES. set_solver.
  - unfold TaskCreate_validate_recurrence. destruct r as [s|].
    + destruct (bool_decide (lower s ∈ VALID_RECURRENCES)) eqn:Hin; cbn [negb]; [|discriminate].
      intros H. injection H as <-. apply bool_decide_eq_true in Hin.
      apply elem_of_VALID_RECURRENCES in Hin as Hc.
      assert (Hs : String.eqb s "" = false).
      { apply String.eqb_neq. intros ->. destruct Hc as [H|[H|[H|[H|H]]]]; discriminate H. }
      rewrite Hs. split; [exact Hin|].
      destruct Hc as [H|[H|[H|[H|H]]]]; rewrite H; (split; [auto | reflexivity]).
    + intros H. injection H as <-. split; [unfold VALID_RECURRENCES; set_solver|].
      split; [left; reflexivity | reflexivity].
Qed.

End ValidatorExtras.

Lemma validate_tags_normal_form_witness :
  let v := Some [" Work"; "work "; "Home"] in
  let l := ["work"; "home"] in
  RequestSchemas.validate_tags v = Py.Ret (Some l) /\
  (NoDup l /\ (length l <= 10)%nat /\
   Forall (fun t => (1 <= String.length t <= 50)%nat /\ TaskCreator.lower t = t /\
                    RequestSchemas.strip t = t) l /\
   RequestSchemas.validate_tags (Some l) = Py.Ret (Some l)).
Proof.
  cbv zeta. split; [vm_compute; reflexivity|].
  apply (validate_tags_normal_form (Some [" Work"; "work "; "Home"]) ["work"; "home"]).
  vm_compute. reflexivity.
Defined.

Lemma validate_tags_errors_witness :
  let v := Some ["ok"; "   "] in
  RequestSchemas.validate_tags v = Py.Raise Py.ValueError /\
  (Py.ValueError = Py.ValueError /\
   exists l, v = Some l /\
     ((10 < length l)%nat \/
      exists tag, In tag l /\
        (String.length (TaskCreator.lower (RequestSchemas.strip tag)) < 1 \/
         50 < String.length (TaskCreator.lower (RequestSchemas.strip tag)))%nat)).
Proof.
  cbv zeta. split; [vm_compute; reflexivity|].
  apply (validate_tags_errors (Some ["ok"; "   "]) Py.ValueError).
  vm_compute. reflexivity.
Defined.

Section SyncExtras.
Import SyncWebsocket SyncService.

Lemma disconnect_lookup_ne (u v : string) (ws : Z) (m : registry) :
  v <> u -> disconnect u ws m !! v = m !! v.
Proof.
  intros Hne. unfold disconnect. destruct (m !! u); [|reflexivity].
  case_bool_decide.
  - rewrite lookup_delete_ne, lookup_insert_ne by congruence. reflexivity.
  - rewrite lookup_insert_ne by congruence. reflexivity.
Qed.

Lemma disconnects_absent (u : string) (l : list Z) (m : registry) :
  m !! u = None -> foldl (fun m' ws => disconnect u ws m') m l = m.
Proof.
  revert m. induction l as [|ws l IH]; intros m Hu; cbn [foldl]; [reflexivity|].
  unfold disconnect at 2. rewrite Hu. apply IH, Hu.
Qed.

Lemma disconnects_lookup_ne (u v : string) (l : list Z) (m : registry) :
  v <> u -> foldl (fun m' ws => disconnect u ws m') m l !! v = m !! v.
Proof.
  intros Hne. revert m. induction l as [|ws l IH]; intros m; cbn [foldl]; [reflexivity|].
  rewrite IH. apply disconnect_lookup_ne, Hne.
Qed.

Lemma disconnects_lookup_eq (u : string) (l : list Z) (m : registry) (s : gset Z) :
  m !! u = Some s -> s <> ∅ ->
  foldl (fun m' ws => disconnect u ws m') m l !! u =
    (let t := s ∖ list_to_set l in if bool_decide (t = ∅) then None else Some t).
Proof.
  revert m s. induction l as [|ws l IH]; intros m s Hu Hs; cbn [foldl].
  - assert (Hd : s ∖ list_to_set [] = s) by set_solver. rewrite Hd, Hu. rewrite bool_decide_eq_false_2 by exact Hs.
    reflexivity.
  - unfold disconnect at 2. rewrite Hu.
    assert (Ht : s ∖ list_to_set (ws :: l) = (s ∖ {[ws]}) ∖ list_to_set l) by set_solver.
    rewrite Ht. case_bool_decide as He.
    + rewrite disconnects_absent by apply lookup_delete_eq.
      rewrite lookup_delete_eq, He.
      rewrite bool_decide_eq_true_2 by set_solver. reflexivity.
    + apply IH; [apply lookup_insert_eq | exact He].
Qed.

(** X22: [broadcast_to_user] changes no other user's connections; for a
    user with connections, it keeps exactly those whose send succeeded,
    and removes the user's entry when every send failed. *)
Theorem broadcast_to_user_effect (send_fails : Z -> bool) (u : string) (m : registry) :
  (forall v, v <> u -> broadcast_to_user send_fails u m !! v = m !! v) /\
  (forall s, m !! u = Some s -> s <> ∅ ->
     broadcast_to_user send_fails u m !! u =
       (let kept := filter (fun ws => send_fails ws = false) s in
        if bool_decide (kept = ∅) then None else Some kept)).
Proof.
  split.
  - intros v Hne. unfold broadcast_to_user. destruct (m !! u); [|reflexivity].
    apply disconnects_lookup_ne, Hne.
  - intros s Hu Hs. unfold broadcast_to_user. rewrite Hu.
    rewrite (disconnects_lookup_eq u _ m s Hu Hs).
    assert (Hk : s ∖ list_to_set (filter (fun ws => send_fails ws = true) (elements s)) =
                 filter (fun ws => send_fails ws = false) s).
    { apply set_eq. intros x.
      rewrite elem_of_difference, elem_of_list_to_set, list_elem_of_filter,
        elem_of_filter, elem_of_elements.
      destruct (send_fails x); intuition congruence. }
    rewrite Hk. reflexivity.
Qed.

Lemma pairs_connect (u : string) (ws : Z) (m : registry) :
  match connect true u ws m with
  | Py.Ret m' => pairs m' = pairs m ∪ {[(u, ws)]}
  | Py.Raise _ => False
  end.
Proof.
  unfold connect. cbn [negb]. apply set_eq. intros [v c].
  rewrite elem_of_union, elem_of_singleton, !elem_of_pairs.
  destruct (String.string_dec v u) as [-> | Hne].
  - rewrite lookup_insert_eq. destruct (m !! u) as [s|] eqn:Hu.
    + rewrite Hu. cbn [default]. split.
      * intros (s' & [= <-] & Hc). apply elem_of_union in Hc as [Hc|Hc]; [left; eauto|].
        apply elem_of_singleton in Hc as ->. right. reflexivity.
      * intros [(s' & [= <-] & Hc) | [= ->]]; eexists; (split; [reflexivity|]); set_solver.
    + rewrite lookup_insert_eq. cbn [default]. split.
      * intros (s' & [= <-] & Hc). right. f_equal. set_solver.
      * intros [(s' & Hs' & _) | [= ->]]; [congruence|].
        eexists; (split; [reflexivity|]); set_solver.
  - rewrite lookup_insert_ne by congruence.
    assert (Hl : (match m !! u with None => <[u := ∅]> m | Some _ => m end) !! v = m !! v).
    { destruct (m !! u); [reflexivity|]. apply lookup_insert_ne. congruence. }
    rewrite Hl. split; [intros H; left; exact H|].
    intros [H | [= -> _]]; [exact H | congruence].
Qed.

Lemma pairs_disconnect (u : string) (ws : Z) (m : registry) :
  pairs (disconnect u ws m) = pairs m ∖ {[(u, ws)]}.
Proof.
  apply set_eq. intros [v c].
  rewrite elem_of_difference, elem_of_singleton, !elem_of_pairs.
  destruct (String.string_dec v u) as [-> | Hne].
  - unfold disconnect. destruct (m !! u) as [s|] eqn:Hu.
    + case_bool_decide as He.
      * rewrite lookup_delete_eq. split; [intros (s' & Hs' & _); discriminate|].
        intros [(s' & [= <-] & Hc) Hn]. exfalso.
        assert (Hx : c ∈ s ∖ {[ws]}) by (apply elem_of_difference; split;
          [exact Hc | intros Hx; apply elem_of_singleton in Hx; subst; apply Hn; reflexivity]).
        rewrite He in Hx. set_solver.
      * rewrite lookup_insert_eq. split.
        -- intros (s' & [= <-] & Hc). apply elem_of_difference in Hc as [Hc Hn].
           split; [eauto|]. intros [= ->]. apply Hn, elem_of_singleton. reflexivity.
        -- intros [(s' & [= <-] & Hc) Hn]. eexists; split; [reflexivity|].
           apply elem_of_difference; split; [exact Hc|].
           intros Hx. apply elem_of_singleton in Hx. subst. apply Hn. reflexivity.
    + rewrite Hu. split; [intros (s' & Hs' & _); discriminate|].
      intros [(s' & Hs' & _) _]; discriminate.
  - rewrite disconnect_lookup_ne by exact Hne. split.
    + intros H. split; [exact H|]. intros [= ->]. congruence.
    + intros [H _]. exact H.
Qed.

(** X23: [connect] raises when [accept()]
    fails; otherwise it registers the pair (user, socket) and nothing
    else, and [get_connection_count] grows by one unless the pair was
    already registered. *)
Theorem connect_registers_pair (accept_ok : bool) (u : string) (ws : Z) (m : registry) :
  (accept_ok = false -> connect accept_ok u ws m = Py.Raise Py.OtherError) /\
  (accept_ok = true -> exists m', connect accept_ok u ws m = Py.Ret m' /\
     pairs m' = pairs m ∪ {[(u, ws)]} /\
     get_connection_count m' =
       (get_connection_count m + (if bool_decide ((u, ws) ∈ pairs m) then 0 else 1))%nat).
Proof.
  split; intros ->; [reflexivity|].
  pose proof (pairs_connect u ws m) as Hp.
  destruct (connect true u ws m) as [m'|e]; [|contradiction].
  exists m'. split; [reflexivity|]. split; [exact Hp|].
  rewrite !count_eq_size_pairs, Hp. case_bool_decide as Hin.
  - assert (Heq : pairs m ∪ {[(u, ws)]} = pairs m) by set_solver.
    rewrite Heq. lia.
  - rewrite size_union, size_singleton by set_solver. lia.
Qed.

(** X24: [disconnect] unregisters exactly the pair (user, socket), and
    [get_connection_count] drops by one if it was registered and is
    unchanged otherwise; an unknown user or socket is no error. *)
Theorem disconnect_unregisters_pair (u : string) (ws : Z) (m : registry) :
  pairs (disconnect u ws m) = pairs m ∖ {[(u, ws)]} /\
  get_connection_count (disconnect u ws m) =
    (get_connection_count m - (if bool_decide ((u, ws) ∈ pairs m) then 1 else 0))%nat.
Proof.
  split; [apply pairs_disconnect|].
  rewrite !count_eq_size_pairs, pairs_disconnect. case_bool_decide as Hin.
  - pose proof (size_difference (pairs m) {[(u, ws)]}) as Hd.
    rewrite size_singleton in Hd. rewrite Hd by set_solver. reflexivity.
  - assert (Heq : pairs m ∖ {[(u, ws)]} = pairs m) by set_solver.
    rewrite Heq. lia.
Qed.

Lemma verify_ws_token_cases (secret_key : option string) (decoded : decode_result) :
  match verify_ws_token secret_key decoded with
  | Py.Ret u => u <> "" /\ decoded = Decoded (Some u)
  | Py.Raise e => e = Py.ValueError
  end.
Proof.
  unfold verify_ws_token. destruct (TaskCreator.truthy secret_key); cbn [negb]; [|reflexivity].
  destruct decoded as [[sub|]|]; cbn; [|reflexivity|reflexivity].
  destruct (String.eqb sub "") eqn:He; cbn; [reflexivity|].
  split; [apply String.eqb_neq, He | reflexivity].
Qed.

Lemma connect_disconnect_id (u : string) (ws : Z) (m m1 : registry) :
  no_empty m -> (forall s, m !! u = Some s -> ws ∉ s) ->
  connect true u ws m = Py.Ret m1 -> disconnect u ws m1 = m.
Proof.
  intros Hm Hws Hc. unfold connect in Hc. cbn [negb] in Hc. injection Hc as <-.
  apply map_eq. intros v. destruct (String.string_dec v u) as [-> | Hne].
  - unfold disconnect. rewrite lookup_insert_eq. destruct (m !! u) as [s|] eqn:Hu.
    + rewrite ?Hu. cbn [default]. change (id s) with s.
      assert (Hs : (s ∪ {[ws]}) ∖ {[ws]} = s).
      { pose proof (Hws s eq_refl). set_solver. }
      rewrite Hs, bool_decide_eq_false_2 by (apply (Hm u), Hu).
      rewrite lookup_insert_eq. reflexivity.
    + rewrite lookup_insert_eq. cbn [default id].
      rewrite bool_decide_eq_true_2 by set_solver. apply lookup_delete_eq.
  - rewrite disconnect_lookup_ne, lookup_insert_ne by congruence.
    destruct (m !! u); [reflexivity|]. apply lookup_insert_ne. congruence.
Qed.

(** X25: [websocket_endpoint] answers a failed authentication by closing
    the socket (code 1008) without touching the registry; it raises only
    when [accept()] fails after a successful authentication; and a session
    of a socket not yet registered, on a registry without empty sets,
    leaves the registry as it found it. *)
Theorem websocket_endpoint_outcomes (secret_key : option string)
    (decoded : decode_result) (accept_ok : bool) (ws : Z) (m : registry) :
  (verify_ws_token secret_key decoded = Py.Raise Py.ValueError ->
     websocket_endpoint secret_key decoded accept_ok ws m = Py.Ret (true, m)) /\
  (forall e, websocket_endpoint secret_key decoded accept_ok ws m = Py.Raise e ->
     e = Py.OtherError /\ accept_ok = false /\
     exists u, verify_ws_token secret_key decoded = Py.Ret u) /\
  (no_empty m -> (forall v, (v, ws) ∉ pairs m) ->
     forall b m', websocket_endpoint secret_key decoded accept_ok ws m = Py.Ret (b, m') ->
     m' = m).
Proof.
  pose proof (verify_ws_token_cases secret_key decoded) as Hv.
  unfold websocket_endpoint.
  destruct (verify_ws_token secret_key decoded) as [u|e] eqn:Hver.
  - destruct Hv as [Hu _]. split; [discriminate|].
    assert (Ht : TaskCreator.truthy (Some u) = true).
    { cbn. apply negb_true_iff, String.eqb_neq, Hu. }
    rewrite Ht. split.
    + intros e. destruct accept_ok; cbn; [discriminate|].
      intros [= <-]. split; [reflexivity|]. split; [reflexivity|]. exists u. reflexivity.
    + intros Hm Hp b m'. destruct (connect accept_ok u ws m) as [m1|e] eqn:Hc;
        cbn [Py.bind]; [|discriminate].
      intros [= _ <-]. destruct accept_ok; [|discriminate].
      apply (connect_disconnect_id u ws m m1 Hm); [|exact Hc].
      intros s Hs Hin. apply (Hp u), elem_of_pairs. eauto.
  - subst e. split; [reflexivity|]. split; [discriminate|].
    intros _ _ b m' [= _ <-]. reflexivity.
Qed.

Lemma broadcast_lookup_ne (send_fails : Z -> bool) (u v : string) (m : registry) :
  v <> u -> broadcast_to_user send_fails u m !! v = m !! v.
Proof.
  intros Hne. unfold broadcast_to_user. destruct (m !! u); [|reflexivity].
  apply disconnects_lookup_ne, Hne.
Qed.

Lemma handle_task_update_only_user (send_fails : Z -> bool) (data : Schemas.json)
    (m : registry) (v : string) :
  handle_task_update send_fails data m !! v <> m !! v ->
  exists kv, data = Schemas.JObj kv /\
    Schemas.dict_get "user_id" kv = Some (Schemas.JStr v) /\ v <> "".
Proof.
  unfold handle_task_update. destruct data as [| | | |kv]; try contradiction.
  destruct (Schemas.dict_get "user_id" kv) as [[|u| | |]|] eqn:Hu; try contradiction.
  destruct (String.eqb u "") eqn:He; [contradiction|].
  intros Hne. destruct (String.string_dec v u) as [-> | Hvu].
  - exists kv. split; [reflexivity|]. split; [exact Hu|]. apply String.eqb_neq, He.
  - exfalso. apply Hne, broadcast_lookup_ne, Hvu.
Qed.

(** X26: [handle_event] always answers "success", and the only user whose
    connections it can change is the non-empty [user_id] of the event's
    [data] object (of the event itself when it has no [data] key). *)
Theorem handle_event_only_named_user (send_fails : Z -> bool)
    (event : list (string * Schemas.json)) (m : registry) :
  (handle_event send_fails event m).2 = "success" /\
  forall v, (handle_event send_fails event m).1 !! v <> m !! v ->
    exists kv, (Schemas.dict_get "data" event = Some (Schemas.JObj kv) \/
                (Schemas.dict_get "data" event = None /\ kv = event)) /\
               Schemas.dict_get "user_id" kv = Some (Schemas.JStr v) /\ v <> "".
Proof.
  unfold handle_event. cbn [fst snd]. split; [reflexivity|].
  intros v Hv. apply handle_task_update_only_user in Hv as (kv & Hd & Hu & Hne).
  exists kv. split; [|split; [exact Hu | exact Hne]].
  destruct (Schemas.dict_get "data" event) as [d|]; [left; congruence|].
  right. split; [reflexivity | congruence].
Qed.

(** X28: [verify_ws_token] returns a user id exactly when the secret is
    set and the token decodes to a payload with a non-empty [sub] claim,
    which it returns; every failure is a [ValueError]. *)
Theorem verify_ws_token_spec (secret_key : option string) (decoded : decode_result) :
  (forall u, verify_ws_token secret_key decoded = Py.Ret u <->
     TaskCreator.truthy secret_key = true /\ decoded = Decoded (Some u) /\ u <> "") /\
  (forall e, verify_ws_token secret_key decoded = Py.Raise e -> e = Py.ValueError).
Proof.
  split.
  - intros u. unfold verify_ws_token. destruct (TaskCreator.truthy secret_key); cbn [negb].
    + destruct decoded as [[sub|]|]; cbn.
      * destruct (String.eqb sub "") eqn:He; cbn.
        -- apply String.eqb_eq in He. subst sub. split; [discriminate|].
           intros (_ & [= <-] & H). contradiction.
        -- apply String.eqb_neq in He. split.
           ++ intros [= <-]. auto.
           ++ intros (_ & [= <-] & _). reflexivity.
      * split; [discriminate|]. intros (_ & H & _). discriminate.
      * split; [discriminate|]. intros (_ & H & _). discriminate.
    + split; [discriminate|]. intros (H & _). discriminate.
  - intros e. unfold verify_ws_token. destruct (TaskCreator.truthy secret_key); cbn [negb].
    + destruct decoded as [[sub|]|]; cbn; [|congruence|congruence].
      destruct (String.eqb sub ""); cbn; congruence.
    + congruence.
Qed.

End SyncExtras.

Section UpdateValidatorExtras.
Import TaskCreator RequestSchemas.

(** X27: the [TaskUpdate] priority and recurrence validators leave an
    absent field absent (no default is filled in), and on a given value
    they accept, reject and normalise exactly as the [TaskCreate] ones. *)
Theorem task_update_validators_agree_with_create :
  TaskUpdate_validate_priority None = Py.Ret None /\
  TaskUpdate_validate_recurrence None = Py.Ret None /\
  (forall s, TaskUpdate_validate_priority (Some s) =
     Py.bind (TaskCreate_validate_priority (Some s)) (fun p => Py.Ret (Some p))) /\
  (forall s, TaskUpdate_validate_recurrence (Some s) =
     Py.bind (TaskCreate_validate_recurrence (Some s)) (fun r => Py.Ret (Some r))).
Proof.
  split; [reflexivity|]. split; [reflexivity|].
  split; intros s;
    (destruct (String.eqb_spec s "") as [-> | Hne]; [reflexivity|]);
    unfold TaskUpdate_validate_priority, TaskCreate_validate_priority,
      TaskUpdate_validate_recurrence, TaskCreate_validate_recurrence;
    (destruct (bool_decide _); cbn [negb Py.bind]; [|reflexivity]);
    apply String.eqb_neq in Hne; rewrite Hne; reflexivity.
Qed.

End UpdateValidatorExtras.
